(** * Movie recommender front end: client contract and view-model transforms

    A shallow embedding of [streamlit_app.py]: the three API helpers
    ([fetch_stats], [fetch_recommendations], [check_api_health]), the
    per-movie view-model computations of the result loop ([score_norm],
    [ret_norm], [genres_html], [year_str]), the CSV export ([df_export],
    [csv], [file_name]) and the sidebar controls.

    Conventions.
    - Python text is a [string] holding the UTF-8 bytes of the text, so
      [str.encode("utf-8")] is the list of bytes of the string.  The
      separator used by the code is the single byte 0x7C, which never occurs
      inside a multi-byte UTF-8 sequence, hence splitting bytes and splitting
      code points agree.
    - Python floats are IEEE 754 binary64 numbers, modelled by the
      executable specification [spec_float] of the standard library with
      [prec = 53] and [emax = 1024].
    - Code that may raise lives in an error monad; code that talks to the
      network or reads the clock lives in a state-and-error monad over an
      explicit [world]. *)

From Stdlib Require Import ZArith List String Ascii Bool Lia QArith Lqa.
From Stdlib Require Import Floats.SpecFloat.
From Stdlib Require Import Numbers.DecimalString.
From Stdlib Require Numbers.DecimalPos Numbers.DecimalZ.
Import ListNotations.

Set Warnings "-register-all".
Set Warnings "-automation".
Set Warnings "-default".

Open Scope string_scope.
Open Scope Z_scope.

(* ================================================================== *)
(** * Python values                                                    *)
(* ================================================================== *)

(** The values [json.loads] can produce, which are also the cell values of
    the export rows. A [dict] keeps its insertion order (the column order of
    the export depends on it), so it is an association list; keys are
    unique in every dict the code builds. *)
Inductive pyval : Type :=
| VNone
| VBool (b : bool)
| VInt (z : Z)
| VFloat (f : spec_float)
| VStr (s : string)
| VList (l : list pyval)
| VDict (d : list (string * pyval)).

(** [type(v).__name__] *)
Definition type_name (v : pyval) : string :=
  match v with
  | VNone => "NoneType"
  | VBool _ => "bool"
  | VInt _ => "int"
  | VFloat _ => "float"
  | VStr _ => "str"
  | VList _ => "list"
  | VDict _ => "dict"
  end.

Fixpoint assoc_lookup (k : string) (d : list (string * pyval)) : option pyval :=
  match d with
  | [] => None
  | (k', v) :: rest => if String.eqb k k' then Some v else assoc_lookup k rest
  end.

(* ================================================================== *)
(** * Exceptions and the error monad                                   *)
(* ================================================================== *)

(** The exception classes that matter to the handlers of the API helpers.
    [ProxyError], [SSLError] and [ConnectTimeout] are subclasses of
    [requests.exceptions.ConnectionError]; [ReadTimeout] and
    [JSONDecodeError] are [RequestException]s that are not. *)
Inductive exc_class : Type :=
| ConnectionError | ProxyError | SSLError | ConnectTimeout
| ReadTimeout | JSONDecodeError
| AttributeError | KeyError | TypeError | ZeroDivisionError | OverflowError
| OtherException.

(** An exception object: its class and [str(e)]. Every class above derives
    from [Exception]. *)
Record exn : Type := mk_exn { exc_type : exc_class; exc_text : string }.

(** [isinstance(e, requests.exceptions.ConnectionError)] *)
Definition is_connection_error (e : exn) : bool :=
  match exc_type e with
  | ConnectionError | ProxyError | SSLError | ConnectTimeout => true
  | _ => false
  end.

Inductive result (A : Type) : Type :=
| Ok (a : A)
| Raise (e : exn).
Arguments Ok {A} a.
Arguments Raise {A} e.

Definition rbind {A B : Type} (m : result A) (k : A -> result B) : result B :=
  match m with
  | Ok a => k a
  | Raise e => Raise e
  end.

(** [dict.get(key, default)] as a method call on an arbitrary value: only a
    dict has the attribute. *)
Definition py_get (obj : pyval) (key : string) (default : pyval) : result pyval :=
  match obj with
  | VDict d =>
      Ok match assoc_lookup key d with
         | Some v => v
         | None => default
         end
  | _ => Raise (mk_exn AttributeError
                 ("'" ++ type_name obj ++ "' object has no attribute 'get'"))
  end.

(* ================================================================== *)
(** * The network and the clock                                        *)
(* ================================================================== *)

Inductive http_method : Type := GET | POST.

Record http_request : Type := mk_request {
  req_method : http_method;
  req_url : string;
  req_json : option pyval;
  req_timeout : Z
}.

(** A received response: the status line and what [r.json()] gives when it
    is called (the parsed body, or the [JSONDecodeError] it raises). *)
Record http_response : Type := mk_response {
  status_code : Z;
  json : result pyval
}.

(** [Response.ok]: [raise_for_status] would not raise, which it does for
    the codes from 400 to 599. *)
Definition ok (r : http_response) : bool :=
  negb ((400 <=? status_code r) && (status_code r <? 600)).

(** The state the helpers run in. [net n req] is what the [n]-th request
    ever sent meets: a response, or the exception that [requests] raises
    (connection refused, timeout, ...). [sent] logs the requests issued, the
    latest first. [now] is the monotonic clock in seconds, and
    [stats_cache] the single entry of the cache behind [fetch_stats]: the
    cached value with the clock reading at which it was stored. *)
Record world : Type := mk_world {
  net : nat -> http_request -> result http_response;
  sent : list http_request;
  now : Q;
  stats_cache : option (Q * pyval)
}.

Definition M (A : Type) : Type := world -> result A * world.

Definition ret {A : Type} (a : A) : M A := fun w => (Ok a, w).

Definition raise {A : Type} (e : exn) : M A := fun w => (Raise e, w).

Definition bind {A B : Type} (m : M A) (k : A -> M B) : M B :=
  fun w =>
    match m w with
    | (Ok a, w') => k a w'
    | (Raise e, w') => (Raise e, w')
    end.

Definition lift {A : Type} (r : result A) : M A := fun w => (r, w).

(** [try: body except Exception as e: handler(e)] *)
Definition try_except {A : Type} (body : M A) (handler : exn -> M A) : M A :=
  fun w =>
    match body w with
    | (Ok a, w') => (Ok a, w')
    | (Raise e, w') => handler e w'
    end.

Declare Scope py_scope.
Delimit Scope py_scope with py.
Notation "x <- m ;; k" := (bind m (fun x => k))
  (at level 61, m at next level, right associativity) : py_scope.

(** One request: it is logged, then answered by the network. *)
Definition http_send (req : http_request) : M http_response :=
  fun w =>
    (net w (List.length (sent w)) req,
     mk_world (net w) (req :: sent w) (now w) (stats_cache w)).

(** [requests.get(url, timeout=t)] *)
Definition requests_get (url : string) (timeout : Z) : M http_response :=
  http_send (mk_request GET url None timeout).

(** [requests.post(url, json=payload, timeout=t)] *)
Definition requests_post (url : string) (payload : pyval) (timeout : Z)
  : M http_response :=
  http_send (mk_request POST url (Some payload) timeout).

(* ================================================================== *)
(** * Config and API helpers                                           *)
(* ================================================================== *)

(** The [Config] block of the module: its one setting. *)
Record config : Type := mk_config { API_URL : string }.

(** The module as shipped. *)
Definition shipped_config : config := mk_config "http://localhost:8000".

Section ApiHelpers.
Variable cfg : config.
Open Scope py_scope.

(** The body of [fetch_stats], without its decorator. *)
Definition fetch_stats_body : M pyval :=
  try_except
    (r <- requests_get (API_URL cfg ++ "/stats") 5 ;;
     if ok r then lift (json r) else ret VNone)
    (fun _ => ret VNone).

(** [@st.cache_data(ttl=60)] around a function without arguments: one
    cache entry, stored with the clock reading of the store, and served
    while the clock is before that reading plus [ttl]. A call that raises
    stores nothing. *)
Definition cache_data (ttl : Q) (f : M pyval) : M pyval :=
  fun w =>
    let miss :=
      match f w with
      | (Ok v, w') =>
          (Ok v, mk_world (net w') (sent w') (now w') (Some (now w', v)))
      | (Raise e, w') => (Raise e, w')
      end in
    match stats_cache w with
    | Some (stored_at, v) =>
        if Qlt_le_dec (now w) (stored_at + ttl) then (Ok v, w) else miss
    | None => miss
    end.

Definition fetch_stats : M pyval := cache_data 60 fetch_stats_body.

Definition recommend_payload (user_id top_k top_n : Z) : pyval :=
  VDict [("user_id", VInt user_id);
         ("top_k_retrieve", VInt top_k);
         ("top_n_final", VInt top_n)].

Definition connect_message : string :=
  "Cannot connect to API. Make sure FastAPI is running on port 8000.".

Definition fetch_recommendations (user_id top_k top_n : Z)
  : M (pyval * pyval) :=
  try_except
    (let payload := recommend_payload user_id top_k top_n in
     r <- requests_post (API_URL cfg ++ "/recommend") payload 30 ;;
     if ok r then
       data <- lift (json r) ;;
       ret (data, VNone)
     else
       body <- lift (json r) ;;
       detail <- lift (py_get body "detail" (VStr "Unknown error")) ;;
       ret (VNone, detail))
    (fun e =>
       if is_connection_error e
       then ret (VNone, VStr connect_message)
       else ret (VNone, VStr (exc_text e))).

Definition check_api_health : M bool :=
  try_except
    (r <- requests_get (API_URL cfg ++ "/") 3 ;;
     ret (ok r))
    (fun _ => ret false).

End ApiHelpers.

(** A call made when the clock reads [t]. *)
Definition at_time {A : Type} (t : Q) (m : M A) : M A :=
  fun w => m (mk_world (net w) (sent w) t (stats_cache w)).

(* ================================================================== *)
(** * Numbers: binary64 floats and exact mixed comparison              *)
(* ================================================================== *)

Definition prec : Z := 53.
Definition emax : Z := 1024.

(** The float literal [5.0]: 5 * 2^50 * 2^-50, in canonical form. *)
Definition float_5 : spec_float := S754_finite false 5629499534213120 (-50).

Definition float_is_zero (f : spec_float) : bool :=
  match f with
  | S754_zero _ => true
  | _ => false
  end.

(** [float(n)] for an int: the nearest double, ties to even;
    [OverflowError] when there is none. *)
Definition float_of_int (n : Z) : result spec_float :=
  match binary_normalize prec emax n 0 false with
  | S754_infinity _ =>
      Raise (mk_exn OverflowError "int too large to convert to float")
  | f => Ok f
  end.

(** Comparison of a float with an int, as [float.__lt__] and its siblings
    do it: on the exact values, never through a rounding conversion. *)
Definition cmp_float_int (f : spec_float) (n : Z) : option comparison :=
  match f with
  | S754_nan => None
  | S754_infinity s => Some (if s then Lt else Gt)
  | S754_zero _ => Some (0 ?= n)
  | S754_finite s m e =>
      let sm := if s then Zneg m else Zpos m in
      Some (if 0 <=? e then (sm * 2 ^ e ?= n) else (sm ?= n * 2 ^ (- e)))
  end.

Definition int_of_bool (b : bool) : Z := if b then 1 else 0.

(** The three-way comparison behind [<], [>], [<=], [==] on numbers:
    [None] when the operands are not both numbers ([TypeError] for the
    ordering operators), [Some None] when they are unordered (a NaN). *)
Definition num_compare (a b : pyval) : option (option comparison) :=
  let as_int v :=
    match v with
    | VInt z => Some z
    | VBool b => Some (int_of_bool b)
    | _ => None
    end in
  match a, b with
  | VFloat x, VFloat y => Some (SFcompare x y)
  | VFloat x, _ =>
      match as_int b with
      | Some n => Some (cmp_float_int x n)
      | None => None
      end
  | _, VFloat y =>
      match as_int a with
      | Some n => Some (option_map CompOpp (cmp_float_int y n))
      | None => None
      end
  | _, _ =>
      match as_int a, as_int b with
      | Some m, Some n => Some (Some (m ?= n))
      | _, _ => None
      end
  end.

Definition unsupported (op : string) (a b : pyval) : exn :=
  mk_exn TypeError
    ("'" ++ op ++ "' not supported between instances of '"
         ++ type_name a ++ "' and '" ++ type_name b ++ "'").

(** [a < b] *)
Definition py_lt (a b : pyval) : result bool :=
  match num_compare a b with
  | Some (Some Lt) => Ok true
  | Some _ => Ok false
  | None => Raise (unsupported "<" a b)
  end.

(** [a > b] *)
Definition py_gt (a b : pyval) : result bool :=
  match num_compare a b with
  | Some (Some Gt) => Ok true
  | Some _ => Ok false
  | None => Raise (unsupported ">" a b)
  end.

(** [a <= b] and [a == b] on numbers, used to state properties. *)
Definition num_le (a b : pyval) : bool :=
  match num_compare a b with
  | Some (Some Lt) | Some (Some Eq) => true
  | _ => false
  end.

Definition num_eq (a b : pyval) : bool :=
  match num_compare a b with
  | Some (Some Eq) => true
  | _ => false
  end.

(** The builtin [min(a, b)]: the first argument is kept unless the second
    is strictly smaller. *)
Definition py_min (a b : pyval) : result pyval :=
  rbind (py_lt b a) (fun smaller => Ok (if smaller then b else a)).

(** The builtin [max(a, b)]: the first argument is kept unless the second
    is strictly greater. *)
Definition py_max (a b : pyval) : result pyval :=
  rbind (py_gt b a) (fun greater => Ok (if greater then b else a)).

(** [a / b] *)
Definition py_truediv (a b : pyval) : result pyval :=
  let as_float v :=
    match v with
    | VFloat f => Some (Ok f)
    | VInt z => Some (float_of_int z)
    | VBool b => Some (float_of_int (int_of_bool b))
    | _ => None
    end in
  match as_float a, as_float b with
  | Some ra, Some rb =>
      rbind ra (fun x =>
      rbind rb (fun y =>
        if float_is_zero y
        then Raise (mk_exn ZeroDivisionError "float division by zero")
        else Ok (VFloat (SFdiv prec emax x y))))
  | _, _ =>
      Raise (mk_exn TypeError
               ("unsupported operand type(s) for /: '" ++ type_name a
                  ++ "' and '" ++ type_name b ++ "'"))
  end.

(** [obj[key]] with a string key. A list and a text take an index, not a
    key, and say so (the texts are those of CPython 3.11 and later); the
    other values take no subscript. *)
Definition py_getitem (obj : pyval) (key : string) : result pyval :=
  match obj with
  | VDict d =>
      match assoc_lookup key d with
      | Some v => Ok v
      | None => Raise (mk_exn KeyError ("'" ++ key ++ "'"))
      end
  | VList _ =>
      Raise (mk_exn TypeError
               "list indices must be integers or slices, not str")
  | VStr _ =>
      Raise (mk_exn TypeError "string indices must be integers, not 'str'")
  | _ => Raise (mk_exn TypeError
                 ("'" ++ type_name obj ++ "' object is not subscriptable"))
  end.

(** Truth value of an object, as [if] tests it. *)
Definition py_truthy (v : pyval) : bool :=
  match v with
  | VNone => false
  | VBool b => b
  | VInt z => negb (z =? 0)
  | VFloat f => negb (float_is_zero f)
  | VStr s => negb (String.eqb s EmptyString)
  | VList l => match l with [] => false | _ => true end
  | VDict d => match d with [] => false | _ => true end
  end.

(** [str(n)] for an int. *)
Definition str_of_int (z : Z) : string := NilZero.string_of_int (Z.to_int z).

(* ================================================================== *)
(** * Text: split and join                                             *)
(* ================================================================== *)

(** [s.split(sep)] for a separator of one character: the pieces between
    the occurrences of [sep], empty pieces included; never an empty list. *)
Fixpoint split (sep : ascii) (s : string) : list string :=
  match s with
  | EmptyString => [EmptyString]
  | String c rest =>
      if Ascii.eqb c sep then EmptyString :: split sep rest
      else match split sep rest with
           | piece :: pieces => String c piece :: pieces
           | [] => [String c EmptyString]
           end
  end.

(** [sep.join(pieces)] *)
Fixpoint join (sep : string) (pieces : list string) : string :=
  match pieces with
  | [] => EmptyString
  | [piece] => piece
  | piece :: rest => piece ++ sep ++ join sep rest
  end.

(** [c in s] for a character. *)
Fixpoint contains (c : ascii) (s : string) : bool :=
  match s with
  | EmptyString => false
  | String c' rest => Ascii.eqb c' c || contains c rest
  end.

Definition pipe : ascii := "|"%char.
Definition dquote : ascii := ascii_of_nat 34.

(** [obj.split("|")] as a method call on an arbitrary value. *)
Definition py_split_pipe (obj : pyval) : result (list string) :=
  match obj with
  | VStr s => Ok (split pipe s)
  | _ => Raise (mk_exn AttributeError
                 ("'" ++ type_name obj ++ "' object has no attribute 'split'"))
  end.

(* ================================================================== *)
(** * The payload schema                                               *)
(* ================================================================== *)

(** One entry of [recommendations] as the backend declares it (the schema
    lives in the backend, the client only reads the keys). [year] is the
    optional field: JSON [null] when the backend has none. *)
Record RecommendedMovie : Type := mk_movie {
  rank : Z;
  movie_id : Z;
  title : string;
  genres : string;
  year : option Z;
  ranking_score : spec_float;
  retrieval_score : spec_float
}.

Definition option_int (o : option Z) : pyval :=
  match o with
  | Some z => VInt z
  | None => VNone
  end.

(** The dict that [r.json()] holds for a movie of the schema. *)
Definition movie_json (m : RecommendedMovie) : pyval :=
  VDict [("rank", VInt (rank m));
         ("movie_id", VInt (movie_id m));
         ("title", VStr (title m));
         ("genres", VStr (genres m));
         ("year", option_int (year m));
         ("ranking_score", VFloat (ranking_score m));
         ("retrieval_score", VFloat (retrieval_score m))].

(* ================================================================== *)
(** * View-model: the per-movie computations of the result loop        *)
(* ================================================================== *)

Section ViewModel.
(** [str] of the values whose rendering is Python's business (floats,
    lists, dicts): not decided by this program. *)
Variable py_repr : pyval -> string.

(** [str(v)] *)
Definition py_str (v : pyval) : string :=
  match v with
  | VNone => "None"
  | VBool b => if b then "True" else "False"
  | VInt z => str_of_int z
  | VStr s => s
  | _ => py_repr v
  end.

(** [max(0, min(1, movie["ranking_score"] / 5.0))] *)
Definition score_norm (movie : pyval) : result pyval :=
  rbind (py_getitem movie "ranking_score") (fun score =>
  rbind (py_truediv score (VFloat float_5)) (fun q =>
  rbind (py_min (VInt 1) q) (fun lo =>
  py_max (VInt 0) lo))).

(** [max(0, min(1, movie["retrieval_score"]))] *)
Definition ret_norm (movie : pyval) : result pyval :=
  rbind (py_getitem movie "retrieval_score") (fun score =>
  rbind (py_min (VInt 1) score) (fun lo =>
  py_max (VInt 0) lo)).

(** The sequence the generator of [genres_html] runs over. *)
Definition genre_list (movie : pyval) : result (list string) :=
  rbind (py_getitem movie "genres") py_split_pipe.

Definition genre_tag (g : string) : string :=
  "<span class=" ++ String dquote "genre-tag" ++ String dquote ">"
    ++ g ++ "</span>".

Definition genres_html (movie : pyval) : result string :=
  rbind (genre_list movie) (fun gs =>
  Ok (join EmptyString (map genre_tag gs))).

(** [str(movie["year"]) if movie["year"] else "N/A"] *)
Definition year_str (movie : pyval) : result string :=
  rbind (py_getitem movie "year") (fun cond =>
  if py_truthy cond
  then rbind (py_getitem movie "year") (fun y => Ok (py_str y))
  else Ok "N/A").

(* ================================================================ *)
(** * Export                                                         *)
(* ================================================================ *)

(** The dict built for one movie by the comprehension of [df_export]. *)
Definition export_record (m : pyval) : result pyval :=
  rbind (py_getitem m "rank") (fun v_rank =>
  rbind (py_getitem m "movie_id") (fun v_id =>
  rbind (py_getitem m "title") (fun v_title =>
  rbind (py_getitem m "genres") (fun v_genres =>
  rbind (py_getitem m "year") (fun v_year =>
  rbind (py_getitem m "ranking_score") (fun v_rating =>
  rbind (py_getitem m "retrieval_score") (fun v_retrieval =>
  Ok (VDict [("Rank", v_rank);
             ("Movie ID", v_id);
             ("Title", v_title);
             ("Genres", v_genres);
             ("Year", v_year);
             ("Predicted Rating", v_rating);
             ("Retrieval Score", v_retrieval)])))))))).

(** [[export_record(m) for m in recs]] *)
Fixpoint export_records (recs : list pyval) : result (list pyval) :=
  match recs with
  | [] => Ok []
  | m :: rest =>
      rbind (export_record m) (fun row =>
      rbind (export_records rest) (fun rows =>
      Ok (row :: rows)))
  end.

(** A frame: the number of rows, the column labels and, per column, its
    cells from top to bottom. *)
Record DataFrame : Type := mk_frame {
  n_rows : nat;
  columns : list string;
  data : list (list pyval)
}.

Definition dict_items (v : pyval) : list (string * pyval) :=
  match v with
  | VDict d => d
  | _ => []
  end.

Fixpoint add_label (k : string) (labels : list string) : list string :=
  match labels with
  | [] => [k]
  | k' :: rest => if String.eqb k k' then labels else k' :: add_label k rest
  end.

Definition is_none (v : pyval) : bool :=
  match v with VNone => true | _ => false end.

Definition is_int (v : pyval) : bool :=
  match v with VInt _ => true | _ => false end.

Definition is_float (v : pyval) : bool :=
  match v with VFloat _ => true | _ => false end.

(** What a numeric column may hold: floats, [None] and ints from [lo] up
    to [hi], [hi] excluded. *)
Definition numeric_or_none (lo hi : Z) (v : pyval) : bool :=
  match v with
  | VNone | VFloat _ => true
  | VInt z => (lo <=? z) && (z <? hi)
  | _ => false
  end.

(** A column of numbers: its ints fit 64 bits, all as signed ints or all
    as unsigned ones. A column with an int beyond that, or with ints of
    both kinds that fit neither, is a column of objects. *)
Definition numeric_column (col : list pyval) : bool :=
  forallb (numeric_or_none (- 2 ^ 63) (2 ^ 63)) col
  || forallb (numeric_or_none 0 (2 ^ 64)) col.

Definition to_float64 (v : pyval) : pyval :=
  match v with
  | VInt z => VFloat (binary_normalize prec emax z 0 false)
  | VNone => VFloat S754_nan
  | _ => v
  end.

(** The type inference of pandas on one column of Python objects: a
    column of numbers that holds a float, or an int beside a [None],
    becomes a column of floats, [None] turning into NaN; any other column
    is kept as it is. *)
Definition infer_column (col : list pyval) : list pyval :=
  if numeric_column col
     && (existsb is_float col || (existsb is_none col && existsb is_int col))
  then map to_float64 col
  else col.

(** [pd.DataFrame(records)] for a list of dicts: the columns are the
    keys of the records in order of first appearance, so a frame built
    from no record has no column; a key that a record lacks gives NaN. *)
Definition pd_DataFrame (records : list pyval) : DataFrame :=
  let labels :=
    fold_left (fun acc r => fold_left (fun acc' kv => add_label (fst kv) acc')
                                      (dict_items r) acc)
              records [] in
  mk_frame (List.length records) labels
    (map (fun k =>
            infer_column
              (map (fun r => match assoc_lookup k (dict_items r) with
                             | Some v => v
                             | None => VFloat S754_nan
                             end) records))
         labels).

Fixpoint index_of (k : string) (labels : list string) : option nat :=
  match labels with
  | [] => None
  | k' :: rest =>
      if String.eqb k k' then Some O else option_map S (index_of k rest)
  end.

(** [list(df[label])]: the cells of one column, top to bottom. *)
Definition frame_column (df : DataFrame) (label : string) : list pyval :=
  match index_of label (columns df) with
  | Some i => nth i (data df) []
  | None => []
  end.

(** The cells of row [i], left to right. *)
Definition frame_row (df : DataFrame) (i : nat) : list pyval :=
  map (fun col => nth i col VNone) (data df).

(** A field as the [csv] writer puts it with minimal quoting: quoted, its
    quotes doubled, when it holds the delimiter, a quote or a line break
    (a carriage return or a line feed, as CPython 3.13 and later decide
    it; earlier versions quote a line break only when it occurs in the
    line terminator). *)
Fixpoint double_quotes (s : string) : string :=
  match s with
  | EmptyString => EmptyString
  | String c rest =>
      if Ascii.eqb c dquote
      then String dquote (String dquote (double_quotes rest))
      else String c (double_quotes rest)
  end.

Definition csv_field (s : string) : string :=
  if contains ","%char s || contains dquote s
     || contains (ascii_of_nat 10) s || contains (ascii_of_nat 13) s
  then String dquote (double_quotes s) ++ String dquote EmptyString
  else s.

(** [pd.isna(v)] *)
Definition pd_isna (v : pyval) : bool :=
  match v with
  | VNone | VFloat S754_nan => true
  | _ => false
  end.

(** A cell as [to_csv] writes it: a missing value is the empty field
    ([na_rep] is the empty string), anything else its text. *)
Definition csv_cell (v : pyval) : string :=
  if pd_isna v then EmptyString else csv_field (py_str v).

(** The lines of [df.to_csv(index=False)]: the header, then the rows. *)
Definition to_csv_lines (df : DataFrame) : list string :=
  join "," (map csv_field (columns df))
    :: map (fun i => join "," (map csv_cell (frame_row df i)))
           (seq 0 (n_rows df)).

(** [df.to_csv(index=False)], each line closed by the line terminator. *)
Definition to_csv (linesep : string) (df : DataFrame) : string :=
  String.concat EmptyString (map (fun l => l ++ linesep) (to_csv_lines df)).

(** [text.encode("utf-8")] *)
Definition encode_utf8 (text : string) : list Byte.byte :=
  list_byte_of_string text.

(** The arguments [st.download_button] is called with. *)
Record download : Type := mk_download {
  dl_data : list Byte.byte;
  dl_file_name : string;
  dl_mime : string
}.

(** [df_export]: the frame of the records of the comprehension. *)
Definition df_export (recs : list pyval) : result DataFrame :=
  rbind (export_records recs) (fun records => Ok (pd_DataFrame records)).

(** The export block: [df_export], [csv] and the download offered. *)
Definition export (linesep : string) (user_id : Z) (recs : list pyval)
  : result download :=
  rbind (df_export recs) (fun df =>
  let csv := encode_utf8 (to_csv linesep df) in
  Ok (mk_download csv
        ("recommendations_user_" ++ py_str (VInt user_id) ++ ".csv")
        "text/csv")).

End ViewModel.

(* ================================================================== *)
(** * The stats panel of the sidebar                                   *)
(* ================================================================== *)

(** Digits in groups of three, counted from the right, with a comma
    between the groups. *)
Fixpoint group_digits (s : string) : string :=
  match s with
  | EmptyString => EmptyString
  | String c rest =>
      String c
        (if negb (Nat.eqb (String.length rest) 0)
            && Nat.eqb (String.length rest mod 3) 0
         then String ","%char (group_digits rest)
         else group_digits rest)
  end.

(** [format(z, ",")] for an int. *)
Definition with_thousands (z : Z) : string :=
  if z <? 0 then String "-"%char (group_digits (str_of_int (- z)))
  else group_digits (str_of_int z).

Section StatsPanel.
(** [str] of floats, lists and dicts, and [format(x, ",")] of a float:
    Python's renderings, not decided by this program. *)
Variable py_repr : pyval -> string.
Variable format_comma_float : spec_float -> string.

(** [format(v, ",")]: text does not take a thousands separator, and no
    value other than a number takes a format. *)
Definition py_format_comma (v : pyval) : result string :=
  match v with
  | VInt z => Ok (with_thousands z)
  | VBool b => Ok (with_thousands (int_of_bool b))
  | VFloat f => Ok (format_comma_float f)
  | VStr _ => Raise (mk_exn OtherException "Cannot specify ',' with 's'.")
  | _ =>
      Raise (mk_exn TypeError
               ("unsupported format string passed to " ++ type_name v
                  ++ ".__format__"))
  end.

(** [if stats: ...]: the three numbers of the panel, or no panel. *)
Definition stats_panel (stats : pyval)
  : result (option (string * string * string)) :=
  if py_truthy stats then
    rbind (rbind (py_getitem stats "total_users") py_format_comma)
          (fun users =>
    rbind (rbind (py_getitem stats "total_movies") py_format_comma)
          (fun movies =>
    rbind (py_getitem stats "total_genres") (fun total_genres =>
    Ok (Some (users, movies, py_str py_repr total_genres)))))
  else Ok None.

(** [stats = fetch_stats()] and the panel made of it. *)
Definition sidebar_stats (cfg : config)
  : M (option (string * string * string)) :=
  bind (fetch_stats cfg) (fun stats => lift (stats_panel stats)).

End StatsPanel.

(* ================================================================== *)
(** * Sidebar controls and the script's calls                          *)
(* ================================================================== *)

(** The numeric arguments of [st.number_input] and [st.slider]. *)
Record control : Type := mk_control {
  min_value : Z;
  max_value : Z;
  value : Z;
  step : Z
}.

Definition user_id_input : control := mk_control 1 6040 1 1.
Definition top_n_slider : control := mk_control 5 30 10 5.
Definition top_k_slider : control := mk_control 50 500 200 50.

(** The values a control hands to the script: those between [min_value]
    and [max_value] that lie a whole number of steps above [min_value]. *)
Definition offers (c : control) (v : Z) : bool :=
  (min_value c <=? v) && (v <=? max_value c)
  && ((v - min_value c) mod step c =? 0).

(** What the sidebar returns in one run of the script. *)
Record sidebar : Type := mk_sidebar {
  user_id : Z;
  top_n : Z;
  top_k : Z;
  recommend_btn : bool
}.

Definition sidebar_ok (s : sidebar) : bool :=
  offers user_id_input (user_id s)
  && offers top_n_slider (top_n s)
  && offers top_k_slider (top_k s).

Definition recommend_request (cfg : config) (u k n : Z) : http_request :=
  mk_request POST (API_URL cfg ++ "/recommend")
             (Some (recommend_payload u k n)) 30.

Section Script.
(** Python's renderings of floats, lists and dicts, as in the stats
    panel. *)
Variable py_repr : pyval -> string.
Variable format_comma_float : spec_float -> string.
Variable cfg : config.
Open Scope py_scope.

(** One run of the script from the sidebar to the fetch of the results
    block, in program order: the health probe, the stats and their panel,
    then the recommendations when the button was pressed and the probe
    succeeded. An exception of the panel ends the run where it is raised.
    The run returns the panel and the answer of the fetch, if any. *)
Definition script (s : sidebar)
  : M (option (string * string * string) * option (pyval * pyval)) :=
  api_ok <- check_api_health cfg ;;
  panel <- sidebar_stats py_repr format_comma_float cfg ;;
  if recommend_btn s then
    if negb api_ok then ret (panel, None)
    else
      answer <- fetch_recommendations cfg (user_id s) (top_k s) (top_n s) ;;
      ret (panel, Some answer)
  else ret (panel, None).
End Script.

Definition stats_request (cfg : config) : http_request :=
  mk_request GET (API_URL cfg ++ "/stats") None 5.

(** The answer of the network to the request of [fetch_stats]. *)
Definition stats_outcome (cfg : config) (w : world) : result http_response :=
  net w (List.length (sent w)) (stats_request cfg).

(** [m1] then [m2], keeping both results. *)
Definition both {A B : Type} (m1 : M A) (m2 : M B) : M (A * B) :=
  bind m1 (fun a => bind m2 (fun b => ret (a, b))).

(* ================================================================== *)
(** * Properties of the API helpers                                    *)
(* ================================================================== *)

Lemma run_fetch_recommendations (cfg : config) (u k n : Z) (w : world) :
  exists answer,
    fetch_recommendations cfg u k n w
    = (Ok answer,
       mk_world (net w) (recommend_request cfg u k n :: sent w)
                (now w) (stats_cache w))
    /\ answer =
       match net w (List.length (sent w)) (recommend_request cfg u k n) with
       | Ok r =>
           if ok r then
             match json r with
             | Ok data => (data, VNone)
             | Raise e =>
                 (VNone, VStr (if is_connection_error e
                               then connect_message else exc_text e))
             end
           else
             match rbind (json r)
                     (fun body => py_get body "detail" (VStr "Unknown error"))
             with
             | Ok detail => (VNone, detail)
             | Raise e =>
                 (VNone, VStr (if is_connection_error e
                               then connect_message else exc_text e))
             end
       | Raise e =>
           (VNone, VStr (if is_connection_error e
                         then connect_message else exc_text e))
       end.
Proof.
  unfold fetch_recommendations, try_except, bind, requests_post, http_send,
    recommend_request, lift, ret.
  destruct (net w (List.length (sent w)) _) as [r | e]; cbn.
  - destruct (ok r); cbn.
    + destruct (json r) as [data | e]; cbn.
      * eexists; split; reflexivity.
      * destruct (is_connection_error e); eexists; split; reflexivity.
    + destruct (json r) as [body | e]; cbn.
      * destruct (py_get body "detail" (VStr "Unknown error")) as [d | e]; cbn.
        -- eexists; split; reflexivity.
        -- destruct (is_connection_error e); eexists; split; reflexivity.
      * destruct (is_connection_error e); eexists; split; reflexivity.
  - destruct (is_connection_error e); eexists; split; reflexivity.
Qed.

(** The answer of the network to the request of [fetch_recommendations]. *)
Definition recommend_outcome (cfg : config) (u k n : Z) (w : world)
  : result http_response :=
  net w (List.length (sent w)) (recommend_request cfg u k n).

(** C2. How [fetch_recommendations] classifies failures: a response with an
    error status whose body is a JSON object gives the [detail] entry of
    the body as the error, or "Unknown error" when the body has none (a 404
    with detail "User not found" gives exactly that text); an exception of
    the connection-error family gives the fixed message, whatever its own
    text; any other exception, raised by the transport or while reading the
    body, gives its own text. *)
Theorem fetch_recommendations_failure_classes :
  forall (cfg : config) (u k n : Z) (w : world),
    (forall r d,
        recommend_outcome cfg u k n w = Ok r ->
        ok r = false ->
        json r = Ok (VDict d) ->
        fst (fetch_recommendations cfg u k n w)
        = Ok (VNone, match assoc_lookup "detail" d with
                     | Some v => v
                     | None => VStr "Unknown error"
                     end))
    /\ (recommend_outcome cfg u k n w
        = Ok (mk_response 404
                (Ok (VDict [("detail", VStr "User not found")]))) ->
        fst (fetch_recommendations cfg u k n w)
        = Ok (VNone, VStr "User not found"))
    /\ (forall e,
           recommend_outcome cfg u k n w = Raise e ->
           is_connection_error e = true ->
           fst (fetch_recommendations cfg u k n w)
           = Ok (VNone, VStr connect_message))
    /\ (forall e,
           recommend_outcome cfg u k n w = Raise e ->
           is_connection_error e = false ->
           fst (fetch_recommendations cfg u k n w)
           = Ok (VNone, VStr (exc_text e)))
    /\ (forall r e,
           recommend_outcome cfg u k n w = Ok r ->
           rbind (json r)
             (fun body =>
                if ok r then Ok body
                else py_get body "detail" (VStr "Unknown error"))
           = Raise e ->
           is_connection_error e = false ->
           fst (fetch_recommendations cfg u k n w)
           = Ok (VNone, VStr (exc_text e))).
Proof.
  intros cfg u k n w.
  destruct (run_fetch_recommendations cfg u k n w) as (ans & Hrun & Hans).
  unfold recommend_outcome.
  rewrite Hrun; cbn [fst].
  repeat split.
  - intros r d Hout Hok Hjson.
    rewrite Hout, Hok, Hjson in Hans. cbn in Hans. now subst.
  - intros Hout. rewrite Hout in Hans. cbn in Hans. now subst.
  - intros e Hout Hc. rewrite Hout, Hc in Hans. now subst.
  - intros e Hout Hc. rewrite Hout, Hc in Hans. now subst.
  - intros r e Hout Hexc Hc. rewrite Hout in Hans.
    destruct (ok r).
    + destruct (json r) as [body | e']; cbn in Hexc; [discriminate |].
      injection Hexc as ->. rewrite Hc in Hans. now subst.
    + rewrite Hexc, Hc in Hans. now subst.
Qed.

(** A refused connection whose exception text is arbitrary, and a server
    that answers 404 with a detail. *)
Definition refusing_world (text : string) : world :=
  mk_world (fun _ _ => Raise (mk_exn ConnectionError text)) [] 0%Q None.

Definition answering_world (status : Z) (body : result pyval) : world :=
  mk_world (fun _ _ => Ok (mk_response status body)) [] 0%Q None.

Lemma fetch_recommendations_failure_classes_witness :
  fst (fetch_recommendations shipped_config 1 200 10
         (answering_world 404 (Ok (VDict [("detail", VStr "User not found")]))))
  = Ok (VNone, VStr "User not found")
  /\ fst (fetch_recommendations shipped_config 1 200 10
            (refusing_world "Connection refused"))
     = Ok (VNone, VStr connect_message).
Proof.
  split.
  - apply (fetch_recommendations_failure_classes shipped_config 1 200 10
             (answering_world 404
                (Ok (VDict [("detail", VStr "User not found")])))).
    reflexivity.
  - apply (fetch_recommendations_failure_classes shipped_config 1 200 10
             (refusing_world "Connection refused")
           ) with (e := mk_exn ConnectionError "Connection refused");
      reflexivity.
Defined.




Lemma run_fetch_stats_body (cfg : config) (w : world) :
  exists v,
    fetch_stats_body cfg w
    = (Ok v, mk_world (net w) (stats_request cfg :: sent w)
                      (now w) (stats_cache w))
    /\ v = match stats_outcome cfg w with
           | Ok r => if ok r
                     then match json r with Ok body => body | Raise _ => VNone end
                     else VNone
           | Raise _ => VNone
           end.
Proof.
  unfold fetch_stats_body, try_except, bind, requests_get, http_send,
    stats_outcome, stats_request, lift, ret.
  destruct (net w (List.length (sent w)) _) as [r | e]; cbn.
  - destruct (ok r); cbn.
    + destruct (json r); eexists; split; reflexivity.
    + eexists; split; reflexivity.
  - eexists; split; reflexivity.
Qed.

(** A call of [fetch_stats] that finds no entry: one request, whose result
    is stored with the current clock reading. *)
Lemma fetch_stats_miss (cfg : config) (w : world) :
  stats_cache w = None ->
  exists v,
    fetch_stats cfg w
    = (Ok v, mk_world (net w) (stats_request cfg :: sent w)
                      (now w) (Some (now w, v)))
    /\ fst (fetch_stats_body cfg w) = Ok v.
Proof.
  intros Hnone. unfold fetch_stats, cache_data. rewrite Hnone.
  destruct (run_fetch_stats_body cfg w) as (v & -> & _).
  exists v. split; reflexivity.
Qed.

(** A call that finds an entry younger than the time to live: no request,
    the stored value. *)
Lemma fetch_stats_hit (cfg : config) (w : world) (stored_at : Q) (v : pyval) :
  stats_cache w = Some (stored_at, v) ->
  (now w < stored_at + 60)%Q ->
  fetch_stats cfg w = (Ok v, w).
Proof.
  intros Hsome Hfresh. unfold fetch_stats, cache_data. rewrite Hsome.
  destruct (Qlt_le_dec (now w) (stored_at + 60)) as [_ | Hle];
    [reflexivity | exfalso; lra].
Qed.



(** A backend that is down for the first request and up afterwards. *)
Definition recovering_world : world :=
  mk_world (fun n _ =>
              match n with
              | O => Raise (mk_exn ReadTimeout "Read timed out.")
              | _ => Ok (mk_response 200 (Ok (VDict [("total_users", VInt 6040)])))
              end)
           [] 0%Q None.


(* ================================================================== *)
(** * Properties of the sidebar controls                               *)
(* ================================================================== *)

Lemma run_check_api_health (cfg : config) (w : world) :
  exists b,
    check_api_health cfg w
    = (Ok b, mk_world (net w)
                      (mk_request GET (API_URL cfg ++ "/") None 3 :: sent w)
                      (now w) (stats_cache w)).
Proof.
  unfold check_api_health, try_except, bind, requests_get, http_send, ret.
  destruct (net w (List.length (sent w)) _); eexists; reflexivity.
Qed.

Lemma run_fetch_stats (cfg : config) (w : world) :
  exists v w',
    fetch_stats cfg w = (Ok v, w')
    /\ (sent w' = sent w \/ sent w' = stats_request cfg :: sent w).
Proof.
  unfold fetch_stats, cache_data.
  destruct (run_fetch_stats_body cfg w) as (v & -> & _).
  destruct (stats_cache w) as [[stored_at v0] |].
  - destruct (Qlt_le_dec _ _); do 2 eexists; (split; [reflexivity |]);
      [now left | now right].
  - do 2 eexists. split; [reflexivity | now right].
Qed.

Lemma offers_user_id (v : Z) :
  offers user_id_input v = true <-> 1 <= v <= 6040.
Proof.
  unfold offers, user_id_input; cbn.
  rewrite !andb_true_iff, !Z.leb_le, Z.eqb_eq, Z.mod_1_r. lia.
Qed.

Lemma offers_top_n (v : Z) :
  offers top_n_slider v = true <-> In v [5; 10; 15; 20; 25; 30].
Proof.
  unfold offers, top_n_slider; cbn.
  rewrite !andb_true_iff, !Z.leb_le, Z.eqb_eq. split.
  - intros [[Hlo Hhi] Hmod].
    Z.to_euclidean_division_equations. lia.
  - intros H.
    repeat (destruct H as [<- | H]; [repeat split; reflexivity || lia |]).
    destruct H.
Qed.

Lemma offers_top_k (v : Z) :
  offers top_k_slider v = true
  <-> In v [50; 100; 150; 200; 250; 300; 350; 400; 450; 500].
Proof.
  unfold offers, top_k_slider; cbn.
  rewrite !andb_true_iff, !Z.leb_le, Z.eqb_eq. split.
  - intros [[Hlo Hhi] Hmod].
    Z.to_euclidean_division_equations. lia.
  - intros H.
    repeat (destruct H as [<- | H]; [repeat split; reflexivity || lia |]).
    destruct H.
Qed.

Lemma run_sidebar_stats
  (py_repr : pyval -> string) (format_comma_float : spec_float -> string)
  (cfg : config) (w : world) :
  exists stats w',
    fetch_stats cfg w = (Ok stats, w')
    /\ sidebar_stats py_repr format_comma_float cfg w
       = (stats_panel py_repr format_comma_float stats, w')
    /\ (sent w' = sent w \/ sent w' = stats_request cfg :: sent w).
Proof.
  unfold sidebar_stats, bind, lift.
  destruct (run_fetch_stats cfg w) as (stats & w' & Hrun & Hsent).
  exists stats, w'. rewrite Hrun. repeat split; assumption.
Qed.

(** The requests of one run of the script are the new entries of the log,
    and the only POST among them is the recommend request of the sidebar
    values. *)
Lemma script_posts
  (py_repr : pyval -> string) (format_comma_float : spec_float -> string)
  (cfg : config) (s : sidebar) (w : world) :
  exists new,
    sent (snd (script py_repr format_comma_float cfg s w))
    = (new ++ sent w)%list
    /\ forall req,
        In req new -> req_method req = POST ->
        req = recommend_request cfg (user_id s) (top_k s) (top_n s).
Proof.
  unfold script, bind.
  destruct (run_check_api_health cfg w) as (api_ok & ->).
  set (w1 := mk_world _ _ _ _).
  destruct (run_sidebar_stats py_repr format_comma_float cfg w1)
    as (stats & w2 & _ & -> & Hsent2).
  assert (Hget : exists gets, sent w2 = (gets ++ sent w)%list
                              /\ forall req, In req gets -> req_method req = GET).
  { destruct Hsent2 as [-> | ->]; subst w1; cbn [sent].
    - exists [mk_request GET (API_URL cfg ++ "/") None 3]. split; [reflexivity |].
      intros req [<- | []]. reflexivity.
    - exists [stats_request cfg; mk_request GET (API_URL cfg ++ "/") None 3].
      split; [reflexivity |].
      intros req [<- | [<- | []]]; reflexivity. }
  destruct Hget as (gets & Hgets & Hall).
  assert (Hnone : exists new,
             sent w2 = (new ++ sent w)%list
             /\ forall req,
                 In req new -> req_method req = POST ->
                 req = recommend_request cfg (user_id s) (top_k s) (top_n s)).
  { exists gets. split; [exact Hgets |].
    intros req Hin Hpost. apply Hall in Hin. congruence. }
  destruct (stats_panel py_repr format_comma_float stats) as [panel | e];
    [| exact Hnone].
  destruct (recommend_btn s); [destruct api_ok |]; cbn [negb ret snd];
    try exact Hnone.
  destruct (run_fetch_recommendations cfg (user_id s) (top_k s) (top_n s) w2)
    as (answer & -> & _).
  cbn [snd sent]. rewrite Hgets.
  exists (recommend_request cfg (user_id s) (top_k s) (top_n s) :: gets).
  split; [reflexivity |].
  intros req [<- | Hin] Hpost; [reflexivity |].
  apply Hall in Hin. congruence.
Qed.

(** C8. The sidebar offers exactly the stated values: [user_id] the
    integers from 1 to 6040, [top_n] the values 5, 10, ..., 30 and [top_k]
    the values 50, 100, ..., 500. The base URL is the setting of the
    [Config] block, http://localhost:8000 as shipped, and every request
    goes to the configured base. Every POST that a run of the script issues
    is the recommend request carrying the three sidebar values, each within
    its range. *)
Theorem sidebar_parameters_in_range :
  (forall v, offers user_id_input v = true <-> 1 <= v <= 6040)
  /\ (forall v, offers top_n_slider v = true
                <-> In v [5; 10; 15; 20; 25; 30])
  /\ (forall v, offers top_k_slider v = true
                <-> In v [50; 100; 150; 200; 250; 300; 350; 400; 450; 500])
  /\ API_URL shipped_config = "http://localhost:8000"
  /\ (forall (py_repr : pyval -> string)
             (format_comma_float : spec_float -> string)
             (cfg : config) (s : sidebar) (w : world),
         sidebar_ok s = true ->
         exists new,
           sent (snd (script py_repr format_comma_float cfg s w))
           = (new ++ sent w)%list
           /\ forall req,
               In req new -> req_method req = POST ->
               req_url req = API_URL cfg ++ "/recommend"
               /\ req_json req
                  = Some (VDict [("user_id", VInt (user_id s));
                                 ("top_k_retrieve", VInt (top_k s));
                                 ("top_n_final", VInt (top_n s))])
               /\ 1 <= user_id s <= 6040
               /\ In (top_n s) [5; 10; 15; 20; 25; 30]
               /\ In (top_k s)
                     [50; 100; 150; 200; 250; 300; 350; 400; 450; 500]).
Proof.
  split; [exact offers_user_id |].
  split; [exact offers_top_n |].
  split; [exact offers_top_k |].
  split; [reflexivity |].
  intros py_repr format_comma_float cfg s w Hok.
  unfold sidebar_ok in Hok. rewrite !andb_true_iff in Hok.
  destruct Hok as [[Hu Hn] Hk].
  apply offers_user_id in Hu. apply offers_top_n in Hn.
  apply offers_top_k in Hk.
  destruct (script_posts py_repr format_comma_float cfg s w)
    as (new & Hsent & Hposts).
  exists new. split; [exact Hsent |].
  intros req Hin Hpost. rewrite (Hposts req Hin Hpost).
  cbn [recommend_request req_url req_json recommend_payload].
  repeat split; tauto || lia.
Qed.

Lemma sidebar_parameters_in_range_witness :
  exists new,
    sent (snd (script (fun _ => EmptyString) (fun _ => EmptyString)
                 shipped_config (mk_sidebar 42 10 200 true)
                 (answering_world 200 (Ok (VDict [])))))
    = (new ++ [])%list
    /\ In (recommend_request shipped_config 42 200 10) new.
Proof.
  destruct sidebar_parameters_in_range as (_ & _ & _ & _ & Hrun).
  destruct (Hrun (fun _ => EmptyString) (fun _ => EmptyString)
              shipped_config (mk_sidebar 42 10 200 true)
              (answering_world 200 (Ok (VDict []))) eq_refl)
    as (new & Hsent & _).
  exists new. split; [exact Hsent |].
  cbn in Hsent. rewrite app_nil_r in Hsent. rewrite <- Hsent.
  now left.
Defined.

(* ================================================================== *)
(** * Properties of split and join                                     *)
(* ================================================================== *)

Lemma split_not_nil (sep : ascii) (s : string) : split sep s <> [].
Proof.
  destruct s as [| c rest]; cbn; [discriminate |].
  destruct (Ascii.eqb c sep); [discriminate |].
  destruct (split sep rest); discriminate.
Qed.

Lemma join_cons (sep piece : string) (pieces : list string) :
  pieces <> [] ->
  join sep (piece :: pieces) = piece ++ sep ++ join sep pieces.
Proof.
  destruct pieces; [congruence | reflexivity].
Qed.

Lemma join_split (sep : ascii) (s : string) :
  join (String sep EmptyString) (split sep s) = s.
Proof.
  induction s as [| c rest IH]; [reflexivity |].
  cbn [split].
  destruct (Ascii.eqb_spec c sep) as [-> | Hne].
  - rewrite join_cons by apply split_not_nil.
    cbn. now rewrite IH.
  - pose proof (split_not_nil sep rest) as Hnil.
    destruct (split sep rest) as [| piece pieces]; [congruence |].
    destruct pieces as [| piece' pieces'].
    + cbn in *. now rewrite IH.
    + rewrite join_cons by discriminate.
      rewrite join_cons in IH by discriminate.
      rewrite <- IH. reflexivity.
Qed.

Lemma split_pieces_clean (sep : ascii) (s : string) :
  Forall (fun piece => contains sep piece = false) (split sep s).
Proof.
  induction s as [| c rest IH]; cbn [split].
  - now constructor.
  - destruct (Ascii.eqb c sep) eqn:Hc.
    + now constructor.
    + destruct (split sep rest) as [| piece pieces].
      * constructor; [| constructor]. cbn. now rewrite Hc.
      * inversion IH; subst. constructor; [| assumption].
        cbn. now rewrite Hc.
Qed.

Lemma split_clean (sep : ascii) (piece : string) :
  contains sep piece = false -> split sep piece = [piece].
Proof.
  induction piece as [| c rest IH]; [reflexivity |].
  cbn. intros H. apply orb_false_iff in H as [Hc Hrest].
  rewrite Hc, (IH Hrest). reflexivity.
Qed.

Lemma split_app_sep (sep : ascii) (piece rest : string) :
  contains sep piece = false ->
  split sep (piece ++ String sep rest) = piece :: split sep rest.
Proof.
  induction piece as [| c piece' IH]; cbn.
  - intros _. now rewrite Ascii.eqb_refl.
  - intros H. apply orb_false_iff in H as [Hc Hrest].
    rewrite Hc, (IH Hrest). reflexivity.
Qed.

Lemma split_join (sep : ascii) (pieces : list string) :
  pieces <> [] ->
  Forall (fun piece => contains sep piece = false) pieces ->
  split sep (join (String sep EmptyString) pieces) = pieces.
Proof.
  induction pieces as [| piece rest IH]; [congruence |].
  intros _ Hclean. inversion Hclean as [| ? ? Hpiece Hrest]; subst.
  destruct rest as [| piece' rest'].
  - cbn. now apply split_clean.
  - rewrite join_cons by discriminate.
    cbn [String.append]. rewrite split_app_sep by assumption.
    now rewrite IH.
Qed.

(** C4. The genre transform splits at every "|" and nowhere else: the tags
    come in the order of the text, repeated tags repeated (a list of tags
    without "|" joined by "|" splits back into that very list), the tags
    are rendered in that order, and joining the tags with "|" gives back
    the genres text, character for character. *)
Theorem genre_split_reversible :
  forall (m : RecommendedMovie),
    genre_list (movie_json m) = Ok (split pipe (genres m))
    /\ genres_html (movie_json m)
       = Ok (join EmptyString (map genre_tag (split pipe (genres m))))
    /\ join "|" (split pipe (genres m)) = genres m
    /\ Forall (fun g => contains pipe g = false) (split pipe (genres m))
    /\ (forall tags,
           tags <> [] ->
           Forall (fun g => contains pipe g = false) tags ->
           genres m = join "|" tags ->
           split pipe (genres m) = tags).
Proof.
  intros m. split; [reflexivity |]. split; [reflexivity |].
  split; [apply (join_split pipe) |].
  split; [apply split_pieces_clean |].
  intros tags Hnil Hclean ->. now apply (split_join pipe).
Qed.

Definition toy_story : RecommendedMovie :=
  mk_movie 1 1 "Toy Story" "Animation|Children's|Comedy|Comedy" (Some 1995)
           (S754_finite false 5066549580791808 (-50))
           (S754_finite false 8106479329266893 (-53)).

Lemma genre_split_reversible_witness :
  split pipe (genres toy_story)
  = ["Animation"; "Children's"; "Comedy"; "Comedy"].
Proof.
  apply (genre_split_reversible toy_story);
    [discriminate | repeat constructor | reflexivity].
Defined.

(* ================================================================== *)
(** * Properties of the year label and of the export                   *)
(* ================================================================== *)

Lemma year_str_missing (py_repr : pyval -> string) (m : RecommendedMovie) :
  year m = None -> year_str py_repr (movie_json m) = Ok "N/A".
Proof.
  intros Hnone. unfold year_str, movie_json. cbn. now rewrite Hnone.
Qed.

(** C7. The year label of a movie is the decimal text of its year when
    the year is there and is not zero, and "N/A" otherwise. *)
Theorem year_label (py_repr : pyval -> string) (m : RecommendedMovie) :
  year_str py_repr (movie_json m)
  = Ok match year m with
       | Some y => if y =? 0 then "N/A" else str_of_int y
       | None => "N/A"
       end.
Proof.
  unfold year_str, movie_json. cbn.
  destruct (year m) as [y |]; cbn; [| reflexivity].
  destruct (y =? 0); reflexivity.
Qed.

(** The record of the export for a movie of the schema. *)
Definition export_of (m : RecommendedMovie) : pyval :=
  VDict [("Rank", VInt (rank m));
         ("Movie ID", VInt (movie_id m));
         ("Title", VStr (title m));
         ("Genres", VStr (genres m));
         ("Year", option_int (year m));
         ("Predicted Rating", VFloat (ranking_score m));
         ("Retrieval Score", VFloat (retrieval_score m))].

Definition export_labels : list string :=
  ["Rank"; "Movie ID"; "Title"; "Genres"; "Year"; "Predicted Rating";
   "Retrieval Score"].

(** The frame of the export for movies of the schema. *)
Definition export_frame (recs : list RecommendedMovie) : DataFrame :=
  pd_DataFrame (map export_of recs).

(** Whether the Year column of the frame is turned into floats: it is
    when some movies have a year and others have none, the years being
    ints of 64 bits. *)
Definition year_as_float (recs : list RecommendedMovie) : bool :=
  let col := map (fun m => option_int (year m)) recs in
  numeric_column col
  && (existsb is_float col || (existsb is_none col && existsb is_int col)).

(** The Year cell of a movie in the frame of [recs]. *)
Definition year_cell (recs : list RecommendedMovie) (m : RecommendedMovie)
  : pyval :=
  if year_as_float recs then to_float64 (option_int (year m))
  else option_int (year m).

(** The cells of the row of a movie in the frame of [recs]. *)
Definition export_cells (recs : list RecommendedMovie) (m : RecommendedMovie)
  : list pyval :=
  [VInt (rank m); VInt (movie_id m); VStr (title m); VStr (genres m);
   year_cell recs m; VFloat (ranking_score m); VFloat (retrieval_score m)].

Definition export_data (recs : list RecommendedMovie) : list (list pyval) :=
  [map (fun m => VInt (rank m)) recs;
   map (fun m => VInt (movie_id m)) recs;
   map (fun m => VStr (title m)) recs;
   map (fun m => VStr (genres m)) recs;
   map (year_cell recs) recs;
   map (fun m => VFloat (ranking_score m)) recs;
   map (fun m => VFloat (retrieval_score m)) recs].

Definition header_line : string :=
  "Rank,Movie ID,Title,Genres,Year,Predicted Rating,Retrieval Score".

Definition newline : string := String (ascii_of_nat 10) EmptyString.

Lemma export_records_schema (recs : list RecommendedMovie) :
  export_records (map movie_json recs) = Ok (map export_of recs).
Proof.
  induction recs as [| m rest IH]; [reflexivity |].
  cbn [map export_records]. rewrite IH. reflexivity.
Qed.

Lemma labels_stable (recs : list RecommendedMovie) :
  fold_left (fun acc r => fold_left (fun acc' kv => add_label (fst kv) acc')
                                    (dict_items r) acc)
            (map export_of recs) export_labels
  = export_labels.
Proof.
  induction recs as [| m rest IH]; [reflexivity |].
  cbn [map fold_left]. exact IH.
Qed.

Lemma existsb_map_never {A : Type} (p : pyval -> bool) (g : A -> pyval)
  (l : list A) :
  (forall a, p (g a) = false) -> existsb p (map g l) = false.
Proof.
  intros Hp. induction l as [| a rest IH]; [reflexivity |].
  cbn. now rewrite Hp, IH.
Qed.

(** A column of ints, of strings or of floats keeps its cells. *)
Lemma infer_column_same {A : Type} (g : A -> pyval) (l : list A) :
  (forall a, is_none (g a) = false) ->
  (forall a, to_float64 (g a) = g a) ->
  (forall a, is_float (g a) = false) \/ (forall a, is_float (g a) = true) ->
  infer_column (map g l) = map g l.
Proof.
  intros Hnone Hfloat Hkind. unfold infer_column.
  rewrite (existsb_map_never is_none g l Hnone). cbn [andb].
  rewrite orb_false_r.
  destruct (numeric_column (map g l) && existsb is_float (map g l));
    [| reflexivity].
  rewrite map_map. apply map_ext. exact Hfloat.
Qed.

Lemma to_float64_int_column {A : Type} (f : A -> Z) (l : list A) :
  infer_column (map (fun a => VInt (f a)) l) = map (fun a => VInt (f a)) l.
Proof.
  unfold infer_column.
  rewrite (existsb_map_never is_none (fun a => VInt (f a)) l)
    by reflexivity.
  rewrite (existsb_map_never is_float (fun a => VInt (f a)) l)
    by reflexivity.
  now rewrite andb_false_r.
Qed.

Lemma year_column_cells (recs : list RecommendedMovie) :
  infer_column (map (fun m => option_int (year m)) recs)
  = map (year_cell recs) recs.
Proof.
  unfold infer_column, year_cell, year_as_float.
  destruct (_ && _); [now rewrite map_map | reflexivity].
Qed.

Lemma frame_of_export (recs : list RecommendedMovie) :
  recs <> [] ->
  export_frame recs
  = mk_frame (List.length recs) export_labels (export_data recs).
Proof.
  destruct recs as [| m rest]; [congruence | intros _].
  unfold export_frame, pd_DataFrame.
  assert (Hlabels :
    fold_left (fun acc r => fold_left (fun acc' kv => add_label (fst kv) acc')
                                      (dict_items r) acc)
              (map export_of (m :: rest)) []
    = export_labels) by (cbn [map fold_left]; apply labels_stable).
  rewrite Hlabels, length_map.
  set (recs := m :: rest).
  unfold export_labels, export_data. cbn [map].
  repeat f_equal; rewrite map_map.
  - apply (to_float64_int_column rank).
  - apply (to_float64_int_column movie_id).
  - apply (infer_column_same (fun r => VStr (title r))); auto.
  - apply (infer_column_same (fun r => VStr (genres r))); auto.
  - apply year_column_cells.
  - apply (infer_column_same (fun r => VFloat (ranking_score r))); auto.
  - apply (infer_column_same (fun r => VFloat (retrieval_score r))); auto.
Qed.

Lemma nth_map_in {A B : Type} (f : A -> B) (l : list A) (i : nat)
  (da : A) (db : B) :
  (i < List.length l)%nat -> nth i (map f l) db = f (nth i l da).
Proof.
  intros Hi. rewrite (nth_indep _ db (f da)) by now rewrite length_map.
  apply map_nth.
Qed.

Lemma map_over_positions {A B : Type} (g : A -> B) (l : list A) (d : A) :
  map (fun i => g (nth i l d)) (seq 0 (List.length l)) = map g l.
Proof.
  induction l as [| a rest IH]; [reflexivity |].
  cbn [List.length seq map nth]. f_equal.
  rewrite <- seq_shift, map_map. exact IH.
Qed.

Lemma frame_rows_of_export (recs : list RecommendedMovie) (d : RecommendedMovie) :
  map (frame_row (mk_frame (List.length recs) export_labels (export_data recs)))
      (seq 0 (List.length recs))
  = map (export_cells recs) recs.
Proof.
  rewrite <- (map_over_positions (export_cells recs) recs d).
  apply map_ext_in. intros i Hi. apply in_seq in Hi.
  unfold frame_row, export_data, export_cells. cbn [data map].
  repeat f_equal; rewrite (nth_map_in _ _ _ d) by lia; reflexivity.
Qed.

(** C3, as the code has it. For every sequence of recommendations the
    export builds one record per movie, in the order of the sequence,
    nothing reordered and nothing dropped, so the frame has as many rows as
    there are movies and its Predicted Rating column lists their ranking
    scores in that order; the download is the UTF-8 encoding of the CSV
    text, named recommendations_user_<user_id>.csv, of type text/csv. When
    the sequence is not empty the columns are the seven of the record and
    the first line of the CSV text is the header
    Rank,Movie ID,Title,Genres,Year,Predicted Rating,Retrieval Score,
    followed by one line per movie, in order. *)
Theorem export_preserves_rows
  (py_repr : pyval -> string) (linesep : string) (uid : Z)
  (recs : list RecommendedMovie) :
  export_records (map movie_json recs) = Ok (map export_of recs)
  /\ df_export (map movie_json recs) = Ok (export_frame recs)
  /\ n_rows (export_frame recs) = List.length recs
  /\ frame_column (export_frame recs) "Predicted Rating"
     = map (fun m => VFloat (ranking_score m)) recs
  /\ export py_repr linesep uid (map movie_json recs)
     = Ok (mk_download
             (encode_utf8 (to_csv py_repr linesep (export_frame recs)))
             ("recommendations_user_" ++ str_of_int uid ++ ".csv")
             "text/csv")
  /\ (recs <> [] ->
      columns (export_frame recs) = export_labels
      /\ to_csv_lines py_repr (export_frame recs)
         = header_line
             :: map (fun m => join "," (map (csv_cell py_repr)
                                            (export_cells recs m)))
                    recs).
Proof.
  split; [apply export_records_schema |].
  split; [unfold df_export; now rewrite export_records_schema |].
  split; [unfold export_frame, pd_DataFrame; cbn [n_rows]; apply length_map |].
  split.
  { destruct recs as [| m rest]; [reflexivity |].
    now rewrite frame_of_export by discriminate. }
  split.
  { unfold export, df_export. rewrite export_records_schema. reflexivity. }
  intros Hnil. rewrite frame_of_export by assumption.
  split; [reflexivity |].
  unfold to_csv_lines. cbn [columns n_rows]. f_equal.
  destruct recs as [| d rest]; [congruence |].
  set (recs := d :: rest).
  set (line := fun row => join "," (map (csv_cell py_repr) row)).
  transitivity
    (map line
       (map (frame_row (mk_frame (List.length recs) export_labels
                                 (export_data recs)))
            (seq 0 (List.length recs)))).
  - now rewrite map_map.
  - rewrite (frame_rows_of_export recs d). now rewrite map_map.
Qed.

Definition float_4_5 : spec_float := S754_finite false 5066549580791808 (-50).
Definition float_3_0 : spec_float := S754_finite false 6755399441055744 (-51).
Definition float_0_9 : spec_float := S754_finite false 8106479329266893 (-53).

Definition two_movies : list RecommendedMovie :=
  [mk_movie 1 1 "Toy Story" "Animation|Comedy" (Some 1995) float_4_5 float_0_9;
   mk_movie 2 858 "Godfather, The" "Action|Crime|Drama" None float_3_0 float_0_9].

(** The scenario of the two ranking scores 4.5 and 3.0. *)
Lemma export_preserves_rows_witness :
  frame_column (export_frame two_movies) "Predicted Rating"
  = [VFloat float_4_5; VFloat float_3_0]
  /\ hd EmptyString
        (to_csv_lines (fun _ => EmptyString) (export_frame two_movies))
     = header_line.
Proof.
  destruct (export_preserves_rows (fun _ => EmptyString) newline 7 two_movies)
    as (_ & _ & _ & Hcol & _ & Hhead).
  split; [exact Hcol |].
  destruct Hhead as [_ Hlines]; [discriminate |].
  now rewrite Hlines.
Defined.

(** C3 does not hold for the empty sequence: the frame built from no
    record has no column, and the CSV text is one empty line instead of the
    header. *)
Lemma export_of_nothing_has_no_header :
  export (fun _ => EmptyString) newline 7 (map movie_json [])
  = Ok (mk_download (encode_utf8 newline) "recommendations_user_7.csv"
          "text/csv")
  /\ df_export (map movie_json []) = Ok (mk_frame 0 [] [])
  /\ to_csv_lines (fun _ => EmptyString) (mk_frame 0 [] []) = [EmptyString]
  /\ hd EmptyString (to_csv_lines (fun _ => EmptyString) (mk_frame 0 [] []))
     <> header_line.
Proof.
  split; [reflexivity |]. split; [reflexivity |].
  split; [reflexivity | discriminate].
Qed.

Lemma missing_year_cell (recs : list RecommendedMovie) (m : RecommendedMovie) :
  year m = None -> pd_isna (year_cell recs m) = true.
Proof.
  intros Hnone. unfold year_cell. rewrite Hnone.
  now destruct (year_as_float recs).
Qed.

(** C10. The placeholder belongs to the screen only. The Year entry of the
    export record of a movie is the year entry of the response, unchanged,
    and its row in the frame holds that year (as a float when the column
    mixes years and missing years). For a movie without a year the label on
    the screen is N/A while its Year field in the CSV text is empty, in
    whatever list the movie is exported. *)
Theorem year_placeholder_on_screen_only
  (py_repr : pyval -> string) (m : RecommendedMovie) :
  rbind (export_record (movie_json m)) (fun row => py_getitem row "Year")
  = py_getitem (movie_json m) "year"
  /\ py_getitem (movie_json m) "year" = Ok (option_int (year m))
  /\ frame_column (export_frame [m]) "Year" = [option_int (year m)]
  /\ (forall recs,
         nth 4 (export_cells recs m) VNone = year_cell recs m
         /\ (year_cell recs m = option_int (year m)
             \/ year_cell recs m = to_float64 (option_int (year m))))
  /\ (year m = None ->
      year_str py_repr (movie_json m) = Ok "N/A"
      /\ forall recs,
           csv_cell py_repr (year_cell recs m) = EmptyString
           /\ csv_cell py_repr (year_cell recs m) <> "N/A").
Proof.
  split; [reflexivity |]. split; [reflexivity |].
  split.
  { rewrite frame_of_export by discriminate.
    unfold frame_column, export_data, year_cell, year_as_float.
    cbn [columns data index_of export_labels String.eqb Ascii.eqb Bool.eqb
         option_map nth map].
    destruct (year m); [| reflexivity].
    cbn [option_int forallb existsb is_float is_none is_int orb andb].
    now rewrite !andb_false_r. }
  split.
  { intros recs. split; [reflexivity |].
    unfold year_cell. destruct (year_as_float recs); auto. }
  intros Hnone. split; [now apply year_str_missing |].
  intros recs. unfold csv_cell.
  rewrite (missing_year_cell recs m Hnone). split; [reflexivity | discriminate].
Qed.

Definition unrated_movie : RecommendedMovie :=
  mk_movie 2 858 "Godfather, The" "Action|Crime|Drama" None float_3_0 float_0_9.

Lemma year_placeholder_on_screen_only_witness :
  year_str (fun _ => EmptyString) (movie_json unrated_movie) = Ok "N/A"
  /\ csv_cell (fun _ => EmptyString) (year_cell two_movies unrated_movie)
     = EmptyString.
Proof.
  destruct (year_placeholder_on_screen_only (fun _ => EmptyString)
              unrated_movie) as (_ & _ & _ & _ & Hnone).
  destruct (Hnone eq_refl) as [Hlabel Hcell].
  split; [exact Hlabel | apply Hcell].
Defined.

(* ================================================================== *)
(** * Binary64 arithmetic: rounding and division by 5.0                *)
(* ================================================================== *)

Module Binary64.

Lemma digits2_pos_bounds (p : positive) :
  2 ^ (Zpos (digits2_pos p) - 1) <= Zpos p < 2 ^ Zpos (digits2_pos p).
Proof.
  induction p as [p IH | p IH |]; cbn [digits2_pos].
  - rewrite Pos2Z.inj_succ.
    replace (Z.succ (Zpos (digits2_pos p)) - 1) with (Z.succ (Zpos (digits2_pos p) - 1)) by lia.
    rewrite !Z.pow_succ_r by lia. lia.
  - rewrite Pos2Z.inj_succ.
    replace (Z.succ (Zpos (digits2_pos p)) - 1) with (Z.succ (Zpos (digits2_pos p) - 1)) by lia.
    rewrite !Z.pow_succ_r by lia. lia.
  - cbn. lia.
Qed.

Lemma digits2_pos_unique (p : positive) (d : Z) :
  2 ^ (d - 1) <= Zpos p < 2 ^ d -> Zpos (digits2_pos p) = d.
Proof.
  intros [Hlo Hhi].
  pose proof (digits2_pos_bounds p) as [Hlo' Hhi'].
  assert (0 < d).
  { destruct (Z.le_gt_cases d 0) as [Hd | Hd]; [| exact Hd].
    exfalso.
    assert (2 ^ d <= 2 ^ 0) by (apply Z.pow_le_mono_r; lia).
    change (2 ^ 0) with 1 in *. lia. }
  assert (Zpos (digits2_pos p) - 1 < d).
  { apply (Z.pow_lt_mono_r_iff 2); lia. }
  assert (d - 1 < Zpos (digits2_pos p)).
  { apply (Z.pow_lt_mono_r_iff 2); lia. }
  lia.
Qed.

(** The position of A/B between its floor and the next integer. *)
Definition location_of (A B : Z) : location :=
  if A mod B =? 0 then loc_Exact else loc_Inexact (2 * (A mod B) ?= B).

Definition represents (A B : Z) (mrs : shr_record) : Prop :=
  shr_m mrs = A / B /\ loc_of_shr_record mrs = location_of A B.

Lemma div_mod_double (A B : Z) :
  0 <= A -> 0 < B ->
  A / (2 * B) = (A / B) / 2
  /\ A mod (2 * B) = ((A / B) mod 2) * B + A mod B.
Proof.
  intros HA HB.
  pose proof (Z.div_mod A B ltac:(lia)) as HAB.
  pose proof (Z.mod_pos_bound A B HB) as Hr.
  pose proof (Z.div_mod (A / B) 2 ltac:(lia)) as Hq.
  pose proof (Z.mod_pos_bound (A / B) 2 ltac:(lia)) as Hr2.
  assert (Heq : A = (2 * B) * ((A / B) / 2) + (((A / B) mod 2) * B + A mod B)) by nia.
  assert (Hbound : 0 <= ((A / B) mod 2) * B + A mod B < 2 * B) by nia.
  split.
  - symmetry. apply (Z.div_unique_pos A (2 * B) _ _ Hbound Heq).
  - symmetry. apply (Z.mod_unique_pos A (2 * B) _ _ Hbound Heq).
Qed.

Ltac decide_cmp :=
  repeat match goal with
  | |- context [?a =? ?b] =>
      first [ replace (a =? b) with true by (symmetry; apply Z.eqb_eq; lia)
            | replace (a =? b) with false by (symmetry; apply Z.eqb_neq; lia) ]
  | |- context [?a ?= ?b] =>
      first [ replace (a ?= b) with Lt by (symmetry; apply Z.compare_lt_iff; lia)
            | replace (a ?= b) with Eq by (symmetry; apply Z.compare_eq_iff; lia)
            | replace (a ?= b) with Gt by (symmetry; apply Z.compare_gt_iff; lia) ]
  end.

Lemma shr_1_represents (A B : Z) (mrs : shr_record) :
  0 <= A -> 0 < B ->
  represents A B mrs -> represents A (2 * B) (shr_1 mrs).
Proof.
  intros HA HB [Hm Hloc].
  destruct (div_mod_double A B HA HB) as [Hdiv Hmod].
  pose proof (Z.mod_pos_bound A B HB) as Hr.
  pose proof (Z.div_pos A B HA HB) as Hq.
  unfold represents, location_of in *. rewrite Hdiv, Hmod.
  destruct mrs as [m r s]. cbn [shr_m] in Hm. subst m.
  assert (Hs : orb r s = negb (A mod B =? 0)).
  { destruct (A mod B =? 0), r, s; cbn in Hloc; try discriminate; reflexivity. }
  assert (Hhalf : forall q : positive,
             (Zpos q~1 / 2 = Zpos q /\ Zpos q~1 mod 2 = 1)
             /\ (Zpos q~0 / 2 = Zpos q /\ Zpos q~0 mod 2 = 0)).
  { intros q. rewrite Pos2Z.inj_xI, Pos2Z.inj_xO. repeat split.
    - symmetry. apply (Z.div_unique_pos _ 2 (Zpos q) 1); lia.
    - symmetry. apply (Z.mod_unique_pos _ 2 (Zpos q) 1); lia.
    - symmetry. apply (Z.div_unique_pos _ 2 (Zpos q) 0); lia.
    - symmetry. apply (Z.mod_unique_pos _ 2 (Zpos q) 0); lia. }
  cbn [shr_1].
  destruct (A / B) as [| q | q] eqn:Eq; [| | lia].
  - cbn [shr_m loc_of_shr_record]. rewrite Hs.
    change (0 / 2) with 0. change (0 mod 2) with 0.
    split; [reflexivity |].
    destruct (Z.eq_dec (A mod B) 0) as [Hz | Hz]; decide_cmp; reflexivity.
  - destruct q as [q | q |].
    + destruct (Hhalf q) as [[-> ->] _].
      cbn [shr_m loc_of_shr_record]. rewrite Hs. split; [reflexivity |].
      destruct (Z.eq_dec (A mod B) 0) as [Hz | Hz]; decide_cmp; reflexivity.
    + destruct (Hhalf q) as [_ [-> ->]].
      cbn [shr_m loc_of_shr_record]. rewrite Hs. split; [reflexivity |].
      destruct (Z.eq_dec (A mod B) 0) as [Hz | Hz]; decide_cmp; reflexivity.
    + change (1 / 2) with 0. change (1 mod 2) with 1.
      cbn [shr_m loc_of_shr_record]. rewrite Hs. split; [reflexivity |].
      destruct (Z.eq_dec (A mod B) 0) as [Hz | Hz]; decide_cmp; reflexivity.
Qed.

Lemma iter_pos_nat {A : Type} (f : A -> A) (p : positive) (x : A) :
  iter_pos f p x = Nat.iter (Pos.to_nat p) f x.
Proof.
  revert x. induction p as [p IH | p IH |]; intros x; cbn [iter_pos].
  - rewrite !IH, Pos2Nat.inj_xI.
    replace (S (2 * Pos.to_nat p))%nat with (Pos.to_nat p + S (Pos.to_nat p))%nat by lia.
    rewrite Nat.iter_add, Nat.iter_succ_r. reflexivity.
  - rewrite !IH, Pos2Nat.inj_xO.
    replace (2 * Pos.to_nat p)%nat with (Pos.to_nat p + Pos.to_nat p)%nat by lia.
    now rewrite Nat.iter_add.
  - reflexivity.
Qed.

Lemma iter_shr_1_represents (A B : Z) (mrs : shr_record) (n : nat) :
  0 <= A -> 0 < B ->
  represents A B mrs ->
  represents A (B * 2 ^ Z.of_nat n) (Nat.iter n shr_1 mrs).
Proof.
  intros HA HB Hrep. induction n as [| n IH].
  - cbn. now rewrite Z.mul_1_r.
  - rewrite Nat2Z.inj_succ, Z.pow_succ_r by lia. cbn [Nat.iter].
    replace (B * (2 * 2 ^ Z.of_nat n)) with (2 * (B * 2 ^ Z.of_nat n)) by ring.
    apply shr_1_represents; [assumption | | assumption].
    apply Z.mul_pos_pos; [assumption | apply Z.pow_pos_nonneg; lia].
Qed.

(** [shr] by [n] places: the exponent grows by the places shifted, and
    the record still locates the same fraction on the coarser grid. *)
Lemma shr_represents (A B : Z) (mrs : shr_record) (e n : Z) :
  0 <= A -> 0 < B ->
  represents A B mrs ->
  represents A (B * 2 ^ Z.max 0 n) (fst (shr mrs e n))
  /\ snd (shr mrs e n) = e + Z.max 0 n.
Proof.
  intros HA HB Hrep. destruct n as [| p | p]; cbn [shr fst snd].
  - change (Z.max 0 0) with 0. rewrite Z.mul_1_r, Z.add_0_r. now split.
  - rewrite Z.max_r by lia. split; [| reflexivity].
    rewrite iter_pos_nat.
    replace (Z.pos p) with (Z.of_nat (Pos.to_nat p)) by apply positive_nat_Z.
    now apply iter_shr_1_represents.
  - rewrite Z.max_l by lia. rewrite Z.mul_1_r, Z.add_0_r. now split.
Qed.

Lemma shr_record_of_loc_represents (A B : Z) :
  represents A B (shr_record_of_loc (A / B) (location_of A B)).
Proof.
  unfold represents. destruct (location_of A B) as [| []]; now split.
Qed.

(** Rounding to nearest, ties to even, of the fraction A/B. *)
Definition rne (A B : Z) : Z := round_nearest_even (A / B) (location_of A B).

Lemma rne_bounds (A B : Z) : A / B <= rne A B <= A / B + 1.
Proof.
  unfold rne, round_nearest_even.
  destruct (location_of A B) as [| []]; try lia.
  destruct (Z.even (A / B)); lia.
Qed.

Lemma rne_monotone (A1 A2 B : Z) :
  0 < B -> A1 <= A2 -> rne A1 B <= rne A2 B.
Proof.
  intros HB HA.
  pose proof (rne_bounds A1 B) as Hb1. pose proof (rne_bounds A2 B) as Hb2.
  assert (Hq : A1 / B <= A2 / B) by (apply Z.div_le_mono; lia).
  destruct (Z.eq_dec (A1 / B) (A2 / B)) as [Heq | Hne]; [| lia].
  pose proof (Z.div_mod A1 B ltac:(lia)) as H1.
  pose proof (Z.div_mod A2 B ltac:(lia)) as H2.
  pose proof (Z.mod_pos_bound A1 B HB) as Hr1.
  pose proof (Z.mod_pos_bound A2 B HB) as Hr2.
  assert (Hr : A1 mod B <= A2 mod B) by (rewrite Heq in H1; lia).
  unfold rne, location_of, round_nearest_even. rewrite <- Heq.
  destruct (Z.eqb_spec (A1 mod B) 0), (Z.eqb_spec (A2 mod B) 0);
    destruct (Z.compare_spec (2 * (A1 mod B)) B),
             (Z.compare_spec (2 * (A2 mod B)) B);
    destruct (Z.even (A1 / B)); lia.
Qed.

Lemma location_of_scale (c A B : Z) :
  0 < c -> 0 < B ->
  (c * A) / (c * B) = A / B /\ location_of (c * A) (c * B) = location_of A B.
Proof.
  intros Hc HB.
  assert (Hdiv : (c * A) / (c * B) = A / B) by (apply Z.div_mul_cancel_l; lia).
  assert (Hmod : (c * A) mod (c * B) = c * (A mod B)) by (apply Z.mul_mod_distr_l; lia).
  split; [exact Hdiv |].
  unfold location_of. rewrite Hmod.
  pose proof (Z.mod_pos_bound A B HB) as Hr.
  destruct (Z.eqb_spec (A mod B) 0) as [Hz | Hz].
  - rewrite Hz, Z.mul_0_r. reflexivity.
  - replace (c * (A mod B) =? 0) with false by (symmetry; apply Z.eqb_neq; nia).
    f_equal.
    destruct (Z.compare_spec (2 * (A mod B)) B);
      [ apply Z.compare_eq_iff | apply Z.compare_lt_iff | apply Z.compare_gt_iff ];
      nia.
Qed.

Lemma rne_scale (c A B : Z) : 0 < c -> 0 < B -> rne (c * A) (c * B) = rne A B.
Proof.
  intros Hc HB. unfold rne.
  destruct (location_of_scale c A B Hc HB) as [-> ->]. reflexivity.
Qed.

(** What [binary_round_aux] builds from a mantissa [m] that is already
    rounded, at exponent [e]. *)
Definition finish (s : bool) (m e : Z) : spec_float :=
  let n := Z.max 0 (fexp prec emax (Zdigits2 m + e) - e) in
  match m / 2 ^ n with
  | Z0 => S754_zero s
  | Zpos p => if e + n <=? emax - prec then S754_finite s p (e + n)
              else S754_infinity s
  | Zneg _ => S754_nan
  end.

Lemma binary_round_aux_spec (s : bool) (A B e : Z) :
  0 <= A -> 0 < B ->
  let n := Z.max 0 (fexp prec emax (Zdigits2 (A / B) + e) - e) in
  binary_round_aux prec emax s (A / B) e (location_of A B)
  = finish s (rne A (B * 2 ^ n)) (e + n).
Proof.
  intros HA HB n. unfold binary_round_aux, shr_fexp.
  destruct (shr_represents A B (shr_record_of_loc (A / B) (location_of A B)) e
              (fexp prec emax (Zdigits2 (A / B) + e) - e) HA HB
              (shr_record_of_loc_represents A B)) as [[Hm Hloc] He].
  fold n in Hm, Hloc, He.
  destruct (shr _ e _) as [mrs1 e1]. cbn [fst snd] in Hm, Hloc, He. subst e1.
  rewrite Hm, Hloc. fold (rne A (B * 2 ^ n)).
  set (m2 := rne A (B * 2 ^ n)).
  assert (Hm2 : 0 <= m2).
  { pose proof (rne_bounds A (B * 2 ^ n)).
    assert (0 <= A / (B * 2 ^ n)).
    { apply Z.div_pos; [assumption |].
      apply Z.mul_pos_pos; [assumption | apply Z.pow_pos_nonneg; lia]. }
    unfold m2. lia. }
  assert (Hrep2 : represents m2 1 (shr_record_of_loc m2 loc_Exact)).
  { unfold represents, location_of. rewrite Z.div_1_r, Z.mod_1_r. now split. }
  destruct (shr_represents m2 1 _ (e + n)
              (fexp prec emax (Zdigits2 m2 + (e + n)) - (e + n))
              Hm2 ltac:(lia) Hrep2) as [[Hm' _] He'].
  destruct (shr _ (e + n) _) as [mrs2 e2]. cbn [fst snd] in Hm', He'. subst e2.
  rewrite Hm', Z.mul_1_l. unfold finish. reflexivity.
Qed.

Lemma bounded_facts (mx : positive) (ex : Z) :
  bounded prec emax mx ex = true ->
  Zpos (digits2_pos mx) <= 53
  /\ -1074 <= ex <= 971
  /\ (-1074 < ex -> Zpos (digits2_pos mx) = 53).
Proof.
  unfold bounded, canonical_mantissa, fexp, emin, prec, emax.
  rewrite andb_true_iff, Z.eqb_eq, Z.leb_le. lia.
Qed.

Lemma fexp_shift (d e : Z) :
  -1074 <= e ->
  Z.max 0 (fexp prec emax (d + e) - e) = Z.max 0 (d - 53).
Proof.
  unfold fexp, emin, prec, emax. lia.
Qed.

(** Division of a double by 5.0, unfolded down to the final rounding. *)
Lemma SFdiv_5_unfold (s : bool) (mx : positive) (ex : Z) :
  bounded prec emax mx ex = true ->
  let e' := Z.max (ex - 3) (-1074) in
  let A := Zpos mx * 2 ^ (ex + 50 - e') in
  let n := Z.max 0 (Zdigits2 (A / 5629499534213120) - 53) in
  SFdiv prec emax (S754_finite s mx ex) float_5
  = finish s (rne A (5629499534213120 * 2 ^ n)) (e' + n).
Proof.
  intros Hb e' A n.
  destruct (bounded_facts mx ex Hb) as (HD & Hex & Hnormal).
  unfold SFdiv, float_5, SFdiv_core_binary.
  change (Zdigits2 5629499534213120) with 53.
  cbn [Zdigits2].
  assert (He : Z.min (fexp prec emax (Zpos (digits2_pos mx) + ex - (53 + -50)))
                     (ex - -50) = e').
  { unfold fexp, emin, prec, emax, e'. lia. }
  rewrite He.
  assert (Hs : 0 < ex - -50 - e') by (unfold e'; lia).
  replace (ex - -50 - e') with (ex + 50 - e') in * by lia.
  destruct (ex + 50 - e') as [| p | p] eqn:Es; [lia | | lia].
  rewrite Z.shiftl_mul_pow2 by lia.
  fold A.
  assert (HA : 0 <= A).
  { unfold A. apply Z.mul_nonneg_nonneg; [lia | apply Z.pow_nonneg; lia]. }
  assert (Hdm : Z.div_eucl A 5629499534213120
                = (A / 5629499534213120, A mod 5629499534213120)).
  { unfold Z.div, Z.modulo. now destruct (Z.div_eucl A 5629499534213120). }
  rewrite Hdm.
  assert (Hloc : new_location 5629499534213120 (A mod 5629499534213120)
                 = location_of A 5629499534213120) by reflexivity.
  rewrite Hloc.
  rewrite (binary_round_aux_spec _ A 5629499534213120 e' HA ltac:(lia)).
  rewrite fexp_shift by (unfold e'; lia).
  fold n. now destruct s.
Qed.

Lemma Zdigits2_bounds (z : Z) :
  0 < z -> 2 ^ (Zdigits2 z - 1) <= z < 2 ^ Zdigits2 z.
Proof.
  destruct z as [| p | p]; try lia. intros _. apply digits2_pos_bounds.
Qed.

Lemma Zdigits2_le (z d : Z) : 0 <= d -> 0 <= z < 2 ^ d -> Zdigits2 z <= d.
Proof.
  intros Hd [Hz Hlt].
  destruct (Z.eq_dec z 0) as [-> | Hnz]; [cbn; lia |].
  pose proof (Zdigits2_bounds z ltac:(lia)) as [Hlo _].
  assert (Zdigits2 z - 1 < d); [| lia].
  apply (Z.pow_lt_mono_r_iff 2); lia.
Qed.

Lemma Zdigits2_ge (z d : Z) : 0 < z -> 2 ^ (d - 1) <= z -> d <= Zdigits2 z.
Proof.
  intros Hz Hlo.
  pose proof (Zdigits2_bounds z Hz) as [_ Hhi].
  assert (0 <= Zdigits2 z) by (destruct z; cbn; lia).
  assert (d - 1 < Zdigits2 z); [| lia].
  apply (Z.pow_lt_mono_r_iff 2); lia.
Qed.

Lemma pow2_pos (n : Z) : 0 <= n -> 0 < 2 ^ n.
Proof. intros. apply Z.pow_pos_nonneg; lia. Qed.

(** The grid on which the quotient of a positive double by 5.0 is rounded:
    in units of 2^-1074 its step is [2^k], the least one that leaves at
    most 53 bits. *)
Lemma quotient_grid_facts (mx : positive) (ex : Z) :
  bounded prec emax mx ex = true ->
  let e' := Z.max (ex - 3) (-1074) in
  let A := Zpos mx * 2 ^ (ex + 50 - e') in
  let n := Z.max 0 (Zdigits2 (A / 5629499534213120) - 53) in
  let X := Zpos mx * 2 ^ (ex + 1074) in
  let k := e' + 1074 + n in
  0 <= n /\ 0 <= k
  /\ rne A (5629499534213120 * 2 ^ n) = rne X (5 * 2 ^ k)
  /\ A / (5629499534213120 * 2 ^ n) = X / (5 * 2 ^ k)
  /\ X / (5 * 2 ^ k) < 2 ^ 53
  /\ (0 < k -> 2 ^ 52 <= X / (5 * 2 ^ k) /\ k <= ex + 1072).
Proof.
  intros Hb e' A n X k.
  destruct (bounded_facts mx ex Hb) as (HD & Hex & Hnormal).
  pose proof (digits2_pos_bounds mx) as Hmx.
  set (c := ex - e').
  set (t := e' + 1074).
  assert (Hc : 0 <= c <= 3) by (unfold c, e'; lia).
  assert (Ht : 0 <= t) by (unfold t, e'; lia).
  assert (Hn : 0 <= n) by (unfold n; lia).
  set (N := Zpos mx * 2 ^ c).
  assert (HN : 0 < N).
  { unfold N. apply Z.mul_pos_pos; [lia | now apply pow2_pos]. }
  assert (HA : A = 2 ^ 50 * N).
  { unfold A, N. replace (ex + 50 - e') with (c + 50) by (unfold c; lia).
    rewrite Z.pow_add_r by lia. ring. }
  assert (HX : X = 2 ^ t * N).
  { unfold X, N. replace (ex + 1074) with (c + t) by (unfold c, t; lia).
    rewrite Z.pow_add_r by lia. ring. }
  assert (H5 : forall j, 5629499534213120 * 2 ^ j = 2 ^ 50 * (5 * 2 ^ j))
    by (intros j; change 5629499534213120 with (2 ^ 50 * 5); ring).
  assert (Hk : 5 * 2 ^ k = 2 ^ t * (5 * 2 ^ n)).
  { unfold k. fold t. rewrite Z.pow_add_r by lia. ring. }
  assert (Hpn : 0 < 2 ^ n) by now apply pow2_pos.
  assert (Hpt : 0 < 2 ^ t) by now apply pow2_pos.
  assert (Hq : A / 5629499534213120 = N / 5).
  { rewrite HA. change 5629499534213120 with (2 ^ 50 * 5).
    apply Z.div_mul_cancel_l; lia. }
  assert (Hq1 : X / (5 * 2 ^ k) = (N / 5) / 2 ^ n).
  { rewrite HX, Hk, Z.div_mul_cancel_l by lia.
    now rewrite Z.div_div by lia. }
  split; [exact Hn |]. split; [unfold k; fold t; lia |].
  split.
  { rewrite H5, HA, rne_scale by lia.
    rewrite HX, Hk, rne_scale by lia. reflexivity. }
  split.
  { rewrite H5, HA, Z.div_mul_cancel_l by lia.
    rewrite HX, Hk, Z.div_mul_cancel_l by lia. reflexivity. }
  rewrite Hq1.
  set (q := N / 5) in *.
  assert (Hq0 : 0 <= q) by (apply Z.div_pos; lia).
  set (D := Zdigits2 q) in *.
  assert (HD0 : 0 <= D) by (unfold D; destruct q; cbn; lia).
  assert (Hkn : k = t + n) by reflexivity.
  assert (Hnd : n = Z.max 0 (D - 53)) by (unfold n; now rewrite Hq).
  clearbody k n. subst n.
  split.
  - (* fewer than 54 bits are left *)
    apply Z.div_lt_upper_bound; [lia |].
    destruct (Z.eq_dec q 0) as [Hz | Hz].
    + rewrite Hz. apply Z.mul_pos_pos; [lia | now apply pow2_pos].
    + pose proof (Zdigits2_bounds q ltac:(lia)) as [_ Hhi]. fold D in Hhi.
      rewrite <- Z.pow_add_r by lia.
      eapply Z.lt_le_trans; [exact Hhi |].
      apply Z.pow_le_mono_r; lia.
  - intros Hkpos.
    assert (Hbig : 2 ^ 52 <= q / 2 ^ Z.max 0 (D - 53)).
    { destruct (Z.max_spec 0 (D - 53)) as [[Hlt ->] | [Hge ->]].
      - (* more than 53 bits: the shift leaves exactly 53 *)
        pose proof (Zdigits2_bounds q) as Hq'.
        assert (Hqpos : 0 < q).
        { destruct (Z.eq_dec q 0) as [Hz | Hz]; [| lia].
          exfalso. unfold D in Hlt. rewrite Hz in Hlt. cbn in Hlt. lia. }
        destruct (Hq' Hqpos) as [Hlo _]. fold D in Hlo.
        apply Z.div_le_lower_bound; [apply pow2_pos; lia |].
        rewrite <- Z.pow_add_r by lia.
        replace (D - 53 + 52) with (D - 1) by lia. exact Hlo.
      - (* no shift: the double is normal, its quotient has 53 bits *)
        change (2 ^ 0) with 1. rewrite Z.div_1_r.
        assert (Htpos : 0 < t) by lia.
        assert (Hex' : -1074 < ex) by (unfold t, e' in Htpos; lia).
        assert (Hc3 : c = 3) by (unfold c, e'; lia).
        rewrite (Hnormal Hex') in Hmx.
        unfold q, N. rewrite Hc3.
        apply Z.div_le_lower_bound; [lia |].
        change (2 ^ 3) with 8. change (53 - 1) with 52 in Hmx. lia. }
    split; [exact Hbig |].
    (* the exponent of the quotient stays below that of the double *)
    assert (HXhi : X < 2 ^ (ex + 1074 + 53)).
    { unfold X. rewrite (Z.pow_add_r 2 (ex + 1074) 53) by lia.
      assert (0 < 2 ^ (ex + 1074)) by (apply pow2_pos; lia).
      assert (Zpos mx < 2 ^ 53).
      { eapply Z.lt_le_trans; [apply Hmx |]. apply Z.pow_le_mono_r; lia. }
      nia. }
    assert (HXlo : 5 * 2 ^ k * 2 ^ 52 <= X).
    { rewrite <- Hq1 in Hbig.
      assert (0 < 5 * 2 ^ k) by (rewrite Hk; nia).
      pose proof (Z.mul_div_le X (5 * 2 ^ k) ltac:(lia)). nia. }
    assert (Hpow : 2 ^ (k + 54) < 2 ^ (ex + 1074 + 53)).
    { assert (E : 2 ^ (k + 54) = 4 * (2 ^ k * 2 ^ 52)).
      { replace (k + 54) with (2 + (k + 52)) by lia.
        rewrite 2!Z.pow_add_r by lia. reflexivity. }
      assert (0 < 2 ^ k * 2 ^ 52)
        by (apply Z.mul_pos_pos; apply pow2_pos; lia).
      rewrite E. nia. }
    apply Z.pow_lt_mono_r_iff in Hpow; lia.
Qed.

(** The last step of a rounding gives zero or a canonical double of the
    same value, when at most 53 bits came out of the rounding (or 2^53,
    which is renormalised). Values are in units of 2^-1074. *)
Lemma finish_canonical (s : bool) (m k : Z) :
  0 <= k <= 2043 ->
  0 <= m <= 2 ^ 53 ->
  (0 < k -> 2 ^ 52 <= m) ->
  (m = 0 /\ finish s m (k - 1074) = S754_zero s)
  \/ exists mr er,
       finish s m (k - 1074) = S754_finite s mr er
       /\ bounded prec emax mr er = true
       /\ Zpos mr * 2 ^ (er + 1074) = m * 2 ^ k.
Proof.
  intros Hk Hm Hnormal. unfold finish.
  rewrite fexp_shift by lia.
  destruct (Z.eq_dec m 0) as [-> | Hnz].
  - left. split; reflexivity.
  - right.
    destruct (Z.eq_dec m (2 ^ 53)) as [-> | Hlt].
    + change (Zdigits2 (2 ^ 53)) with 54.
      change (Z.max 0 (54 - 53)) with 1.
      change (2 ^ 53 / 2 ^ 1) with (Zpos 4503599627370496).
      replace (k - 1074 + 1 <=? emax - prec) with true
        by (symmetry; apply Z.leb_le; unfold emax, prec; lia).
      exists 4503599627370496%positive, (k - 1074 + 1). split; [reflexivity |].
      split.
      * unfold bounded, canonical_mantissa, fexp, emin, prec, emax.
        change (Zpos (digits2_pos 4503599627370496)) with 53.
        apply andb_true_iff. split; [apply Z.eqb_eq | apply Z.leb_le]; lia.
      * replace (k - 1074 + 1 + 1074) with (1 + k) by lia.
        rewrite Z.pow_add_r by lia.
        change (Zpos 4503599627370496) with (2 ^ 52).
        change (2 ^ 53) with (2 ^ 52 * 2 ^ 1). ring.
    + assert (Hd : Zdigits2 m <= 53) by (apply Zdigits2_le; lia).
      assert (Hd0 : 0 < Zdigits2 m) by (destruct m; cbn; lia).
      rewrite Z.max_l by lia. change (2 ^ 0) with 1.
      rewrite Z.div_1_r, Z.add_0_r.
      destruct m as [| p | p]; [lia | | lia].
      replace (k - 1074 <=? emax - prec) with true
        by (symmetry; apply Z.leb_le; unfold emax, prec; lia).
      exists p, (k - 1074). split; [reflexivity |].
      split.
      * cbn [Zdigits2] in Hd.
        unfold bounded, canonical_mantissa, fexp, emin, prec, emax.
        apply andb_true_iff. split; [apply Z.eqb_eq | apply Z.leb_le; lia].
        destruct (Z.eq_dec k 0) as [-> | Hkpos]; [lia |].
        assert (53 <= Zdigits2 (Zpos p))
          by (apply Zdigits2_ge; [lia | apply Hnormal; lia]).
        cbn [Zdigits2] in *. lia.
      * now replace (k - 1074 + 1074) with k by lia.
Qed.

(** Units of 2^-1074: the value of a positive finite double. *)
Definition units (m : positive) (e : Z) : Z := Zpos m * 2 ^ (e + 1074).

(** The quotient of a positive double by 5.0 is the nearest-even rounding
    of the exact quotient on its grid, as zero or as a canonical double. *)
Lemma SFdiv_5_rounds (mx : positive) (ex : Z) :
  bounded prec emax mx ex = true ->
  exists k m,
    0 <= k
    /\ units mx ex / (5 * 2 ^ k) < 2 ^ 53
    /\ (0 < k -> 2 ^ 52 <= units mx ex / (5 * 2 ^ k))
    /\ m = rne (units mx ex) (5 * 2 ^ k)
    /\ ((m = 0
         /\ SFdiv prec emax (S754_finite false mx ex) float_5 = S754_zero false)
        \/ exists mr er,
             SFdiv prec emax (S754_finite false mx ex) float_5
             = S754_finite false mr er
             /\ bounded prec emax mr er = true
             /\ units mr er = m * 2 ^ k).
Proof.
  intros Hb.
  destruct (bounded_facts mx ex Hb) as (_ & Hex & _).
  rewrite (SFdiv_5_unfold false mx ex Hb).
  destruct (quotient_grid_facts mx ex Hb)
    as (Hn & Hk & Hrne & Hdiv & Hhi & Hlo).
  cbv zeta in Hn, Hk, Hrne, Hdiv, Hhi, Hlo |- *.
  set (e' := Z.max (ex - 3) (-1074)) in *.
  set (n := Z.max 0 _) in *.
  set (k := e' + 1074 + n) in *.
  fold (units mx ex) in *.
  exists k, (rne (units mx ex) (5 * 2 ^ k)).
  split; [exact Hk |]. split; [exact Hhi |].
  split; [intros Hp; now apply Hlo |]. split; [reflexivity |].
  rewrite Hrne. replace (e' + n) with (k - 1074) by (unfold k; lia).
  pose proof (rne_bounds (units mx ex) (5 * 2 ^ k)) as Hb2.
  assert (Hq0 : 0 <= units mx ex / (5 * 2 ^ k)).
  { apply Z.div_pos.
    - unfold units. apply Z.mul_nonneg_nonneg; [lia | apply Z.pow_nonneg; lia].
    - assert (0 < 2 ^ k) by now apply pow2_pos. lia. }
  apply finish_canonical.
  - destruct (Z.eq_dec k 0); [lia |]. destruct Hlo; lia.
  - lia.
  - intros Hp. destruct (Hlo Hp). lia.
Qed.

Lemma units_pos (m : positive) (e : Z) : -1074 <= e -> 0 < units m e.
Proof.
  intros. unfold units. apply Z.mul_pos_pos; [lia | apply pow2_pos; lia].
Qed.

Lemma units_lt (m1 m2 : positive) (e1 e2 : Z) :
  bounded prec emax m1 e1 = true -> bounded prec emax m2 e2 = true ->
  e1 < e2 -> units m1 e1 < units m2 e2.
Proof.
  intros Hb1 Hb2 Hlt.
  destruct (bounded_facts m1 e1 Hb1) as (HD1 & He1 & _).
  destruct (bounded_facts m2 e2 Hb2) as (_ & He2 & Hn2).
  pose proof (digits2_pos_bounds m1) as [_ Hhi].
  pose proof (digits2_pos_bounds m2) as [Hlo _].
  rewrite Hn2 in Hlo by lia. change (53 - 1) with 52 in Hlo.
  assert (Hm1 : Zpos m1 < 2 ^ 53).
  { eapply Z.lt_le_trans; [exact Hhi | apply Z.pow_le_mono_r; lia]. }
  unfold units.
  assert (Hp1 : 0 < 2 ^ (e1 + 1074)) by (apply pow2_pos; lia).
  assert (Hp2 : 2 ^ (e2 + 1074) = 2 ^ (e1 + 1074) * 2 ^ (e2 - e1)).
  { rewrite <- Z.pow_add_r by lia. f_equal. lia. }
  assert (Hp3 : 2 <= 2 ^ (e2 - e1)).
  { change 2 with (2 ^ 1) at 1. apply Z.pow_le_mono_r; lia. }
  rewrite Hp2.
  change (2 ^ 53) with (2 * 2 ^ 52) in Hm1.
  assert (0 < 2 ^ 52) by reflexivity.
  nia.
Qed.

(** On canonical positive doubles the comparison of IEEE 754 is the
    comparison of the values. *)
Lemma SFcompare_units (m1 m2 : positive) (e1 e2 : Z) :
  bounded prec emax m1 e1 = true -> bounded prec emax m2 e2 = true ->
  SFcompare (S754_finite false m1 e1) (S754_finite false m2 e2)
  = Some (units m1 e1 ?= units m2 e2).
Proof.
  intros Hb1 Hb2. cbn [SFcompare]. f_equal.
  destruct (Z.compare_spec e1 e2) as [-> | Hlt | Hgt].
  - destruct (bounded_facts m2 e2 Hb2) as (_ & He2 & _).
    unfold units.
    rewrite <- Zmult_compare_compat_r by (apply Z.lt_gt, pow2_pos; lia).
    reflexivity.
  - symmetry. apply Z.compare_lt_iff. now apply units_lt.
  - symmetry. apply Z.compare_gt_iff. now apply units_lt.
Qed.

Lemma div_lt_bound (a b c : Z) : 0 < b -> a / b < c -> a < b * c.
Proof.
  intros Hb Hlt.
  pose proof (Z.div_mod a b ltac:(lia)).
  pose proof (Z.mod_pos_bound a b Hb). nia.
Qed.

Lemma div_ge_bound (a b c : Z) : 0 < b -> c <= a / b -> b * c <= a.
Proof.
  intros Hb Hle.
  pose proof (Z.div_mod a b ltac:(lia)).
  pose proof (Z.mod_pos_bound a b Hb). nia.
Qed.

(** Rounding on the grid that the value selects is monotone, also across
    a change of grid. *)
Lemma grid_rounding_monotone (X1 X2 k1 k2 : Z) :
  0 <= X1 <= X2 -> 0 <= k1 -> 0 <= k2 ->
  X1 / (5 * 2 ^ k1) < 2 ^ 53 -> X2 / (5 * 2 ^ k2) < 2 ^ 53 ->
  (0 < k1 -> 2 ^ 52 <= X1 / (5 * 2 ^ k1)) ->
  (0 < k2 -> 2 ^ 52 <= X2 / (5 * 2 ^ k2)) ->
  rne X1 (5 * 2 ^ k1) * 2 ^ k1 <= rne X2 (5 * 2 ^ k2) * 2 ^ k2.
Proof.
  intros HX Hk1 Hk2 Hhi1 Hhi2 Hlo1 Hlo2.
  assert (Hp1 : 0 < 2 ^ k1) by now apply pow2_pos.
  assert (Hp2 : 0 < 2 ^ k2) by now apply pow2_pos.
  pose proof (rne_bounds X1 (5 * 2 ^ k1)) as Hr1.
  pose proof (rne_bounds X2 (5 * 2 ^ k2)) as Hr2.
  destruct (Z.lt_trichotomy k1 k2) as [Hlt | [<- | Hgt]].
  - (* a coarser grid for the larger value *)
    specialize (Hlo2 ltac:(lia)).
    assert (Hpow : 2 ^ k2 = 2 ^ k1 * 2 ^ (k2 - k1)).
    { rewrite <- Z.pow_add_r by lia. f_equal. lia. }
    assert (Hstep : 2 <= 2 ^ (k2 - k1)).
    { change 2 with (2 ^ 1) at 1. apply Z.pow_le_mono_r; lia. }
    set (r1 := rne X1 _) in *. set (r2 := rne X2 _) in *.
    change (2 ^ 53) with (2 * 2 ^ 52) in *.
    assert (0 < 2 ^ 52) by reflexivity.
    assert (Ha : r1 * 2 ^ k1 <= (2 * 2 ^ 52) * 2 ^ k1)
      by (apply Z.mul_le_mono_nonneg_r; lia).
    assert (Hb : (2 ^ 52 * 2) * 2 ^ k1 <= (r2 * 2 ^ (k2 - k1)) * 2 ^ k1).
    { apply Z.mul_le_mono_nonneg_r; [lia |].
      apply Z.mul_le_mono_nonneg; lia. }
    rewrite Hpow. lia.
  - apply Z.mul_le_mono_nonneg_r; [lia |].
    apply rne_monotone; lia.
  - (* impossible: the smaller value would need the coarser grid *)
    exfalso.
    specialize (Hlo1 ltac:(lia)).
    apply div_ge_bound in Hlo1; [| lia].
    apply div_lt_bound in Hhi2; [| lia].
    assert (Hpow : 2 ^ k1 = 2 ^ k2 * 2 ^ (k1 - k2)).
    { rewrite <- Z.pow_add_r by lia. f_equal. lia. }
    assert (Hstep : 2 <= 2 ^ (k1 - k2)).
    { change 2 with (2 ^ 1) at 1. apply Z.pow_le_mono_r; lia. }
    change (2 ^ 53) with (2 * 2 ^ 52) in *.
    assert (0 < 2 ^ 52) by reflexivity.
    assert (Ha : 5 * 2 ^ k2 * (2 * 2 ^ 52)
                 <= 5 * 2 ^ k2 * (2 ^ (k1 - k2) * 2 ^ 52)).
    { apply Z.mul_le_mono_nonneg_l; [lia |].
      apply Z.mul_le_mono_nonneg_r; lia. }
    rewrite Hpow in Hlo1. lia.
Qed.

(** The value, in units of 2^-1074, of what a division by 5.0 of a
    positive double returns. *)
Definition quotient_units (f : spec_float) : Z :=
  match f with
  | S754_finite false m e => units m e
  | _ => 0
  end.

Definition zero_or_canonical (f : spec_float) : Prop :=
  f = S754_zero false
  \/ exists m e, f = S754_finite false m e /\ bounded prec emax m e = true.

Lemma SFdiv_5_monotone (m1 m2 : positive) (e1 e2 : Z) :
  bounded prec emax m1 e1 = true -> bounded prec emax m2 e2 = true ->
  units m1 e1 <= units m2 e2 ->
  let q1 := SFdiv prec emax (S754_finite false m1 e1) float_5 in
  let q2 := SFdiv prec emax (S754_finite false m2 e2) float_5 in
  zero_or_canonical q1 /\ zero_or_canonical q2
  /\ quotient_units q1 <= quotient_units q2.
Proof.
  intros Hb1 Hb2 Hle q1 q2.
  destruct (SFdiv_5_rounds m1 e1 Hb1)
    as (k1 & r1 & Hk1 & Hhi1 & Hlo1 & Hr1 & Hres1).
  destruct (SFdiv_5_rounds m2 e2 Hb2)
    as (k2 & r2 & Hk2 & Hhi2 & Hlo2 & Hr2 & Hres2).
  destruct (bounded_facts m1 e1 Hb1) as (_ & He1 & _).
  pose proof (units_pos m1 e1 ltac:(lia)) as Hpos1.
  pose proof (grid_rounding_monotone (units m1 e1) (units m2 e2) k1 k2
                ltac:(lia) Hk1 Hk2 Hhi1 Hhi2 Hlo1 Hlo2) as Hmono.
  rewrite <- Hr1, <- Hr2 in Hmono.
  assert (Hq1 : zero_or_canonical q1 /\ quotient_units q1 = r1 * 2 ^ k1).
  { subst q1.
    destruct Hres1 as [[Hz ->] | (mr & er & -> & Hbr & Hu)].
    - split; [now left |]. rewrite Hz. reflexivity.
    - split; [right; now exists mr, er | exact Hu]. }
  assert (Hq2 : zero_or_canonical q2 /\ quotient_units q2 = r2 * 2 ^ k2).
  { subst q2.
    destruct Hres2 as [[Hz ->] | (mr & er & -> & Hbr & Hu)].
    - split; [now left |]. rewrite Hz. reflexivity.
    - split; [right; now exists mr, er | exact Hu]. }
  destruct Hq1 as [Hc1 ->], Hq2 as [Hc2 ->]. auto.
Qed.

End Binary64.

Import Binary64.

(* ================================================================== *)
(** * Properties of the normalised scores                              *)
(* ================================================================== *)

(** What [max(0, min(1, q))] leaves of a float [q], read off the two
    comparisons the builtins make. *)
Definition clamp (q : spec_float) : pyval :=
  match cmp_float_int q 1 with
  | Some Lt =>
      match cmp_float_int q 0 with
      | Some Gt => VFloat q
      | _ => VInt 0
      end
  | _ => VInt 1
  end.

Lemma clamp_correct (q : spec_float) :
  rbind (py_min (VInt 1) (VFloat q)) (fun lo => py_max (VInt 0) lo)
  = Ok (clamp q).
Proof.
  unfold py_min, py_max, py_lt, py_gt, clamp. cbn [num_compare rbind].
  destruct (cmp_float_int q 1) as [[] |]; cbn; try reflexivity.
  destruct (cmp_float_int q 0) as [[] |]; reflexivity.
Qed.

Lemma ret_norm_of_movie (m : RecommendedMovie) :
  ret_norm (movie_json m) = Ok (clamp (retrieval_score m)).
Proof.
  unfold ret_norm. cbn [movie_json py_getitem assoc_lookup].
  cbn - [py_min py_max]. apply clamp_correct.
Qed.

Lemma score_norm_of_movie (m : RecommendedMovie) :
  score_norm (movie_json m)
  = Ok (clamp (SFdiv prec emax (ranking_score m) float_5)).
Proof.
  unfold score_norm. cbn [movie_json py_getitem assoc_lookup].
  cbn - [py_min py_max SFdiv]. apply clamp_correct.
Qed.

Lemma cmp_zero_int (s : bool) (n : Z) :
  cmp_float_int (S754_zero s) n = Some (0 ?= n).
Proof. reflexivity. Qed.

Lemma cmp_finite_int (s : bool) (m : positive) (e n : Z) :
  cmp_float_int (S754_finite s m e) n
  = Some (if 0 <=? e
          then ((if s then Zneg m else Zpos m) * 2 ^ e ?= n)
          else ((if s then Zneg m else Zpos m) ?= n * 2 ^ (- e))).
Proof. reflexivity. Qed.

(** The exact comparison of a float with an int follows the order of the
    ints. *)
Lemma cmp_float_int_below (x : spec_float) (n n' : Z) (c : comparison) :
  cmp_float_int x n = Some c -> c <> Gt -> n < n' ->
  cmp_float_int x n' = Some Lt.
Proof.
  destruct x as [s | s | | s m e]; intros Hc Hne Hlt.
  - rewrite cmp_zero_int in *.
    assert (Hc' : c = (0 ?= n)) by congruence. subst c.
    apply (proj1 (Z.compare_le_iff _ _)) in Hne.
    f_equal. apply Z.compare_lt_iff. lia.
  - destruct s; cbn in *; congruence.
  - discriminate.
  - rewrite cmp_finite_int in *.
    destruct (Z.leb_spec 0 e) as [He | He].
    + assert (Hc' : c = ((if s then Zneg m else Zpos m) * 2 ^ e ?= n))
        by congruence.
      subst c. apply (proj1 (Z.compare_le_iff _ _)) in Hne.
      f_equal. apply Z.compare_lt_iff. lia.
    + assert (Hc' : c = ((if s then Zneg m else Zpos m) ?= n * 2 ^ (- e)))
        by congruence.
      subst c. apply (proj1 (Z.compare_le_iff _ _)) in Hne.
      f_equal. apply Z.compare_lt_iff.
      assert (0 < 2 ^ (- e)) by (apply pow2_pos; lia). nia.
Qed.

Lemma cmp_float_int_above (x : spec_float) (n n' : Z) (c : comparison) :
  cmp_float_int x n' = Some c -> c <> Lt -> n < n' ->
  cmp_float_int x n = Some Gt.
Proof.
  destruct x as [s | s | | s m e]; intros Hc Hne Hlt.
  - rewrite cmp_zero_int in *.
    assert (Hc' : c = (0 ?= n')) by congruence. subst c.
    apply (proj1 (Z.compare_ge_iff _ _)) in Hne.
    f_equal. apply Z.compare_gt_iff. lia.
  - destruct s; cbn in *; congruence.
  - discriminate.
  - rewrite cmp_finite_int in *.
    destruct (Z.leb_spec 0 e) as [He | He].
    + assert (Hc' : c = ((if s then Zneg m else Zpos m) * 2 ^ e ?= n'))
        by congruence.
      subst c. apply (proj1 (Z.compare_ge_iff _ _)) in Hne.
      f_equal. apply Z.compare_gt_iff. lia.
    + assert (Hc' : c = ((if s then Zneg m else Zpos m) ?= n' * 2 ^ (- e)))
        by congruence.
      subst c. apply (proj1 (Z.compare_ge_iff _ _)) in Hne.
      f_equal. apply Z.compare_gt_iff.
      assert (0 < 2 ^ (- e)) by (apply pow2_pos; lia). nia.
Qed.

(** The clamp never leaves the interval from 0 to 1. *)
Lemma clamp_range (q : spec_float) :
  num_le (VInt 0) (clamp q) = true /\ num_le (clamp q) (VInt 1) = true.
Proof.
  unfold clamp.
  destruct (cmp_float_int q 1) as [[] |] eqn:H1; try (split; reflexivity).
  destruct (cmp_float_int q 0) as [[] |] eqn:H0; try (split; reflexivity).
  unfold num_le. cbn [num_compare]. rewrite H0, H1. split; reflexivity.
Qed.

(** C6. The retrieval score is clamped: a score below 0 gives 0, a score
    above 1 gives 1, and a score from 0 to 1 is returned as it is (the same
    float strictly inside the interval, and at the two ends the int of the
    same value, which Python holds equal to the float). The computation
    never raises. *)
Theorem retrieval_score_clamped (m : RecommendedMovie) :
  exists r,
    ret_norm (movie_json m) = Ok r
    /\ (num_compare (VFloat (retrieval_score m)) (VInt 0) = Some (Some Lt) ->
        r = VInt 0)
    /\ (num_compare (VFloat (retrieval_score m)) (VInt 1) = Some (Some Gt) ->
        r = VInt 1)
    /\ (num_le (VInt 0) (VFloat (retrieval_score m)) = true ->
        num_le (VFloat (retrieval_score m)) (VInt 1) = true ->
        num_eq r (VFloat (retrieval_score m)) = true)
    /\ (num_compare (VInt 0) (VFloat (retrieval_score m)) = Some (Some Lt) ->
        num_compare (VFloat (retrieval_score m)) (VInt 1) = Some (Some Lt) ->
        r = VFloat (retrieval_score m)).
Proof.
  exists (clamp (retrieval_score m)).
  split; [apply ret_norm_of_movie |].
  set (x := retrieval_score m).
  unfold num_le, num_eq, clamp. cbn [num_compare].
  split; [| split; [| split]].
  - intros H0. injection H0 as H0.
    rewrite (cmp_float_int_below x 0 1 Lt H0) by (discriminate || lia).
    now rewrite H0.
  - intros H1. injection H1 as H1. now rewrite H1.
  - destruct (cmp_float_int x 0) as [[] |] eqn:H0; cbn; try discriminate;
      intros _.
    + rewrite (cmp_float_int_below x 0 1 Eq H0) by (discriminate || lia).
      cbn [num_compare option_map CompOpp]. now rewrite H0.
    + destruct (cmp_float_int x 1) as [[] |] eqn:H1; cbn; try discriminate;
        intros _; cbn [num_compare option_map CompOpp].
      * now rewrite H1.
      * destruct x as [s | s | | s mx ex]; try reflexivity; try discriminate.
        -- now destruct s.
        -- cbn [SFcompare]. destruct s.
           ++ rewrite Z.compare_refl. now rewrite Pos.compare_cont_refl.
           ++ rewrite Z.compare_refl. now rewrite Pos.compare_cont_refl.
  - destruct (cmp_float_int x 0) as [[] |] eqn:H0; cbn; try discriminate.
    intros _ H1. injection H1 as H1. now rewrite H1.
Qed.

(** A float that is zero, negative or minus infinity. *)
Definition nonpositive (f : spec_float) : Prop :=
  (exists s, f = S754_zero s)
  \/ (exists m e, f = S754_finite true m e)
  \/ f = S754_infinity true.

Lemma clamp_nonpositive (f : spec_float) : nonpositive f -> clamp f = VInt 0.
Proof.
  intros [[s ->] | [(m & e & ->) | ->]]; try reflexivity.
  unfold clamp. rewrite !cmp_finite_int.
  assert (Hneg : forall n, 0 <= n ->
            (if 0 <=? e then (Zneg m * 2 ^ e ?= n)
             else (Zneg m ?= n * 2 ^ (- e))) = Lt).
  { intros n Hn. destruct (Z.leb_spec 0 e) as [He | He];
      apply Z.compare_lt_iff.
    - assert (0 < 2 ^ e) by now apply pow2_pos. nia.
    - assert (0 < 2 ^ (- e)) by (apply pow2_pos; lia). nia. }
  rewrite !Hneg by lia. reflexivity.
Qed.

Lemma finish_sign (s : bool) (m e : Z) :
  0 <= m ->
  finish s m e = S754_zero s
  \/ (exists m' e', finish s m e = S754_finite s m' e')
  \/ finish s m e = S754_infinity s.
Proof.
  intros Hm. unfold finish.
  set (n := Z.max 0 _).
  assert (Hq : 0 <= m / 2 ^ n).
  { apply Z.div_pos; [assumption | apply pow2_pos; unfold n; lia]. }
  destruct (m / 2 ^ n) as [| p | p]; [now left | | lia].
  destruct (e + n <=? emax - prec); [right; left; eauto | now right; right].
Qed.

(** Dividing a finite double by 5.0 keeps its sign and gives a number. *)
Lemma SFdiv_5_sign (s : bool) (mx : positive) (ex : Z) :
  SFdiv prec emax (S754_finite s mx ex) float_5 = S754_zero s
  \/ (exists m e,
         SFdiv prec emax (S754_finite s mx ex) float_5 = S754_finite s m e)
  \/ SFdiv prec emax (S754_finite s mx ex) float_5 = S754_infinity s.
Proof.
  unfold SFdiv, float_5, SFdiv_core_binary.
  set (e' := Z.min _ _).
  set (A := match ex - -50 - e' with
            | 0 => Zpos mx
            | Zpos _ => Z.shiftl (Zpos mx) (ex - -50 - e')
            | Zneg _ => 0
            end).
  assert (HA : 0 <= A).
  { unfold A. destruct (ex - -50 - e') as [| p | p]; try lia.
    rewrite Z.shiftl_mul_pow2 by lia.
    apply Z.mul_nonneg_nonneg; [lia | apply Z.pow_nonneg; lia]. }
  assert (Hdm : Z.div_eucl A 5629499534213120
                = (A / 5629499534213120, A mod 5629499534213120)).
  { unfold Z.div, Z.modulo. now destruct (Z.div_eucl A 5629499534213120). }
  rewrite Hdm.
  assert (Hloc : new_location 5629499534213120 (A mod 5629499534213120)
                 = location_of A 5629499534213120) by reflexivity.
  rewrite Hloc, xorb_false_r.
  rewrite (binary_round_aux_spec s A 5629499534213120 e' HA ltac:(lia)).
  apply finish_sign.
  set (n := Z.max 0 _).
  pose proof (rne_bounds A (5629499534213120 * 2 ^ n)).
  assert (0 <= A / (5629499534213120 * 2 ^ n)).
  { apply Z.div_pos; [assumption |].
    assert (0 < 2 ^ n) by (apply pow2_pos; unfold n; lia). lia. }
  lia.
Qed.

Lemma SFdiv_5_nonpositive (x : spec_float) :
  nonpositive x -> nonpositive (SFdiv prec emax x float_5).
Proof.
  intros [[s ->] | [(m & e & ->) | ->]].
  - left. exists s. cbn. now rewrite xorb_false_r.
  - destruct (SFdiv_5_sign true m e) as [-> | [(m' & e' & ->) | ->]].
    + left. now exists true.
    + right. left. now exists m', e'.
    + now right; right.
  - now right; right.
Qed.

Lemma le_zero_nonpositive (x : spec_float) :
  num_le (VFloat x) (VInt 0) = true -> nonpositive x.
Proof.
  unfold num_le. cbn [num_compare].
  destruct x as [s | s | | s m e].
  - intros _. left. now exists s.
  - destruct s; [now right; right | discriminate].
  - discriminate.
  - destruct s; [intros _; right; left; now exists m, e |].
    rewrite cmp_finite_int.
    assert (Hpos : (if 0 <=? e then (Zpos m * 2 ^ e ?= 0)
                    else (Zpos m ?= 0 * 2 ^ (- e))) = Gt).
    { destruct (Z.leb_spec 0 e) as [He | He]; apply Z.compare_gt_iff.
      - assert (0 < 2 ^ e) by now apply pow2_pos. nia.
      - lia. }
    rewrite Hpos. discriminate.
Qed.

(** The value of a clamped score, in units of 2^-1074. *)
Definition out_units (r : pyval) : Z :=
  match r with
  | VInt z => z * 2 ^ 1074
  | VFloat f => quotient_units f
  | _ => 0
  end.

(** The values a clamp of a quotient can be. *)
Definition plain_number (r : pyval) : Prop :=
  (exists z, r = VInt z) \/ (exists f, r = VFloat f /\ zero_or_canonical f).

Lemma cmp_canonical_int (m : positive) (e n : Z) :
  bounded prec emax m e = true ->
  cmp_float_int (S754_finite false m e) n
  = Some (units m e ?= n * 2 ^ 1074).
Proof.
  intros Hb. destruct (bounded_facts m e Hb) as (_ & He & _).
  rewrite cmp_finite_int. f_equal. unfold units.
  destruct (Z.leb_spec 0 e) as [Hpos | Hneg].
  - rewrite (Zmult_compare_compat_r _ _ (2 ^ 1074))
      by (apply Z.lt_gt, pow2_pos; lia).
    rewrite Z.pow_add_r by lia. f_equal. ring.
  - rewrite (Zmult_compare_compat_r _ _ (2 ^ (e + 1074)))
      by (apply Z.lt_gt, pow2_pos; lia).
    f_equal. rewrite <- Z.mul_assoc, <- Z.pow_add_r by lia.
    do 2 f_equal. lia.
Qed.

Lemma clamp_canonical (q : spec_float) :
  zero_or_canonical q ->
  plain_number (clamp q)
  /\ out_units (clamp q) = Z.min (quotient_units q) (2 ^ 1074).
Proof.
  assert (HP : 0 < 2 ^ 1074) by (apply pow2_pos; lia).
  intros [-> | (m & e & -> & Hb)].
  - split; [left; now exists 0 |].
    change (clamp (S754_zero false)) with (VInt 0).
    cbn [out_units quotient_units]. lia.
  - destruct (bounded_facts m e Hb) as (_ & He & _).
    pose proof (units_pos m e ltac:(lia)) as Hu.
    unfold clamp. rewrite !(cmp_canonical_int m e _ Hb).
    cbn [quotient_units].
    destruct (Z.compare_spec (units m e) (1 * 2 ^ 1074)) as [Heq | Hlt | Hgt].
    + split; [left; now exists 1 | cbn [out_units]; lia].
    + replace (units m e ?= 0 * 2 ^ 1074) with Gt
        by (symmetry; apply Z.compare_gt_iff; lia).
      split; [right; exists (S754_finite false m e); split;
              [reflexivity | right; now exists m, e] |].
      cbn [out_units quotient_units]. lia.
    + split; [left; now exists 1 | cbn [out_units]; lia].
Qed.

Lemma num_le_units (r1 r2 : pyval) :
  plain_number r1 -> plain_number r2 ->
  out_units r1 <= out_units r2 -> num_le r1 r2 = true.
Proof.
  assert (HP : 0 < 2 ^ 1074) by (apply pow2_pos; lia).
  assert (Hle : forall a b, a <= b ->
            match a ?= b with Lt | Eq => true | Gt => false end = true).
  { intros a b Hab. destruct (Z.compare_spec a b); [reflexivity .. | lia]. }
  assert (Hflip : forall a b, a <= b ->
            match CompOpp (b ?= a) with Lt | Eq => true | Gt => false end
            = true).
  { intros a b Hab. rewrite <- Z.compare_antisym. now apply Hle. }
  intros [(z1 & ->) | (f1 & -> & Hf1)] [(z2 & ->) | (f2 & -> & Hf2)];
    unfold num_le; cbn [num_compare out_units].
  - intros H. apply Hle. nia.
  - destruct Hf2 as [-> | (m2 & e2 & -> & Hb2)]; cbn [quotient_units].
    + rewrite cmp_zero_int. cbn [option_map]. intros H. apply Hflip. nia.
    + rewrite (cmp_canonical_int m2 e2 _ Hb2). cbn [option_map].
      intros H. now apply Hflip.
  - destruct Hf1 as [-> | (m1 & e1 & -> & Hb1)]; cbn [quotient_units].
    + rewrite cmp_zero_int. intros H. apply Hle. nia.
    + rewrite (cmp_canonical_int m1 e1 _ Hb1). intros H. now apply Hle.
  - destruct Hf1 as [-> | (m1 & e1 & -> & Hb1)],
             Hf2 as [-> | (m2 & e2 & -> & Hb2)]; cbn [quotient_units].
    + reflexivity.
    + reflexivity.
    + destruct (bounded_facts m1 e1 Hb1) as (_ & He & _).
      pose proof (units_pos m1 e1 ltac:(lia)). lia.
    + rewrite (SFcompare_units m1 m2 e1 e2 Hb1 Hb2). intros H. now apply Hle.
Qed.

(** Division by 5.0 followed by the clamp is monotone on the positive
    doubles. *)
Lemma clamp_quotient_monotone (m1 m2 : positive) (e1 e2 : Z) :
  bounded prec emax m1 e1 = true -> bounded prec emax m2 e2 = true ->
  SFleb (S754_finite false m1 e1) (S754_finite false m2 e2) = true ->
  num_le (clamp (SFdiv prec emax (S754_finite false m1 e1) float_5))
         (clamp (SFdiv prec emax (S754_finite false m2 e2) float_5))
  = true.
Proof.
  intros Hb1 Hb2 Hle.
  unfold SFleb in Hle. rewrite (SFcompare_units m1 m2 e1 e2 Hb1 Hb2) in Hle.
  assert (Hu : units m1 e1 <= units m2 e2).
  { destruct (Z.compare_spec (units m1 e1) (units m2 e2));
      [lia | lia | discriminate]. }
  destruct (SFdiv_5_monotone m1 m2 e1 e2 Hb1 Hb2 Hu) as (Hc1 & Hc2 & Hq).
  destruct (clamp_canonical _ Hc1) as [Hn1 Ho1].
  destruct (clamp_canonical _ Hc2) as [Hn2 Ho2].
  apply num_le_units; [assumption .. |]. lia.
Qed.

Definition float_1 : spec_float := S754_finite false 4503599627370496 (-52).

Lemma clamp_quotient_low (x q : spec_float) :
  nonpositive x ->
  num_le (clamp (SFdiv prec emax x float_5)) (clamp q) = true.
Proof.
  intros Hx.
  rewrite (clamp_nonpositive _ (SFdiv_5_nonpositive x Hx)).
  apply clamp_range.
Qed.

Lemma clamp_quotient_monotone_all (x y : spec_float) :
  valid_binary prec emax x = true -> valid_binary prec emax y = true ->
  SFleb x y = true ->
  num_le (clamp (SFdiv prec emax x float_5))
         (clamp (SFdiv prec emax y float_5)) = true.
Proof.
  intros Hvx Hvy Hle.
  destruct x as [sx | sx | | sx mx ex].
  - apply clamp_quotient_low. left. now exists sx.
  - destruct sx; [apply clamp_quotient_low; now right; right |].
    destruct y as [sy | sy | | sy my ey]; try discriminate.
    destruct sy; [discriminate | reflexivity].
  - discriminate.
  - destruct sx;
      [apply clamp_quotient_low; right; left; now exists mx, ex |].
    destruct y as [sy | sy | | sy my ey]; try discriminate.
    + destruct sy; [discriminate |].
      change (clamp (SFdiv prec emax (S754_infinity false) float_5))
        with (VInt 1).
      apply clamp_range.
    + destruct sy; [discriminate |].
      now apply clamp_quotient_monotone.
Qed.

(** C1. The normalised ranking score [max(0, min(1, score / 5.0))] is
    computed for every score without raising, lies between 0 and 1, is 1
    (the int, equal to 1.0) for the score 5.0 and 0 for every score that is
    at most 0, and does not decrease when the score grows: for doubles
    [x <= y] the result for [x] is at most the result for [y]. *)
Theorem ranking_score_normalised :
  (forall m : RecommendedMovie,
      exists r,
        score_norm (movie_json m) = Ok r
        /\ num_le (VInt 0) r = true /\ num_le r (VInt 1) = true
        /\ (ranking_score m = float_5 ->
            r = VInt 1 /\ num_eq r (VFloat float_1) = true)
        /\ (num_le (VFloat (ranking_score m)) (VInt 0) = true -> r = VInt 0))
  /\ (forall m1 m2 : RecommendedMovie,
         valid_binary prec emax (ranking_score m1) = true ->
         valid_binary prec emax (ranking_score m2) = true ->
         SFleb (ranking_score m1) (ranking_score m2) = true ->
         exists r1 r2,
           score_norm (movie_json m1) = Ok r1
           /\ score_norm (movie_json m2) = Ok r2
           /\ num_le r1 r2 = true).
Proof.
  split.
  - intros m. exists (clamp (SFdiv prec emax (ranking_score m) float_5)).
    split; [apply score_norm_of_movie |].
    split; [apply clamp_range |]. split; [apply clamp_range |].
    split.
    + intros ->. split; reflexivity.
    + intros Hle. apply clamp_nonpositive, SFdiv_5_nonpositive.
      now apply le_zero_nonpositive.
  - intros m1 m2 Hv1 Hv2 Hle.
    exists (clamp (SFdiv prec emax (ranking_score m1) float_5)),
           (clamp (SFdiv prec emax (ranking_score m2) float_5)).
    split; [apply score_norm_of_movie |].
    split; [apply score_norm_of_movie |].
    now apply clamp_quotient_monotone_all.
Qed.

Definition movie_scored (score retrieval : spec_float) : RecommendedMovie :=
  mk_movie 1 1 "Toy Story" "Animation" (Some 1995) score retrieval.

Lemma ranking_score_normalised_witness :
  exists r1 r2,
    score_norm (movie_json (movie_scored float_3_0 float_0_9)) = Ok r1
    /\ score_norm (movie_json (movie_scored float_4_5 float_0_9)) = Ok r2
    /\ num_le r1 r2 = true.
Proof.
  destruct ranking_score_normalised as [_ Hmono].
  apply (Hmono (movie_scored float_3_0 float_0_9)
               (movie_scored float_4_5 float_0_9));
    reflexivity.
Defined.

Lemma retrieval_score_clamped_witness :
  exists r,
    ret_norm (movie_json (movie_scored float_3_0 float_4_5)) = Ok r
    /\ r = VInt 1.
Proof.
  destruct (retrieval_score_clamped (movie_scored float_3_0 float_4_5))
    as (r & Hrun & _ & Habove & _).
  exists r. split; [exact Hrun |]. apply Habove. reflexivity.
Defined.

(* ================================================================== *)
(** * Worked examples                                                  *)
(* ================================================================== *)

Definition float_nan : spec_float := S754_nan.
Definition float_minus_2 : spec_float :=
  S754_finite true 4503599627370496 (-51).
Definition float_1e308 : spec_float :=
  S754_finite false 5010420900022432 971.

(** 4.5 / 5.0 is the double nearest to 0.9, which is kept. *)
Example score_norm_of_4_5 :
  score_norm (movie_json (movie_scored float_4_5 float_0_9))
  = Ok (VFloat float_0_9).
Proof. reflexivity. Qed.

Example score_norm_of_5 :
  score_norm (movie_json (movie_scored float_5 float_0_9)) = Ok (VInt 1).
Proof. reflexivity. Qed.

Example score_norm_of_minus_2 :
  score_norm (movie_json (movie_scored float_minus_2 float_0_9)) = Ok (VInt 0).
Proof. reflexivity. Qed.

Example score_norm_of_1e308 :
  score_norm (movie_json (movie_scored float_1e308 float_0_9)) = Ok (VInt 1).
Proof. reflexivity. Qed.

(** A NaN is smaller than nothing: [min] keeps the 1. *)
Example score_norm_of_nan :
  score_norm (movie_json (movie_scored float_nan float_0_9)) = Ok (VInt 1).
Proof. reflexivity. Qed.

Example ret_norm_of_0_9 :
  ret_norm (movie_json (movie_scored float_5 float_0_9))
  = Ok (VFloat float_0_9).
Proof. reflexivity. Qed.

Example ret_norm_of_1 :
  ret_norm (movie_json (movie_scored float_5 float_1)) = Ok (VInt 1).
Proof. reflexivity. Qed.

(** A movie whose score is not a number is rejected by the division. *)
Example score_norm_of_text :
  score_norm (VDict [("ranking_score", VStr "high")])
  = Raise (mk_exn TypeError
             "unsupported operand type(s) for /: 'str' and 'float'").
Proof. reflexivity. Qed.

Example split_examples :
  split pipe "Action|Crime|Drama" = ["Action"; "Crime"; "Drama"]
  /\ split pipe EmptyString = [EmptyString]
  /\ split pipe "Drama|" = ["Drama"; EmptyString]
  /\ split pipe "a||b" = ["a"; EmptyString; "b"].
Proof. repeat split. Qed.

Example year_str_examples :
  year_str (fun _ => EmptyString) (movie_json toy_story) = Ok "1995"
  /\ year_str (fun _ => EmptyString) (movie_json unrated_movie) = Ok "N/A"
  /\ year_str (fun _ => EmptyString)
       (movie_json (mk_movie 1 1 "Untitled" "Drama" (Some 0)
                             float_4_5 float_0_9))
     = Ok "N/A"
  /\ year_str (fun _ => EmptyString) (VDict [("title", VStr "Untitled")])
     = Raise (mk_exn KeyError "'year'").
Proof. repeat split. Qed.

(** The CSV lines of two movies, the second without a year: the Year
    column of the frame is a column of floats, and the missing year is the
    empty field. Floats are written here by a stand-in renderer. *)
Example to_csv_lines_example :
  to_csv_lines (fun _ => "<float>")
    (export_frame
       [toy_story;
        mk_movie 2 858 "The Godfather" "Action|Crime|Drama" None
                 float_3_0 float_0_9])
  = [header_line;
     "1,1,Toy Story,Animation|Children's|Comedy|Comedy,<float>,<float>,<float>";
     "2,858,The Godfather,Action|Crime|Drama,,<float>,<float>"].
Proof. reflexivity. Qed.

(** An error body that is not an object has no [get]. *)
Example fetch_recommendations_list_body :
  fst (fetch_recommendations shipped_config 1 200 10
         (answering_world 500 (Ok (VList []))))
  = Ok (VNone, VStr "'list' object has no attribute 'get'").
Proof. reflexivity. Qed.

Example check_api_health_examples :
  fst (check_api_health shipped_config (answering_world 200 (Ok VNone)))
  = Ok true
  /\ fst (check_api_health shipped_config (answering_world 503 (Ok VNone)))
     = Ok false
  /\ fst (check_api_health shipped_config (refusing_world "refused"))
     = Ok false.
Proof. repeat split. Qed.

(* ================================================================== *)
(** * The API helpers, call after call                                 *)
(* ================================================================== *)

Definition health_request (cfg : config) : http_request :=
  mk_request GET (API_URL cfg ++ "/") None 3.

(** The answer of the network to the request of [check_api_health]. *)
Definition health_outcome (cfg : config) (w : world) : result http_response :=
  net w (List.length (sent w)) (health_request cfg).

(** Whether the network answers the health probe with a success status. *)
Definition probe_ok (cfg : config) (w : world) : bool :=
  match health_outcome cfg w with
  | Ok r => ok r
  | Raise _ => false
  end.

(** Calls of [fetch_stats] at the given clock readings, one after the
    other. *)
Fixpoint fetch_stats_at (cfg : config) (times : list Q) : M (list pyval) :=
  match times with
  | [] => ret []
  | t :: rest =>
      bind (at_time t (fetch_stats cfg)) (fun v =>
      bind (fetch_stats_at cfg rest) (fun vs => ret (v :: vs)))
  end.

(** X1. [check_api_health] never raises and is never served from a cache:
    every call sends one GET to the root of the configured base with a
    timeout of 3 seconds, and the answer is [True] exactly when a response
    came back with a status outside 400..599; a refused connection, a
    timeout or any other exception gives [False]. *)
Theorem check_api_health_probe (cfg : config) (w : world) :
  exists b,
    check_api_health cfg w
    = (Ok b, mk_world (net w) (health_request cfg :: sent w)
                      (now w) (stats_cache w))
    /\ b = probe_ok cfg w
    /\ (b = true <-> exists r, health_outcome cfg w = Ok r /\ ok r = true)
    /\ (forall e, health_outcome cfg w = Raise e -> b = false).
Proof.
  unfold check_api_health, try_except, bind, requests_get, http_send, ret,
    probe_ok, health_outcome, health_request.
  destruct (net w (List.length (sent w)) _) as [r | e] eqn:Hout.
  - exists (ok r). split; [reflexivity |]. split; [reflexivity |].
    split; [| discriminate].
    split.
    + intros Hok. now exists r.
    + intros (r' & Hr' & Hok). injection Hr' as <-. exact Hok.
  - exists false. split; [reflexivity |]. split; [reflexivity |].
    split; [| reflexivity].
    split; [discriminate |]. intros (r & Hr & _). discriminate.
Qed.

Lemma fetch_recommendations_world (cfg : config) (u k n : Z) (w : world) :
  snd (fetch_recommendations cfg u k n w)
  = mk_world (net w) (recommend_request cfg u k n :: sent w)
             (now w) (stats_cache w).
Proof.
  destruct (run_fetch_recommendations cfg u k n w) as (answer & -> & _).
  reflexivity.
Qed.

(** X2. [fetch_recommendations] makes a single attempt and keeps nothing:
    whatever the outcome, a call sends exactly one POST to
    API_URL/recommend with a timeout of 30 seconds and leaves the stats
    cache and the clock alone, and a second call sends a second request
    even for the same arguments. *)
Theorem fetch_recommendations_single_attempt
  (cfg : config) (u k n u' k' n' : Z) (w : world) :
  sent (snd (fetch_recommendations cfg u k n w))
  = recommend_request cfg u k n :: sent w
  /\ req_timeout (recommend_request cfg u k n) = 30
  /\ req_method (recommend_request cfg u k n) = POST
  /\ stats_cache (snd (fetch_recommendations cfg u k n w)) = stats_cache w
  /\ sent (snd (both (fetch_recommendations cfg u k n)
                     (fetch_recommendations cfg u' k' n') w))
     = recommend_request cfg u' k' n' :: recommend_request cfg u k n :: sent w.
Proof.
  rewrite fetch_recommendations_world. cbn [sent stats_cache].
  repeat (split; [reflexivity |]).
  unfold both, bind, ret.
  destruct (run_fetch_recommendations cfg u k n w) as (a1 & -> & _).
  set (w1 := mk_world _ _ _ _).
  destruct (run_fetch_recommendations cfg u' k' n' w1) as (a2 & -> & _).
  reflexivity.
Qed.

(** The request of a call of [fetch_stats] fails. *)
Definition stats_fail (cfg : config) (w : world) : Prop :=
  match stats_outcome cfg w with
  | Ok r => ok r = false \/ exists e, json r = Raise e
  | Raise _ => True
  end.

(** X3. A failure is cached like a success. When the request of a call
    from an empty cache fails, the call returns [None], and a call less
    than 60 seconds later returns [None] again without asking the backend,
    whatever the backend would answer by then. *)
Theorem fetch_stats_caches_failure
  (cfg : config) (w : world) (t1 t2 : Q) :
  stats_cache w = None ->
  stats_fail cfg w ->
  (t2 < t1 + 60)%Q ->
  fst (both (at_time t1 (fetch_stats cfg)) (at_time t2 (fetch_stats cfg)) w)
  = Ok (VNone, VNone)
  /\ sent (snd (both (at_time t1 (fetch_stats cfg))
                     (at_time t2 (fetch_stats cfg)) w))
     = stats_request cfg :: sent w.
Proof.
  intros Hnone Hfail Hwin.
  set (w1 := mk_world (net w) (sent w) t1 (stats_cache w)).
  destruct (fetch_stats_miss cfg w1 Hnone) as (v & Hfirst & Hbody).
  assert (Hv : v = VNone).
  { destruct (run_fetch_stats_body cfg w1) as (v' & Hrun & Hv').
    rewrite Hrun in Hbody. cbn in Hbody. injection Hbody as <-.
    unfold stats_fail in Hfail.
    change (stats_outcome cfg w1) with (stats_outcome cfg w) in Hv'.
    destruct (stats_outcome cfg w) as [r | e]; [| exact Hv'].
    destruct Hfail as [Hok | [e He]].
    - now rewrite Hok in Hv'.
    - rewrite He in Hv'. now destruct (ok r). }
  subst v.
  set (w1' := mk_world (net w1) (stats_request cfg :: sent w1)
                       (now w1) (Some (now w1, VNone))) in Hfirst.
  set (w2 := mk_world (net w1') (sent w1') t2 (stats_cache w1')).
  assert (Hsecond : fetch_stats cfg w2 = (Ok VNone, w2)).
  { apply (fetch_stats_hit cfg w2 t1 VNone); [reflexivity | exact Hwin]. }
  unfold both, bind, at_time, ret. fold w1. rewrite Hfirst.
  fold w2. rewrite Hsecond. split; reflexivity.
Qed.

(** The backend is down for the first request only. *)
Lemma fetch_stats_caches_failure_witness :
  fst (both (at_time 0 (fetch_stats shipped_config))
            (at_time 59 (fetch_stats shipped_config)) recovering_world)
  = Ok (VNone, VNone).
Proof.
  apply (fetch_stats_caches_failure shipped_config recovering_world 0 59);
    [reflexivity | exact I | lra].
Defined.

Lemma fetch_stats_at_served
  (cfg : config) (times : list Q) (w : world) (stored_at : Q) (v : pyval) :
  stats_cache w = Some (stored_at, v) ->
  Forall (fun t => (t < stored_at + 60)%Q) times ->
  exists w',
    fetch_stats_at cfg times w
    = (Ok (repeat v (List.length times)), w')
    /\ sent w' = sent w /\ stats_cache w' = stats_cache w /\ net w' = net w.
Proof.
  intros Hsome Hall. revert w Hsome.
  induction Hall as [| t rest Ht Hrest IH]; intros w Hsome.
  - exists w. repeat split.
  - cbn [fetch_stats_at List.length repeat]. unfold bind at 1, at_time.
    set (wt := mk_world (net w) (sent w) t (stats_cache w)).
    rewrite (fetch_stats_hit cfg wt stored_at v Hsome Ht).
    destruct (IH wt Hsome) as (w' & Hrun & Hsent & Hcache & Hnet).
    unfold bind, ret. rewrite Hrun.
    exists w'. repeat split; assumption.
Qed.

(** X4. However many calls fall into the 60 seconds after a fetch, the
    backend is asked once: from an empty cache, a call at [t0] followed by
    calls at any clock readings below [t0 + 60] sends one request in all
    and every call returns the value of the first. *)
Theorem fetch_stats_one_request_per_window
  (cfg : config) (w : world) (t0 : Q) (times : list Q) :
  stats_cache w = None ->
  Forall (fun t => (t < t0 + 60)%Q) times ->
  exists v,
    fst (fetch_stats_at cfg (t0 :: times) w)
    = Ok (repeat v (S (List.length times)))
    /\ sent (snd (fetch_stats_at cfg (t0 :: times) w))
       = stats_request cfg :: sent w.
Proof.
  intros Hnone Hall.
  set (w0 := mk_world (net w) (sent w) t0 (stats_cache w)).
  destruct (fetch_stats_miss cfg w0 Hnone) as (v & Hfirst & _).
  set (w0' := mk_world (net w0) (stats_request cfg :: sent w0)
                       (now w0) (Some (now w0, v))) in Hfirst.
  destruct (fetch_stats_at_served cfg times w0' t0 v eq_refl Hall)
    as (w' & Hrun & Hsent & _).
  exists v.
  cbn [fetch_stats_at]. unfold bind at 1 3, at_time. fold w0.
  rewrite Hfirst. unfold bind, ret. rewrite Hrun. cbn [fst snd repeat].
  split; [reflexivity | exact Hsent].
Qed.

Lemma fetch_stats_one_request_per_window_witness :
  sent (snd (fetch_stats_at shipped_config [0; 10; 59; 20]%Q
                            recovering_world))
  = [stats_request shipped_config].
Proof.
  destruct (fetch_stats_one_request_per_window shipped_config
              recovering_world 0 [10; 59; 20]%Q eq_refl)
    as (v & _ & Hsent).
  - repeat constructor; lra.
  - exact Hsent.
Defined.

(* ================================================================== *)
(** * One run of the script                                            *)
(* ================================================================== *)

(** X5. The requests of one run of the script. The health probe goes out
    first, then at most one stats request, and the recommend request goes
    out last, exactly when the stats panel was made without an exception,
    the button was pressed and the probe came back with a success status.
    With the backend offline or the button not pressed no recommend
    request is sent and the run has no answer; and stats that the panel
    cannot show (a missing total, a value that takes no thousands
    separator) end the run in the sidebar with that exception, before any
    recommend request, whatever the button and the probe say. *)
Theorem script_requests
  (py_repr : pyval -> string) (format_comma_float : spec_float -> string)
  (cfg : config) (s : sidebar) (w : world) :
  exists stats_reqs stats,
    (stats_reqs = [] \/ stats_reqs = [stats_request cfg])
    /\ fst (both (check_api_health cfg) (fetch_stats cfg) w)
       = Ok (probe_ok cfg w, stats)
    /\ (forall e,
           stats_panel py_repr format_comma_float stats = Raise e ->
           fst (script py_repr format_comma_float cfg s w) = Raise e
           /\ sent (snd (script py_repr format_comma_float cfg s w))
              = (stats_reqs ++ [health_request cfg] ++ sent w)%list)
    /\ (forall panel,
           stats_panel py_repr format_comma_float stats = Ok panel ->
           sent (snd (script py_repr format_comma_float cfg s w))
           = ((if recommend_btn s && probe_ok cfg w
               then [recommend_request cfg (user_id s) (top_k s) (top_n s)]
               else [])
                ++ stats_reqs ++ [health_request cfg] ++ sent w)%list
           /\ (recommend_btn s && probe_ok cfg w = false ->
               fst (script py_repr format_comma_float cfg s w)
               = Ok (panel, None))
           /\ (recommend_btn s && probe_ok cfg w = true ->
               exists answer,
                 fst (script py_repr format_comma_float cfg s w)
                 = Ok (panel, Some answer))).
Proof.
  unfold script, both, bind.
  destruct (check_api_health_probe cfg w) as (b & -> & -> & _).
  set (w1 := mk_world _ _ _ _).
  destruct (run_sidebar_stats py_repr format_comma_float cfg w1)
    as (stats & w2 & -> & -> & Hsent2).
  assert (Hreqs : exists stats_reqs,
             (stats_reqs = [] \/ stats_reqs = [stats_request cfg])
             /\ sent w2 = (stats_reqs ++ [health_request cfg] ++ sent w)%list).
  { destruct Hsent2 as [-> | ->]; subst w1; cbn [sent].
    - exists []. split; [now left | reflexivity].
    - exists [stats_request cfg]. split; [now right | reflexivity]. }
  destruct Hreqs as (stats_reqs & Hkind & Hsent).
  exists stats_reqs, stats. split; [exact Hkind |].
  split; [reflexivity |]. split.
  - intros e ->. cbn [fst snd]. split; [reflexivity | exact Hsent].
  - intros panel ->.
    destruct (recommend_btn s); [destruct (probe_ok cfg w) |];
      cbn [andb negb ret fst snd].
    + destruct (run_fetch_recommendations cfg (user_id s) (top_k s) (top_n s)
                  w2) as (answer & -> & _).
      cbn [fst snd sent]. rewrite Hsent.
      split; [reflexivity |]. split; [discriminate |].
      intros _. now exists answer.
    + split; [exact Hsent |]. split; [reflexivity | discriminate].
    + split; [exact Hsent |]. split; [reflexivity | discriminate].
Qed.

(** Stats that lack a total: the button is pressed and the backend
    answers, yet the run ends in the sidebar. *)
Lemma script_requests_witness :
  fst (script (fun _ => EmptyString) (fun _ => EmptyString)
         shipped_config (mk_sidebar 42 10 200 true)
         (answering_world 200 (Ok (VDict [("total_users", VInt 1)]))))
  = Raise (mk_exn KeyError "'total_movies'")
  /\ fst (script (fun _ => EmptyString) (fun _ => EmptyString)
            shipped_config (mk_sidebar 42 10 200 true)
            (refusing_world "Connection refused"))
     = Ok (None, None).
Proof.
  split.
  - destruct (script_requests (fun _ => EmptyString) (fun _ => EmptyString)
                shipped_config (mk_sidebar 42 10 200 true)
                (answering_world 200 (Ok (VDict [("total_users", VInt 1)]))))
      as (stats_reqs & stats & _ & Hstats & Hraise & _).
    injection Hstats as <-.
    now apply Hraise.
  - destruct (script_requests (fun _ => EmptyString) (fun _ => EmptyString)
                shipped_config (mk_sidebar 42 10 200 true)
                (refusing_world "Connection refused"))
      as (stats_reqs & stats & _ & Hstats & _ & Hshown).
    injection Hstats as <-.
    now apply (Hshown None).
Defined.

(** What the main block puts on the page for an answer of
    [fetch_recommendations]. *)
Inductive shown : Type :=
| ErrorBanner (text : string)
| Results (data : pyval)
| Nothing.

Section MainBlock.
Variable py_repr : pyval -> string.

(** [if error: st.error(f"Error: {error}") elif data: ...] *)
Definition main_branch (answer : pyval * pyval) : shown :=
  let (data, error) := answer in
  if py_truthy error then ErrorBanner ("Error: " ++ py_str py_repr error)
  else if py_truthy data then Results data
  else Nothing.

End MainBlock.

(** X6. What the page shows after a fetch. A failure of the connection
    always ends in the error banner with the fixed message, and an error
    status with a text detail that is not empty in the banner with that
    detail. The page stays blank, without banner and without results, when
    the error is empty and there is no data: an error status whose detail
    is null or empty, an exception whose text is empty, or a success
    status whose body is null or an empty object. *)
Theorem main_branch_after_fetch
  (py_repr : pyval -> string) (cfg : config) (u k n : Z) (w : world) :
  (forall e,
      recommend_outcome cfg u k n w = Raise e ->
      is_connection_error e = true ->
      rbind (fst (fetch_recommendations cfg u k n w))
            (fun a => Ok (main_branch py_repr a))
      = Ok (ErrorBanner ("Error: " ++ connect_message)))
  /\ (forall r d text,
         recommend_outcome cfg u k n w = Ok r -> ok r = false ->
         json r = Ok (VDict d) ->
         assoc_lookup "detail" d = Some (VStr text) ->
         text <> EmptyString ->
         rbind (fst (fetch_recommendations cfg u k n w))
               (fun a => Ok (main_branch py_repr a))
         = Ok (ErrorBanner ("Error: " ++ text)))
  /\ (forall r d detail,
         recommend_outcome cfg u k n w = Ok r -> ok r = false ->
         json r = Ok (VDict d) ->
         assoc_lookup "detail" d = Some detail ->
         py_truthy detail = false ->
         rbind (fst (fetch_recommendations cfg u k n w))
               (fun a => Ok (main_branch py_repr a))
         = Ok Nothing)
  /\ (forall e,
         recommend_outcome cfg u k n w = Raise e ->
         is_connection_error e = false ->
         exc_text e = EmptyString ->
         rbind (fst (fetch_recommendations cfg u k n w))
               (fun a => Ok (main_branch py_repr a))
         = Ok Nothing)
  /\ (forall r body,
         recommend_outcome cfg u k n w = Ok r -> ok r = true ->
         json r = Ok body ->
         rbind (fst (fetch_recommendations cfg u k n w))
               (fun a => Ok (main_branch py_repr a))
         = Ok (if py_truthy body then Results body else Nothing)).
Proof.
  destruct (run_fetch_recommendations cfg u k n w) as (answer & -> & Hans).
  unfold recommend_outcome. cbn [fst rbind].
  split; [| split; [| split; [| split]]].
  - intros e Hout Hc. rewrite Hout, Hc in Hans. now subst.
  - intros r d text Hout Hok Hjson Hdetail Htext.
    rewrite Hout, Hok, Hjson in Hans. cbn in Hans. rewrite Hdetail in Hans.
    subst answer. cbn.
    destruct text; [congruence | reflexivity].
  - intros r d detail Hout Hok Hjson Hdetail Hfalsy.
    rewrite Hout, Hok, Hjson in Hans. cbn in Hans. rewrite Hdetail in Hans.
    subst answer. cbn [main_branch]. now rewrite Hfalsy.
  - intros e Hout Hc Htext. rewrite Hout, Hc, Htext in Hans. now subst.
  - intros r body Hout Hok Hjson. rewrite Hout, Hok, Hjson in Hans.
    now subst.
Qed.

Lemma main_branch_after_fetch_witness :
  rbind (fst (fetch_recommendations shipped_config 1 200 10
                (answering_world 200 (Ok (VDict [])))))
        (fun a => Ok (main_branch (fun _ => EmptyString) a))
  = Ok Nothing.
Proof.
  destruct (main_branch_after_fetch (fun _ => EmptyString) shipped_config
              1 200 10 (answering_world 200 (Ok (VDict []))))
    as (_ & _ & _ & _ & Hok).
  apply (Hok (mk_response 200 (Ok (VDict []))) (VDict [])); reflexivity.
Defined.

(* ================================================================== *)
(** * The normalised scores beyond the schema                          *)
(* ================================================================== *)

(** The clamp is one of the two ints or a float strictly below 1. *)
Lemma clamp_shape (q : spec_float) :
  clamp q = VInt 0 \/ clamp q = VInt 1
  \/ (clamp q = VFloat q /\ cmp_float_int q 1 = Some Lt
      /\ cmp_float_int q 0 = Some Gt).
Proof.
  unfold clamp.
  destruct (cmp_float_int q 1) as [[] |]; auto.
  destruct (cmp_float_int q 0) as [[] |]; auto.
Qed.

(** X7. The bar is full from 5.0 on: every double that is at least 5.0,
    plus infinity included, is normalised to the int 1. *)
Theorem score_norm_saturates (m : RecommendedMovie) :
  valid_binary prec emax (ranking_score m) = true ->
  SFleb float_5 (ranking_score m) = true ->
  score_norm (movie_json m) = Ok (VInt 1).
Proof.
  intros Hvalid Hle. rewrite score_norm_of_movie. f_equal.
  pose proof (clamp_quotient_monotone_all float_5 (ranking_score m)
                eq_refl Hvalid Hle) as Hmono.
  change (clamp (SFdiv prec emax float_5 float_5)) with (VInt 1) in Hmono.
  destruct (clamp_shape (SFdiv prec emax (ranking_score m) float_5))
    as [H0 | [H1 | (Hq & Hlt & _)]].
  - rewrite H0 in Hmono. discriminate.
  - exact H1.
  - rewrite Hq in Hmono. unfold num_le in Hmono. cbn [num_compare] in Hmono.
    rewrite Hlt in Hmono. discriminate.
Qed.

Lemma score_norm_saturates_witness :
  score_norm (movie_json (movie_scored float_1e308 float_0_9)) = Ok (VInt 1).
Proof.
  apply (score_norm_saturates (movie_scored float_1e308 float_0_9));
    reflexivity.
Defined.

(** A JSON number. *)
Definition is_number (v : pyval) : bool :=
  match v with
  | VInt _ | VFloat _ | VBool _ => true
  | _ => false
  end.

Lemma clamp_raises_on_other (v : pyval) :
  is_number v = false ->
  rbind (py_min (VInt 1) v) (fun lo => py_max (VInt 0) lo)
  = Raise (unsupported "<" v (VInt 1)).
Proof.
  destruct v; try discriminate; reflexivity.
Qed.

(** X8. [ret_norm] on any dict: it is computed exactly when the dict has a
    [retrieval_score] that is a number. An int is clamped as an int, with
    no conversion to float (0 for an int below 1, else 1), and a bool gives
    the int of its value; a missing key raises [KeyError] and any other
    value (null, text, list, object) raises [TypeError]. *)
Theorem ret_norm_on_any_dict (d : list (string * pyval)) :
  (assoc_lookup "retrieval_score" d = None ->
   ret_norm (VDict d) = Raise (mk_exn KeyError "'retrieval_score'"))
  /\ (forall v,
         assoc_lookup "retrieval_score" d = Some v ->
         is_number v = false ->
         exists e, ret_norm (VDict d) = Raise e /\ exc_type e = TypeError)
  /\ (forall z,
         assoc_lookup "retrieval_score" d = Some (VInt z) ->
         ret_norm (VDict d) = Ok (VInt (Z.max 0 (Z.min 1 z))))
  /\ (forall b,
         assoc_lookup "retrieval_score" d = Some (VBool b) ->
         ret_norm (VDict d) = Ok (VInt (int_of_bool b)))
  /\ (forall x,
         assoc_lookup "retrieval_score" d = Some (VFloat x) ->
         ret_norm (VDict d) = Ok (clamp x)).
Proof.
  unfold ret_norm. cbn [py_getitem].
  split; [| split; [| split; [| split]]].
  - intros ->. reflexivity.
  - intros v -> Hv. cbn [rbind]. rewrite (clamp_raises_on_other v Hv).
    eexists. split; reflexivity.
  - intros z ->. cbn [rbind].
    unfold py_min, py_max, py_lt, py_gt. cbn [num_compare rbind].
    destruct (Z.compare_spec z 1) as [-> | Hlt | Hgt]; cbn [rbind].
    + reflexivity.
    + cbn [num_compare].
      destruct (Z.compare_spec z 0) as [-> | Hneg | Hpos]; cbn [rbind];
        [reflexivity | f_equal; f_equal; lia | lia].
    + cbn. f_equal. f_equal. lia.
  - intros b ->. now destruct b.
  - intros x ->. cbn [rbind]. apply clamp_correct.
Qed.

Lemma ret_norm_on_any_dict_witness :
  ret_norm (VDict [("retrieval_score", VInt 7)]) = Ok (VInt 1)
  /\ exists e, ret_norm (VDict [("retrieval_score", VNone)]) = Raise e
               /\ exc_type e = TypeError.
Proof.
  split.
  - destruct (ret_norm_on_any_dict [("retrieval_score", VInt 7)])
      as (_ & _ & Hint & _).
    apply (Hint 7). reflexivity.
  - destruct (ret_norm_on_any_dict [("retrieval_score", VNone)])
      as (_ & Hother & _).
    apply (Hother VNone); reflexivity.
Defined.

(** X9. [score_norm] on any dict: a missing [ranking_score] raises
    [KeyError], a value that is not a number raises [TypeError] in the
    division, and an int too large for a double raises [OverflowError];
    whenever a result comes out, it lies between 0 and 1. *)
Theorem score_norm_on_any_dict (d : list (string * pyval)) :
  (assoc_lookup "ranking_score" d = None ->
   score_norm (VDict d) = Raise (mk_exn KeyError "'ranking_score'"))
  /\ (forall v,
         assoc_lookup "ranking_score" d = Some v ->
         is_number v = false ->
         exists e, score_norm (VDict d) = Raise e /\ exc_type e = TypeError)
  /\ (forall z e,
         assoc_lookup "ranking_score" d = Some (VInt z) ->
         float_of_int z = Raise e ->
         score_norm (VDict d) = Raise e /\ exc_type e = OverflowError)
  /\ (forall r,
         score_norm (VDict d) = Ok r ->
         num_le (VInt 0) r = true /\ num_le r (VInt 1) = true).
Proof.
  unfold score_norm. cbn [py_getitem].
  split; [| split; [| split]].
  - intros ->. reflexivity.
  - intros v -> Hv. cbn [rbind].
    destruct v; try discriminate; eexists; split; reflexivity.
  - intros z e -> Hz. cbn [rbind]. unfold py_truediv. rewrite Hz.
    split; [reflexivity |].
    unfold float_of_int in Hz.
    destruct (binary_normalize prec emax z 0 false); try discriminate.
    now injection Hz as <-.
  - intros r.
    destruct (assoc_lookup "ranking_score" d) as [v |]; [| discriminate].
    cbn [rbind].
    destruct (py_truediv v (VFloat float_5)) as [q | e] eqn:Hq;
      [| discriminate].
    assert (Hfloat : exists f, q = VFloat f).
    { unfold py_truediv in Hq.
      destruct v; try discriminate; cbn in Hq.
      - destruct (float_of_int (int_of_bool b)); cbn in Hq;
          [injection Hq as <-; eauto | discriminate].
      - destruct (float_of_int z); cbn in Hq;
          [injection Hq as <-; eauto | discriminate].
      - injection Hq as <-. eauto. }
    destruct Hfloat as (f & ->). cbn [rbind].
    rewrite clamp_correct. intros Hr. injection Hr as <-.
    apply clamp_range.
Qed.

Lemma score_norm_on_any_dict_witness :
  exists e, score_norm (VDict [("ranking_score", VInt (2 ^ 1024))]) = Raise e
            /\ exc_type e = OverflowError.
Proof.
  destruct (score_norm_on_any_dict [("ranking_score", VInt (2 ^ 1024))])
    as (_ & _ & Hbig & _).
  eexists. apply (Hbig (2 ^ 1024)); reflexivity.
Defined.

(* ================================================================== *)
(** * The genre tags beyond the schema                                 *)
(* ================================================================== *)

(** How often a character occurs in a text. *)
Fixpoint count_char (c : ascii) (s : string) : nat :=
  match s with
  | EmptyString => O
  | String c' rest =>
      if Ascii.eqb c' c then S (count_char c rest) else count_char c rest
  end.

Lemma split_length (sep : ascii) (s : string) :
  List.length (split sep s) = S (count_char sep s).
Proof.
  induction s as [| c rest IH]; [reflexivity |].
  cbn [split count_char].
  destruct (Ascii.eqb c sep).
  - cbn [List.length]. now rewrite IH.
  - pose proof (split_not_nil sep rest) as Hnil.
    destruct (split sep rest) as [| piece pieces]; [congruence |].
    exact IH.
Qed.

(** X10. The tags of any dict. A movie gets one tag more than its genres
    text has bars, hence at least one: an empty genres text is rendered as
    one empty tag, and a bar at the start, at the end or doubled gives an
    empty tag too. The tags are computed exactly when [genres] is there
    and is text: a missing key raises [KeyError], any other value (null,
    number, list) raises [AttributeError]. *)
Theorem genre_tags_on_any_dict (d : list (string * pyval)) :
  (forall s,
      assoc_lookup "genres" d = Some (VStr s) ->
      exists tags,
        genre_list (VDict d) = Ok tags
        /\ List.length tags = S (count_char pipe s)
        /\ genres_html (VDict d) = Ok (join EmptyString (map genre_tag tags))
        /\ (s = EmptyString -> tags = [EmptyString]))
  /\ (assoc_lookup "genres" d = None ->
      genres_html (VDict d) = Raise (mk_exn KeyError "'genres'"))
  /\ (forall v,
         assoc_lookup "genres" d = Some v ->
         (forall s, v <> VStr s) ->
         exists e, genres_html (VDict d) = Raise e
                   /\ exc_type e = AttributeError).
Proof.
  unfold genres_html, genre_list. cbn [py_getitem].
  split; [| split].
  - intros s ->. exists (split pipe s). cbn [rbind py_split_pipe].
    split; [reflexivity |]. split; [apply split_length |].
    split; [reflexivity |]. now intros ->.
  - intros ->. reflexivity.
  - intros v -> Hv. cbn [rbind].
    destruct v; try (eexists; split; reflexivity).
    now destruct (Hv s).
Qed.

Lemma genre_tags_on_any_dict_witness :
  exists tags,
    genre_list (VDict [("genres", VStr "Drama|")]) = Ok tags
    /\ List.length tags = 2%nat.
Proof.
  destruct (genre_tags_on_any_dict [("genres", VStr "Drama|")])
    as (Htext & _).
  destruct (Htext "Drama|" eq_refl) as (tags & Hrun & Hlen & _).
  exists tags. split; [exact Hrun | exact Hlen].
Defined.

(* ================================================================== *)
(** * The result loop: one card per movie, in two columns              *)
(* ================================================================== *)

(** [s * n] for a text: [n] copies, none when [n] is not positive. *)
Definition repeat_text (s : string) (n : Z) : string :=
  String.concat EmptyString (repeat s (Z.to_nat n)).

Section Cards.
(** [str] of floats, lists and dicts, and [format(x, ".<d>f")] of a float:
    Python's renderings, not decided by this program. *)
Variable py_repr : pyval -> string.
Variable format_fixed : nat -> spec_float -> string.

(** [format(v, ".<d>f")]: an int or a bool is converted to a float first;
    text has no such format code, and no other value takes a format. *)
Definition py_format_fixed (digits : nat) (v : pyval) : result string :=
  match v with
  | VFloat f => Ok (format_fixed digits f)
  | VInt z => rbind (float_of_int z) (fun f => Ok (format_fixed digits f))
  | VBool b =>
      rbind (float_of_int (int_of_bool b))
            (fun f => Ok (format_fixed digits f))
  | VStr _ =>
      Raise (mk_exn OtherException
               "Unknown format code 'f' for object of type 'str'")
  | _ =>
      Raise (mk_exn TypeError
               ("unsupported format string passed to " ++ type_name v
                  ++ ".__format__"))
  end.

(** [a * n] for an int [n]. *)
Definition py_mul (a : pyval) (n : Z) : result pyval :=
  match a with
  | VInt z => Ok (VInt (z * n))
  | VBool b => Ok (VInt (int_of_bool b * n))
  | VFloat f =>
      rbind (float_of_int n) (fun g => Ok (VFloat (SFmul prec emax f g)))
  | VStr s => Ok (VStr (repeat_text s n))
  | VList l => Ok (VList (List.concat (repeat l (Z.to_nat n))))
  | _ =>
      Raise (mk_exn TypeError
               ("unsupported operand type(s) for *: '" ++ type_name a
                  ++ "' and 'int'"))
  end.

(** The texts that the template of a card interpolates, in the order of
    the template. *)
Record card : Type := mk_card {
  card_rank : string;
  card_title : string;
  card_genres : string;
  card_year : string;
  card_rating : string;
  card_score_width : string;
  card_retrieval : string;
  card_ret_width : string
}.

(** The body of the loop for one movie: the four values computed first,
    then the interpolations of the template from left to right. *)
Definition render_card (movie : pyval) : result card :=
  rbind (score_norm movie) (fun v_score_norm =>
  rbind (ret_norm movie) (fun v_ret_norm =>
  rbind (genres_html movie) (fun v_genres_html =>
  rbind (year_str py_repr movie) (fun v_year_str =>
  rbind (py_getitem movie "rank") (fun v_rank =>
  rbind (py_getitem movie "title") (fun v_title =>
  rbind (rbind (py_getitem movie "ranking_score") (py_format_fixed 2))
        (fun rating =>
  rbind (rbind (py_mul v_score_norm 100) (py_format_fixed 1))
        (fun score_width =>
  rbind (rbind (py_getitem movie "retrieval_score") (py_format_fixed 4))
        (fun retrieval =>
  rbind (rbind (py_mul v_ret_norm 100) (py_format_fixed 1))
        (fun ret_width =>
  Ok (mk_card (py_str py_repr v_rank) (py_str py_repr v_title)
              v_genres_html v_year_str rating score_width retrieval
              ret_width))))))))))).

(** The cards put so far into the left and the right column. *)
Definition two_columns : Type := (list card * list card)%type.

(** [for i, movie in enumerate(recs)] from index [i] on: the card of a
    movie at an even index goes to the left column, at an odd index to the
    right one. An exception ends the loop; the cards already put stay. *)
Fixpoint render_cards (i : nat) (recs : list pyval) (cols : two_columns)
  : result unit * two_columns :=
  match recs with
  | [] => (Ok tt, cols)
  | movie :: rest =>
      match render_card movie with
      | Ok c =>
          render_cards (S i) rest
            (if Nat.even i then (fst cols ++ [c], snd cols)%list
             else (fst cols, snd cols ++ [c])%list)
      | Raise e => (Raise e, cols)
      end
  end.

(** The results of a list of recommendations: the cards, then the
    download. *)
Definition results_block (linesep : string) (uid : Z) (recs : list pyval)
  : result download * two_columns :=
  match render_cards 0 recs ([], []) with
  | (Ok _, cols) => (export py_repr linesep uid recs, cols)
  | (Raise e, cols) => (Raise e, cols)
  end.

End Cards.

(** Cards dealt in turn to two columns, the first to the left one when
    [left_first]. *)
Fixpoint alternate (left_first : bool) (cards : list card)
  : list card * list card :=
  match cards with
  | [] => ([], [])
  | c :: rest =>
      let (l, r) := alternate (negb left_first) rest in
      if left_first then (c :: l, r) else (l, c :: r)
  end.

(** Two columns read row by row. *)
Fixpoint interleave (l r : list card) : list card :=
  match l, r with
  | x :: l', y :: r' => x :: y :: interleave l' r'
  | _, _ => (l ++ r)%list
  end.

Lemma alternate_lengths (left_first : bool) (cards : list card) :
  (List.length (fst (alternate left_first cards))
   + List.length (snd (alternate left_first cards))
   = List.length cards)%nat
  /\ (if left_first
      then (List.length (snd (alternate left_first cards))
            <= List.length (fst (alternate left_first cards))
            <= S (List.length (snd (alternate left_first cards))))%nat
      else (List.length (fst (alternate left_first cards))
            <= List.length (snd (alternate left_first cards))
            <= S (List.length (fst (alternate left_first cards))))%nat).
Proof.
  revert left_first. induction cards as [| c rest IH]; intros left_first.
  - destruct left_first; cbn; lia.
  - cbn [alternate]. specialize (IH (negb left_first)).
    destruct (alternate (negb left_first) rest) as [l r].
    destruct left_first; cbn [negb fst snd List.length] in *; lia.
Qed.

Lemma interleave_alternate (cards : list card) :
  interleave (fst (alternate true cards)) (snd (alternate true cards)) = cards.
Proof.
  assert (Hstep : forall n cards, (List.length cards <= n)%nat ->
            interleave (fst (alternate true cards))
                       (snd (alternate true cards)) = cards).
  { intros n. induction n as [| n IH]; intros cs Hn.
    - destruct cs; [reflexivity | cbn in Hn; lia].
    - destruct cs as [| c1 [| c2 rest]]; try reflexivity.
      cbn [alternate negb]. specialize (IH rest).
      destruct (alternate true rest) as [l r]. cbn [fst snd interleave] in *.
      rewrite IH by (cbn in Hn; lia). reflexivity. }
  now apply (Hstep (List.length cards)).
Qed.

Lemma render_cards_all
  (py_repr : pyval -> string) (format_fixed : nat -> spec_float -> string)
  (recs : list pyval) (cards : list card) :
  Forall2 (fun movie c => render_card py_repr format_fixed movie = Ok c)
          recs cards ->
  forall i cols,
    render_cards py_repr format_fixed i recs cols
    = (Ok tt,
       ((fst cols ++ fst (alternate (Nat.even i) cards))%list,
        (snd cols ++ snd (alternate (Nat.even i) cards))%list)).
Proof.
  induction 1 as [| movie c rest cards' Hc Hrest IH]; intros i [L R].
  - cbn. now rewrite !app_nil_r.
  - cbn [render_cards alternate]. rewrite Hc, IH.
    rewrite Nat.even_succ, <- Nat.negb_even.
    destruct (alternate (negb (Nat.even i)) cards') as [l r].
    destruct (Nat.even i); cbn [negb fst snd];
      now rewrite <- ?app_assoc.
Qed.

Lemma render_cards_stops
  (py_repr : pyval -> string) (format_fixed : nat -> spec_float -> string)
  (good : list pyval) (cards : list card) (bad : pyval) (rest : list pyval)
  (e : exn) :
  Forall2 (fun movie c => render_card py_repr format_fixed movie = Ok c)
          good cards ->
  render_card py_repr format_fixed bad = Raise e ->
  forall i cols,
    render_cards py_repr format_fixed i (good ++ bad :: rest) cols
    = (Raise e,
       ((fst cols ++ fst (alternate (Nat.even i) cards))%list,
        (snd cols ++ snd (alternate (Nat.even i) cards))%list)).
Proof.
  intros Hgood Hbad.
  induction Hgood as [| movie c good' cards' Hc Hrest IH]; intros i [L R].
  - cbn. rewrite Hbad. now rewrite !app_nil_r.
  - cbn [render_cards alternate app]. rewrite Hc, IH.
    rewrite Nat.even_succ, <- Nat.negb_even.
    destruct (alternate (negb (Nat.even i)) cards') as [l r].
    destruct (Nat.even i); cbn [negb fst snd];
      now rewrite <- ?app_assoc.
Qed.

(** The card of a movie of the schema. *)
Lemma render_card_of_movie
  (py_repr : pyval -> string) (format_fixed : nat -> spec_float -> string)
  (m : RecommendedMovie) :
  exists score_width ret_width,
    render_card py_repr format_fixed (movie_json m)
    = Ok (mk_card (str_of_int (rank m)) (title m)
            (join EmptyString (map genre_tag (split pipe (genres m))))
            (match year m with
             | Some y => if y =? 0 then "N/A" else str_of_int y
             | None => "N/A"
             end)
            (format_fixed 2%nat (ranking_score m)) score_width
            (format_fixed 4%nat (retrieval_score m)) ret_width).
Proof.
  assert (Hwidth : forall q, exists text,
            rbind (py_mul (clamp q) 100) (py_format_fixed format_fixed 1)
            = Ok text).
  { intros q.
    destruct (clamp_shape q) as [-> | [-> | (-> & _)]];
      eexists; reflexivity. }
  destruct (Hwidth (SFdiv prec emax (ranking_score m) float_5))
    as (score_width & Hsw).
  destruct (Hwidth (retrieval_score m)) as (ret_width & Hrw).
  exists score_width, ret_width.
  unfold render_card.
  rewrite score_norm_of_movie, ret_norm_of_movie. cbn [rbind].
  rewrite Hsw, Hrw.
  replace (year_str py_repr (movie_json m))
    with (Ok (A := string)
             match year m with
             | Some y => if y =? 0 then "N/A" else str_of_int y
             | None => "N/A"
             end).
  - reflexivity.
  - unfold year_str, movie_json. cbn.
    destruct (year m) as [y |]; cbn; [| reflexivity].
    destruct (y =? 0); reflexivity.
Qed.

(** X11. For movies of the schema the loop never raises and puts one card
    per movie: the cards of the movies at even positions, in order, in the
    left column and the others in the right one, so that the columns read
    row by row give the cards in the order of the recommendations and the
    left column is as long as the right one or one longer. The download is
    then offered, and it is the export of the same list. *)
Theorem result_loop_two_columns
  (py_repr : pyval -> string) (format_fixed : nat -> spec_float -> string)
  (linesep : string) (uid : Z) (recs : list RecommendedMovie) :
  exists cards left right,
    Forall2 (fun m c => render_card py_repr format_fixed (movie_json m) = Ok c)
            recs cards
    /\ render_cards py_repr format_fixed 0 (map movie_json recs) ([], [])
       = (Ok tt, (left, right))
    /\ interleave left right = cards
    /\ (List.length right <= List.length left <= S (List.length right))%nat
    /\ (List.length left + List.length right = List.length recs)%nat
    /\ results_block py_repr format_fixed linesep uid (map movie_json recs)
       = (export py_repr linesep uid (map movie_json recs), (left, right)).
Proof.
  assert (Hcards : exists cards,
             Forall2 (fun m c =>
                        render_card py_repr format_fixed (movie_json m) = Ok c)
                     recs cards).
  { induction recs as [| m rest IH]; [exists []; constructor |].
    destruct IH as (cards & Hall).
    destruct (render_card_of_movie py_repr format_fixed m)
      as (sw & rw & Hc).
    eexists (_ :: cards). constructor; [exact Hc | exact Hall]. }
  destruct Hcards as (cards & Hall).
  exists cards, (fst (alternate true cards)), (snd (alternate true cards)).
  assert (Hall' : Forall2 (fun movie c =>
                             render_card py_repr format_fixed movie = Ok c)
                          (map movie_json recs) cards).
  { clear -Hall. induction Hall; cbn; constructor; assumption. }
  pose proof (render_cards_all py_repr format_fixed _ _ Hall' 0%nat ([], []))
    as Hrun.
  cbn [fst snd app Nat.even] in Hrun.
  destruct (alternate_lengths true cards) as [Hsum Hbal].
  split; [exact Hall |]. split; [exact Hrun |].
  split; [apply interleave_alternate |]. split; [exact Hbal |].
  split.
  - rewrite Hsum. symmetry. eapply Forall2_length. exact Hall.
  - unfold results_block. now rewrite Hrun.
Qed.

(** X12. The loop stops at the first movie whose card cannot be made (a
    missing key, a value of the wrong type): the exception leaves the
    block, the cards of the movies before it are already in their columns,
    no later movie is looked at, and no download is offered. *)
Theorem result_loop_stops_at_first_failure
  (py_repr : pyval -> string) (format_fixed : nat -> spec_float -> string)
  (linesep : string) (uid : Z)
  (good : list pyval) (cards : list card) (bad : pyval) (rest : list pyval)
  (e : exn) :
  Forall2 (fun movie c => render_card py_repr format_fixed movie = Ok c)
          good cards ->
  render_card py_repr format_fixed bad = Raise e ->
  render_cards py_repr format_fixed 0 (good ++ bad :: rest) ([], [])
  = (Raise e, alternate true cards)
  /\ results_block py_repr format_fixed linesep uid (good ++ bad :: rest)
     = (Raise e, alternate true cards)
  /\ interleave (fst (alternate true cards)) (snd (alternate true cards))
     = cards.
Proof.
  intros Hgood Hbad.
  pose proof (render_cards_stops py_repr format_fixed good cards bad rest e
                Hgood Hbad 0%nat ([], [])) as Hrun.
  cbn [fst snd app Nat.even] in Hrun.
  rewrite <- surjective_pairing in Hrun.
  split; [exact Hrun |].
  split; [unfold results_block; now rewrite Hrun |].
  apply interleave_alternate.
Qed.

Definition sample_format (digits : nat) (f : spec_float) : string := "<float>".

Lemma result_loop_stops_at_first_failure_witness :
  exists c,
    results_block (fun _ => EmptyString) sample_format newline 7
      [movie_json toy_story; VDict [("title", VStr "Untitled")];
       movie_json unrated_movie]
    = (Raise (mk_exn KeyError "'ranking_score'"), ([c], [])).
Proof.
  destruct (render_card_of_movie (fun _ => EmptyString) sample_format toy_story)
    as (sw & rw & Hc).
  eexists.
  apply (result_loop_stops_at_first_failure (fun _ => EmptyString)
           sample_format newline 7 [movie_json toy_story] [_]
           (VDict [("title", VStr "Untitled")]) [movie_json unrated_movie]).
  - constructor; [exact Hc | constructor].
  - reflexivity.
Defined.

(* ================================================================== *)
(** * The export beyond the schema                                     *)
(* ================================================================== *)

(** The keys of a movie that the export reads, in the order it reads
    them. *)
Definition movie_keys : list string :=
  ["rank"; "movie_id"; "title"; "genres"; "year"; "ranking_score";
   "retrieval_score"].

(** The first of the keys that a dict lacks. *)
Definition first_missing (d : list (string * pyval)) : option string :=
  find (fun k => match assoc_lookup k d with
                 | Some _ => false
                 | None => true
                 end) movie_keys.

(** A movie that has every key of the export. *)
Definition exportable (m : pyval) : bool :=
  match m with
  | VDict d => match first_missing d with
               | None => true
               | Some _ => false
               end
  | _ => false
  end.

Lemma export_record_of_dict (d : list (string * pyval)) :
  match first_missing d with
  | Some k => export_record (VDict d) = Raise (mk_exn KeyError ("'" ++ k ++ "'"))
  | None =>
      exists row,
        export_record (VDict d) = Ok (VDict row)
        /\ map fst row = export_labels
        /\ map (fun kv => Some (snd kv)) row
           = map (fun k => assoc_lookup k d) movie_keys
  end.
Proof.
  unfold first_missing, export_record, movie_keys. cbn [find py_getitem map].
  repeat (match goal with
          | |- context [assoc_lookup ?k d] =>
              destruct (assoc_lookup k d); cbn [rbind]; [| reflexivity]
          end).
  eexists. split; [reflexivity |]. split; reflexivity.
Qed.

Lemma export_record_exportable (m : pyval) :
  (exists row, export_record m = Ok row) <-> exportable m = true.
Proof.
  destruct m as [| b | z | f | s | l | d];
    try (split; [intros (row & Hrow); discriminate | discriminate]).
  pose proof (export_record_of_dict d) as Hd. cbn [exportable].
  destruct (first_missing d) as [k |].
  - split; [intros (row & Hrow); congruence | discriminate].
  - destruct Hd as (row & Hrow & _). split; [reflexivity | eauto].
Qed.

(** X13. The export of any list of movies. It builds its records exactly
    when every movie is an object with the seven keys it reads; then there
    is one record per movie, in order, each with the seven labels in the
    fixed order, whatever other keys the movie has. Otherwise the first
    movie that lacks a key ends the export with a [KeyError] naming the
    first key it lacks, and nothing is exported, not even the movies
    before it. *)
Theorem export_records_on_any_list (recs : list pyval) :
  ((exists rows, export_records recs = Ok rows)
   <-> forallb exportable recs = true)
  /\ (forall rows,
         export_records recs = Ok rows ->
         Forall2 (fun m row => export_record m = Ok row) recs rows
         /\ Forall (fun row => map fst (dict_items row) = export_labels) rows)
  /\ (forall good d rest k,
         recs = (good ++ VDict d :: rest)%list ->
         forallb exportable good = true ->
         first_missing d = Some k ->
         export_records recs = Raise (mk_exn KeyError ("'" ++ k ++ "'"))).
Proof.
  split; [| split].
  - induction recs as [| m rest IH]; cbn [export_records forallb].
    + split; [reflexivity | eauto].
    + rewrite andb_true_iff, <- IH, <- export_record_exportable.
      split.
      * intros (rows & Hrows).
        destruct (export_record m) as [row |]; [| discriminate].
        cbn [rbind] in Hrows.
        destruct (export_records rest) as [rows' |]; [| discriminate].
        eauto.
      * intros [(row & ->) (rows' & ->)]. cbn. eauto.
  - induction recs as [| m rest IH]; intros rows Hrows;
      cbn [export_records] in Hrows.
    + injection Hrows as <-. split; constructor.
    + destruct (export_record m) as [row |] eqn:Hrow; [| discriminate].
      cbn [rbind] in Hrows.
      destruct (export_records rest) as [rows' |]; [| discriminate].
      injection Hrows as <-.
      destruct (IH rows' eq_refl) as [Hall Hlabels].
      split; constructor; try assumption.
      destruct m as [| | | | | | d]; try discriminate.
      pose proof (export_record_of_dict d) as Hd.
      destruct (first_missing d); [congruence |].
      destruct Hd as (row' & Hrow' & Hkeys & _).
      rewrite Hrow in Hrow'. injection Hrow' as ->. exact Hkeys.
  - intros good d rest k -> Hgood Hmiss.
    induction good as [| m good' IH]; cbn [app export_records forallb] in *.
    + pose proof (export_record_of_dict d) as Hd. rewrite Hmiss in Hd.
      now rewrite Hd.
    + apply andb_true_iff in Hgood as [Hm Hgood'].
      apply export_record_exportable in Hm as (row & ->).
      cbn [rbind]. now rewrite (IH Hgood').
Qed.

Lemma export_records_on_any_list_witness :
  export_records [movie_json toy_story;
                  VDict [("rank", VInt 2); ("title", VStr "Untitled")]]
  = Raise (mk_exn KeyError "'movie_id'").
Proof.
  destruct (export_records_on_any_list
              [movie_json toy_story;
               VDict [("rank", VInt 2); ("title", VStr "Untitled")]])
    as (_ & _ & Hstop).
  apply (Hstop [movie_json toy_story]
               [("rank", VInt 2); ("title", VStr "Untitled")] [] "movie_id");
    reflexivity.
Defined.

Lemma str_of_int_injective (a b : Z) : str_of_int a = str_of_int b -> a = b.
Proof.
  unfold str_of_int. intros Heq.
  assert (Hparse : forall z,
            NilZero.int_of_string (NilZero.string_of_int (Z.to_int z))
            = Some (Z.to_int z)).
  { intros z. apply NilZero.isi; destruct z as [| p | p]; cbn;
      try discriminate; intros H; injection H as H;
      now apply (DecimalPos.Unsigned.to_uint_nonnil p). }
  apply DecimalZ.to_int_inj.
  pose proof (Hparse a) as Ha. rewrite Heq, Hparse in Ha. congruence.
Qed.

Lemma append_length (s t : string) :
  String.length (s ++ t) = (String.length s + String.length t)%nat.
Proof.
  induction s as [| c s IH]; cbn; [reflexivity | now rewrite IH].
Qed.

Lemma append_cancel_r (a b t : string) : a ++ t = b ++ t -> a = b.
Proof.
  revert b. induction a as [| c a IH]; intros [| c' b] Heq; cbn in Heq.
  - reflexivity.
  - exfalso. apply (f_equal String.length) in Heq.
    cbn in Heq. rewrite append_length in Heq. lia.
  - exfalso. apply (f_equal String.length) in Heq.
    cbn in Heq. rewrite append_length in Heq. lia.
  - injection Heq as -> Heq. f_equal. now apply IH.
Qed.

(** X14. The name of the download tells the user: whatever is exported,
    the file is named after the user id alone, two different user ids never
    get the same file name, and the type is always text/csv. *)
Theorem download_name_per_user
  (py_repr : pyval -> string) (linesep : string) (uid1 uid2 : Z)
  (recs1 recs2 : list pyval) (dl1 dl2 : download) :
  export py_repr linesep uid1 recs1 = Ok dl1 ->
  export py_repr linesep uid2 recs2 = Ok dl2 ->
  dl_mime dl1 = "text/csv"
  /\ dl_file_name dl1 = "recommendations_user_" ++ str_of_int uid1 ++ ".csv"
  /\ (dl_file_name dl1 = dl_file_name dl2 <-> uid1 = uid2).
Proof.
  unfold export. intros H1 H2.
  destruct (df_export recs1) as [df1 |]; [| discriminate].
  destruct (df_export recs2) as [df2 |]; [| discriminate].
  cbn [rbind] in H1, H2. injection H1 as <-. injection H2 as <-.
  cbn [dl_mime dl_file_name py_str].
  split; [reflexivity |]. split; [reflexivity |].
  split; [| now intros ->].
  intros Heq. injection Heq as Heq.
  apply append_cancel_r in Heq. now apply str_of_int_injective.
Qed.

Lemma download_name_per_user_witness :
  exists dl,
    export (fun _ => EmptyString) newline 42 (map movie_json two_movies)
    = Ok dl
    /\ dl_file_name dl = "recommendations_user_42.csv".
Proof.
  destruct (download_name_per_user (fun _ => EmptyString) newline 42 42
              (map movie_json two_movies) (map movie_json two_movies)
              _ _ eq_refl eq_refl) as (_ & Hname & _).
  eexists. split; [reflexivity | exact Hname].
Defined.

(** X15. The sidebar never asks for more final results than candidates:
    every value the [top_n] slider offers is below every value the [top_k]
    slider offers, and the script puts each where it belongs, so every
    recommend request that a run of the script issues carries a
    [top_n_final] below its [top_k_retrieve]; and each control starts at a
    value it offers. *)
Theorem sidebar_top_n_below_top_k :
  (forall n k,
      offers top_n_slider n = true -> offers top_k_slider k = true -> n < k)
  /\ (forall (py_repr : pyval -> string)
             (format_comma_float : spec_float -> string)
             (cfg : config) (s : sidebar) (w : world),
         sidebar_ok s = true ->
         exists new,
           sent (snd (script py_repr format_comma_float cfg s w))
           = (new ++ sent w)%list
           /\ forall req,
               In req new -> req_method req = POST ->
               exists payload n k,
                 req_json req = Some payload
                 /\ py_getitem payload "top_n_final" = Ok (VInt n)
                 /\ py_getitem payload "top_k_retrieve" = Ok (VInt k)
                 /\ offers top_n_slider n = true
                 /\ offers top_k_slider k = true
                 /\ n < k)
  /\ offers user_id_input (value user_id_input) = true
  /\ offers top_n_slider (value top_n_slider) = true
  /\ offers top_k_slider (value top_k_slider) = true.
Proof.
  assert (Hlt : forall n k,
             offers top_n_slider n = true -> offers top_k_slider k = true ->
             n < k).
  { intros n k Hn Hk. unfold offers in Hn, Hk. cbn in Hn, Hk.
    rewrite !andb_true_iff, !Z.leb_le in Hn, Hk. lia. }
  split; [exact Hlt |]. split; [| repeat split].
  intros py_repr format_comma_float cfg s w Hs.
  unfold sidebar_ok in Hs. rewrite !andb_true_iff in Hs.
  destruct Hs as [[_ Hn] Hk].
  destruct (script_posts py_repr format_comma_float cfg s w)
    as (new & Hsent & Hposts).
  exists new. split; [exact Hsent |].
  intros req Hin Hpost. rewrite (Hposts req Hin Hpost).
  exists (recommend_payload (user_id s) (top_k s) (top_n s)),
         (top_n s), (top_k s).
  split; [reflexivity |]. split; [reflexivity |]. split; [reflexivity |].
  split; [exact Hn |]. split; [exact Hk |]. now apply Hlt.
Qed.

Lemma sidebar_top_n_below_top_k_witness :
  exists new,
    sent (snd (script (fun _ => EmptyString) (fun _ => EmptyString)
                 shipped_config (mk_sidebar 42 30 50 true)
                 (answering_world 200 (Ok (VDict [])))))
    = (new ++ [])%list
    /\ forall req,
        In req new -> req_method req = POST ->
        exists payload n k,
          req_json req = Some payload
          /\ py_getitem payload "top_n_final" = Ok (VInt n)
          /\ py_getitem payload "top_k_retrieve" = Ok (VInt k)
          /\ offers top_n_slider n = true
          /\ offers top_k_slider k = true
          /\ n < k.
Proof.
  destruct sidebar_top_n_below_top_k as (_ & Hrun & _).
  apply (Hrun (fun _ => EmptyString) (fun _ => EmptyString) shipped_config
           (mk_sidebar 42 30 50 true) (answering_world 200 (Ok (VDict [])))).
  reflexivity.
Defined.

(* ================================================================== *)
(** * Properties of the stats panel                                    *)
(* ================================================================== *)

(** A text without the occurrences of a character. *)
Fixpoint remove_char (c : ascii) (s : string) : string :=
  match s with
  | EmptyString => EmptyString
  | String c' rest =>
      if Ascii.eqb c' c then remove_char c rest
      else String c' (remove_char c rest)
  end.

Lemma remove_group_digits (s : string) :
  remove_char ","%char (group_digits s) = remove_char ","%char s.
Proof.
  induction s as [| c rest IH]; [reflexivity |].
  cbn [group_digits remove_char].
  destruct (Ascii.eqb c ","%char);
    destruct (negb (Nat.eqb (String.length rest) 0)
              && Nat.eqb (String.length rest mod 3) 0);
    cbn [remove_char Ascii.eqb Bool.eqb]; now rewrite IH.
Qed.

Lemma digits_have_no_comma (d : Decimal.uint) :
  remove_char ","%char (NilEmpty.string_of_uint d) = NilEmpty.string_of_uint d.
Proof.
  induction d; cbn; now rewrite ?IHd.
Qed.

Lemma str_of_int_has_no_comma (z : Z) :
  remove_char ","%char (str_of_int z) = str_of_int z.
Proof.
  unfold str_of_int.
  destruct (Z.to_int z) as [d | d]; cbn [NilZero.string_of_int].
  - destruct d; try apply digits_have_no_comma. reflexivity.
  - cbn. f_equal. destruct d; try apply digits_have_no_comma. reflexivity.
Qed.

Lemma str_of_int_negative (p : positive) :
  str_of_int (Zneg p) = String "-"%char (str_of_int (Zpos p)).
Proof. reflexivity. Qed.

Lemma with_thousands_digits (z : Z) :
  remove_char ","%char (with_thousands z) = str_of_int z.
Proof.
  unfold with_thousands.
  destruct z as [| p | p]; cbn [Z.ltb Z.compare Z.opp].
  - reflexivity.
  - now rewrite remove_group_digits, str_of_int_has_no_comma.
  - rewrite str_of_int_negative. cbn [remove_char Ascii.eqb Bool.eqb].
    now rewrite remove_group_digits, str_of_int_has_no_comma.
Qed.

Lemma group_digits_length (s : string) :
  String.length (group_digits s)
  = (String.length s + (String.length s - 1) / 3)%nat.
Proof.
  induction s as [| c rest IH]; [reflexivity |].
  cbn [group_digits String.length].
  replace (S (String.length rest) - 1)%nat with (String.length rest) by lia.
  set (n := String.length rest) in *.
  destruct (Nat.eqb_spec n 0) as [Hz | Hnz]; cbn [negb andb].
  - rewrite IH, Hz. reflexivity.
  - destruct (Nat.eqb_spec (n mod 3) 0) as [Hm | Hm];
      cbn [String.length]; rewrite IH;
      pose proof (Nat.div_mod_eq n 3);
      pose proof (Nat.div_mod_eq (n - 1) 3);
      pose proof (Nat.mod_upper_bound n 3 ltac:(lia));
      pose proof (Nat.mod_upper_bound (n - 1) 3 ltac:(lia)); lia.
Qed.

(** X16. Without the backend the sidebar has no stats panel and the script
    goes on: when the request of [fetch_stats] fails (from an empty cache),
    or comes back with an empty object or with null, [sidebar_stats]
    returns no panel and raises nothing. *)
Theorem sidebar_stats_degrades
  (py_repr : pyval -> string) (format_comma_float : spec_float -> string)
  (cfg : config) (w : world) :
  stats_cache w = None ->
  (stats_fail cfg w ->
   fst (sidebar_stats py_repr format_comma_float cfg w) = Ok None)
  /\ (forall r body,
         stats_outcome cfg w = Ok r -> ok r = true -> json r = Ok body ->
         py_truthy body = false ->
         fst (sidebar_stats py_repr format_comma_float cfg w) = Ok None).
Proof.
  intros Hnone.
  destruct (fetch_stats_miss cfg w Hnone) as (v & Hrun & Hbody).
  destruct (run_fetch_stats_body cfg w) as (v' & Hrun' & Hv').
  rewrite Hrun' in Hbody. cbn in Hbody. injection Hbody as ->.
  unfold sidebar_stats, bind, lift. rewrite Hrun. cbn [fst].
  split.
  - intros Hfail. unfold stats_fail in Hfail.
    destruct (stats_outcome cfg w) as [r | e].
    + destruct Hfail as [Hok | [e He]].
      * rewrite Hok in Hv'. now subst.
      * rewrite He in Hv'. destruct (ok r); now subst.
    + now subst.
  - intros r body Hr Hok Hjson Hfalsy. rewrite Hr, Hok, Hjson in Hv'.
    subst v. unfold stats_panel. now rewrite Hfalsy.
Qed.

Lemma sidebar_stats_degrades_witness :
  fst (sidebar_stats (fun _ => EmptyString) (fun _ => EmptyString)
         shipped_config (refusing_world "Connection refused"))
  = Ok None.
Proof.
  apply (sidebar_stats_degrades (fun _ => EmptyString) (fun _ => EmptyString)
           shipped_config (refusing_world "Connection refused") eq_refl).
  exact I.
Defined.

(** X17. The numbers of the stats panel. For stats with int totals the
    panel shows the users and the movies with a comma between groups of
    three digits (taking the commas away gives back the decimal text of the
    number, and a number of [n] digits gets [(n - 1) / 3] commas) and the
    genres as plain decimal text. Stats that are not empty but lack one of
    the three keys raise [KeyError] for the first key that is missing: the
    panel has no default for a missing number. *)
Theorem stats_panel_numbers
  (py_repr : pyval -> string) (format_comma_float : spec_float -> string)
  (d : list (string * pyval)) :
  (forall users movies total_genres,
      assoc_lookup "total_users" d = Some (VInt users) ->
      assoc_lookup "total_movies" d = Some (VInt movies) ->
      assoc_lookup "total_genres" d = Some (VInt total_genres) ->
      stats_panel py_repr format_comma_float (VDict d)
      = Ok (Some (with_thousands users, with_thousands movies,
                  str_of_int total_genres)))
  /\ (forall z, remove_char ","%char (with_thousands z) = str_of_int z)
  /\ (forall z, 0 <= z ->
                String.length (with_thousands z)
                = (String.length (str_of_int z)
                   + (String.length (str_of_int z) - 1) / 3)%nat)
  /\ (d <> [] ->
      assoc_lookup "total_users" d = None ->
      stats_panel py_repr format_comma_float (VDict d)
      = Raise (mk_exn KeyError "'total_users'"))
  /\ (forall users,
         assoc_lookup "total_users" d = Some (VInt users) ->
         assoc_lookup "total_movies" d = None ->
         stats_panel py_repr format_comma_float (VDict d)
         = Raise (mk_exn KeyError "'total_movies'"))
  /\ (forall users movies,
         assoc_lookup "total_users" d = Some (VInt users) ->
         assoc_lookup "total_movies" d = Some (VInt movies) ->
         assoc_lookup "total_genres" d = None ->
         stats_panel py_repr format_comma_float (VDict d)
         = Raise (mk_exn KeyError "'total_genres'")).
Proof.
  assert (Htruthy : d <> [] -> py_truthy (VDict d) = true).
  { destruct d; [congruence | reflexivity]. }
  assert (Hsome : forall k v, assoc_lookup k d = Some v -> d <> []).
  { intros k v Hk ->. discriminate. }
  unfold stats_panel. cbn [py_getitem].
  split; [| split; [| split; [| split; [| split]]]].
  - intros users movies total_genres Hu Hm Hg.
    rewrite (Htruthy (Hsome _ _ Hu)), Hu, Hm, Hg. reflexivity.
  - exact with_thousands_digits.
  - intros z Hz. unfold with_thousands.
    replace (z <? 0) with false by (symmetry; apply Z.ltb_ge; lia).
    apply group_digits_length.
  - intros Hd Hu. rewrite (Htruthy Hd), Hu. reflexivity.
  - intros users Hu Hm. rewrite (Htruthy (Hsome _ _ Hu)), Hu, Hm. reflexivity.
  - intros users movies Hu Hm Hg.
    rewrite (Htruthy (Hsome _ _ Hu)), Hu, Hm, Hg. reflexivity.
Qed.

Lemma stats_panel_numbers_witness :
  stats_panel (fun _ => EmptyString) (fun _ => EmptyString)
    (VDict [("total_users", VInt 6040); ("total_movies", VInt 1000209);
            ("total_genres", VInt 18)])
  = Ok (Some ("6,040", "1,000,209", "18")).
Proof.
  destruct (stats_panel_numbers (fun _ => EmptyString) (fun _ => EmptyString)
              [("total_users", VInt 6040); ("total_movies", VInt 1000209);
               ("total_genres", VInt 18)]) as (Hshow & _).
  apply (Hshow 6040 1000209 18); reflexivity.
Defined.

(* ================================================================== *)
(** * Reruns of the script                                             *)
(* ================================================================== *)

(** Whether the panel of the stats is made without an exception. *)
Definition panel_ok
  (py_repr : pyval -> string) (format_comma_float : spec_float -> string)
  (stats : pyval) : bool :=
  match stats_panel py_repr format_comma_float stats with
  | Ok _ => true
  | Raise _ => false
  end.

(** The recommend request of a run whose sidebar got [stats], if the run
    sends one. *)
Definition post_of_run
  (py_repr : pyval -> string) (format_comma_float : spec_float -> string)
  (cfg : config) (s : sidebar) (w : world) (stats : pyval)
  : list http_request :=
  if recommend_btn s && probe_ok cfg w
     && panel_ok py_repr format_comma_float stats
  then [recommend_request cfg (user_id s) (top_k s) (top_n s)]
  else [].

Lemma script_from_empty_cache
  (py_repr : pyval -> string) (format_comma_float : spec_float -> string)
  (cfg : config) (s : sidebar) (w : world) :
  stats_cache w = None ->
  exists stats,
    snd (script py_repr format_comma_float cfg s w)
    = mk_world (net w)
        (post_of_run py_repr format_comma_float cfg s w stats
           ++ [stats_request cfg; health_request cfg] ++ sent w)%list
        (now w) (Some (now w, stats)).
Proof.
  intros Hnone. unfold script, sidebar_stats, bind, lift, post_of_run, panel_ok.
  destruct (check_api_health_probe cfg w) as (b & -> & -> & _).
  set (w1 := mk_world _ _ _ _).
  destruct (fetch_stats_miss cfg w1 Hnone) as (v & -> & _).
  exists v.
  destruct (stats_panel py_repr format_comma_float v) as [panel | e];
    [| now rewrite andb_false_r].
  rewrite andb_true_r.
  destruct (recommend_btn s); [destruct (probe_ok cfg w) |];
    cbn [andb negb ret snd]; try reflexivity.
  match goal with
  | |- context [fetch_recommendations cfg ?u ?k ?n ?w'] =>
      destruct (run_fetch_recommendations cfg u k n w') as (a & -> & _)
  end.
  reflexivity.
Qed.

Lemma script_from_fresh_cache
  (py_repr : pyval -> string) (format_comma_float : spec_float -> string)
  (cfg : config) (s : sidebar) (w : world) (stored_at : Q) (v : pyval) :
  stats_cache w = Some (stored_at, v) ->
  (now w < stored_at + 60)%Q ->
  snd (script py_repr format_comma_float cfg s w)
  = mk_world (net w)
      (post_of_run py_repr format_comma_float cfg s w v
         ++ [health_request cfg] ++ sent w)%list
      (now w) (stats_cache w).
Proof.
  intros Hsome Hfresh.
  unfold script, sidebar_stats, bind, lift, post_of_run, panel_ok.
  destruct (check_api_health_probe cfg w) as (b & -> & -> & _).
  set (w1 := mk_world _ _ _ _).
  rewrite (fetch_stats_hit cfg w1 stored_at v Hsome Hfresh).
  destruct (stats_panel py_repr format_comma_float v) as [panel | e];
    [| now rewrite andb_false_r].
  rewrite andb_true_r.
  destruct (recommend_btn s); [destruct (probe_ok cfg w) |];
    cbn [andb negb ret snd]; try reflexivity.
  match goal with
  | |- context [fetch_recommendations cfg ?u ?k ?n ?w'] =>
      destruct (run_fetch_recommendations cfg u k n w') as (a & -> & _)
  end.
  reflexivity.
Qed.

(** X18. Every interaction reruns the script, and the cache spares the
    backend the stats request: a first run from an empty cache sends the
    health probe and the stats request, and a rerun less than 60 seconds
    later sends the health probe again but no stats request; its sidebar
    gets the stats of the first run. Each of the two runs sends its
    recommend request exactly when its button was pressed, its probe
    succeeded and the panel of these stats is made without an exception,
    so stats that the panel cannot show keep every run of that minute from
    asking for recommendations. *)
Theorem script_rerun_within_a_minute
  (py_repr : pyval -> string) (format_comma_float : spec_float -> string)
  (cfg : config) (s1 s2 : sidebar) (w : world) (t1 t2 : Q) :
  stats_cache w = None ->
  (t2 < t1 + 60)%Q ->
  exists stats w1,
    snd (at_time t1 (script py_repr format_comma_float cfg s1) w) = w1
    /\ stats_cache w1 = Some (t1, stats)
    /\ sent w1
       = (post_of_run py_repr format_comma_float cfg s1 w stats
            ++ [stats_request cfg; health_request cfg] ++ sent w)%list
    /\ sent (snd (at_time t2 (script py_repr format_comma_float cfg s2) w1))
       = (post_of_run py_repr format_comma_float cfg s2 w1 stats
            ++ [health_request cfg] ++ sent w1)%list.
Proof.
  intros Hnone Hwin. unfold at_time.
  set (w0 := mk_world (net w) (sent w) t1 (stats_cache w)).
  destruct (script_from_empty_cache py_repr format_comma_float cfg s1 w0 Hnone)
    as (stats & Hrun1).
  exists stats. eexists. split; [reflexivity |].
  rewrite Hrun1. split; [reflexivity |]. split; [reflexivity |].
  erewrite script_from_fresh_cache; [reflexivity | reflexivity | exact Hwin].
Qed.

Definition sample_stats : pyval :=
  VDict [("total_users", VInt 6040); ("total_movies", VInt 3883);
         ("total_genres", VInt 18)].

(** Two runs half a minute apart: the button is pressed in the second
    one only; with stats that lack a total the second run sends no
    recommend request either. *)
Lemma script_rerun_within_a_minute_witness :
  sent (snd (at_time 30
               (script (fun _ => EmptyString) (fun _ => EmptyString)
                  shipped_config (mk_sidebar 1 10 200 true))
               (snd (at_time 0
                       (script (fun _ => EmptyString) (fun _ => EmptyString)
                          shipped_config (mk_sidebar 1 10 200 false))
                       (answering_world 200 (Ok sample_stats))))))
  = [recommend_request shipped_config 1 200 10;
     health_request shipped_config;
     stats_request shipped_config;
     health_request shipped_config]
  /\ sent (snd (at_time 30
                  (script (fun _ => EmptyString) (fun _ => EmptyString)
                     shipped_config (mk_sidebar 1 10 200 true))
                  (snd (at_time 0
                          (script (fun _ => EmptyString)
                             (fun _ => EmptyString)
                             shipped_config (mk_sidebar 1 10 200 false))
                          (answering_world 200
                             (Ok (VDict [("total_users", VInt 1)])))))))
     = [health_request shipped_config;
        stats_request shipped_config;
        health_request shipped_config].
Proof.
  split.
  - destruct (script_rerun_within_a_minute
                (fun _ => EmptyString) (fun _ => EmptyString) shipped_config
                (mk_sidebar 1 10 200 false) (mk_sidebar 1 10 200 true)
                (answering_world 200 (Ok sample_stats))
                0 30 eq_refl) as (stats & w1 & Hw1 & Hcache & _ & Hsent2);
      [lra |].
    subst w1. injection Hcache as <-. exact Hsent2.
  - destruct (script_rerun_within_a_minute
                (fun _ => EmptyString) (fun _ => EmptyString) shipped_config
                (mk_sidebar 1 10 200 false) (mk_sidebar 1 10 200 true)
                (answering_world 200 (Ok (VDict [("total_users", VInt 1)])))
                0 30 eq_refl) as (stats & w1 & Hw1 & Hcache & _ & Hsent2);
      [lra |].
    subst w1. injection Hcache as <-. exact Hsent2.
Defined.

(* ================================================================== *)
(** * The bars                                                         *)
(* ================================================================== *)

Lemma positive_double_canonical (m : positive) (e : Z) :
  bounded prec emax m e = true -> zero_or_canonical (S754_finite false m e).
Proof.
  intros Hb. right. now exists m, e.
Qed.

Lemma clamp_monotone (x y : spec_float) :
  valid_binary prec emax x = true -> valid_binary prec emax y = true ->
  SFleb x y = true ->
  num_le (clamp x) (clamp y) = true.
Proof.
  intros Hvx Hvy Hle.
  assert (Hlow : nonpositive x -> num_le (clamp x) (clamp y) = true).
  { intros Hx. rewrite (clamp_nonpositive x Hx). apply clamp_range. }
  destruct x as [sx | sx | | sx mx ex].
  - apply Hlow. left. now exists sx.
  - destruct sx; [apply Hlow; now right; right |].
    destruct y as [sy | sy | | sy my ey]; try discriminate.
    destruct sy; [discriminate | reflexivity].
  - discriminate.
  - destruct sx; [apply Hlow; right; left; now exists mx, ex |].
    destruct y as [sy | sy | | sy my ey]; try discriminate.
    + destruct sy; [discriminate |].
      change (clamp (S754_infinity false)) with (VInt 1). apply clamp_range.
    + destruct sy; [discriminate |].
      cbn [valid_binary] in Hvx, Hvy.
      unfold SFleb in Hle.
      rewrite (SFcompare_units mx my ex ey Hvx Hvy) in Hle.
      assert (Hu : units mx ex <= units my ey).
      { destruct (Z.compare_spec (units mx ex) (units my ey));
          [lia | lia | discriminate]. }
      destruct (clamp_canonical _ (positive_double_canonical mx ex Hvx))
        as [Hn1 Ho1].
      destruct (clamp_canonical _ (positive_double_canonical my ey Hvy))
        as [Hn2 Ho2].
      apply num_le_units; [assumption .. |].
      cbn [quotient_units] in Ho1, Ho2. lia.
Qed.

(** X19. The retrieval bars are ordered like the retrieval scores: for
    two movies whose scores are doubles [x <= y], the normalised score of
    the first is at most that of the second. *)
Theorem ret_norm_monotone (m1 m2 : RecommendedMovie) :
  valid_binary prec emax (retrieval_score m1) = true ->
  valid_binary prec emax (retrieval_score m2) = true ->
  SFleb (retrieval_score m1) (retrieval_score m2) = true ->
  exists r1 r2,
    ret_norm (movie_json m1) = Ok r1
    /\ ret_norm (movie_json m2) = Ok r2
    /\ num_le r1 r2 = true.
Proof.
  intros Hv1 Hv2 Hle.
  exists (clamp (retrieval_score m1)), (clamp (retrieval_score m2)).
  split; [apply ret_norm_of_movie |]. split; [apply ret_norm_of_movie |].
  now apply clamp_monotone.
Qed.

Lemma ret_norm_monotone_witness :
  exists r1 r2,
    ret_norm (movie_json (movie_scored float_5 float_minus_2)) = Ok r1
    /\ ret_norm (movie_json (movie_scored float_5 float_0_9)) = Ok r2
    /\ num_le r1 r2 = true.
Proof.
  apply (ret_norm_monotone (movie_scored float_5 float_minus_2)
                           (movie_scored float_5 float_0_9));
    reflexivity.
Defined.

(** The float 100.0, which [float_of_int 100] gives. *)
Definition float_100 : spec_float := S754_finite false 7036874417766400 (-46).

(** A double strictly between 0 and 1 times 100.0 is zero or a canonical
    double of at most 100: the product is below 100, and 100 lies on the
    grid of the rounding. Values are in units of 2^-1074. *)
Lemma SFmul_100_below_one (mx : positive) (ex : Z) :
  bounded prec emax mx ex = true ->
  units mx ex < 2 ^ 1074 ->
  zero_or_canonical (SFmul prec emax (S754_finite false mx ex) float_100)
  /\ quotient_units (SFmul prec emax (S754_finite false mx ex) float_100)
     <= 100 * 2 ^ 1074.
Proof.
  intros Hb Hone.
  destruct (bounded_facts mx ex Hb) as (HD & Hex & _).
  unfold SFmul, float_100. cbn [xorb].
  set (m100 := 7036874417766400%positive).
  set (e := ex + -46).
  set (A := Zpos (mx * m100)).
  assert (HA : A = Zpos mx * (100 * 2 ^ 46)) by reflexivity.
  assert (HApos : 0 < A) by reflexivity.
  (* the double is below 1 *)
  assert (Hexneg : ex < 0).
  { destruct (Z.le_gt_cases 0 ex) as [Hge |]; [| assumption]. exfalso.
    unfold units in Hone.
    assert (2 ^ 1074 <= 2 ^ (ex + 1074)) by (apply Z.pow_le_mono_r; lia).
    assert (0 < 2 ^ 1074) by (apply pow2_pos; lia). nia. }
  assert (Hmx : Zpos mx < 2 ^ (- ex)).
  { unfold units in Hone.
    assert (Hsplit : 2 ^ 1074 = 2 ^ (- ex) * 2 ^ (ex + 1074)).
    { rewrite <- Z.pow_add_r by lia. f_equal. lia. }
    assert (0 < 2 ^ (ex + 1074)) by (apply pow2_pos; lia).
    rewrite Hsplit in Hone. nia. }
  assert (HAhi : A < 100 * 2 ^ (- e)).
  { unfold e. replace (- (ex + -46)) with (- ex + 46) by lia.
    rewrite Z.pow_add_r by lia. rewrite HA.
    assert (0 < 2 ^ 46) by reflexivity. nia. }
  (* the rounding *)
  assert (Hloc : loc_Exact = location_of A 1).
  { unfold location_of. now rewrite Z.mod_1_r. }
  assert (Hround : binary_round_aux prec emax false A e loc_Exact
                   = binary_round_aux prec emax false (A / 1) e
                       (location_of A 1))
    by (now rewrite Z.div_1_r, <- Hloc).
  rewrite Hround, (binary_round_aux_spec false A 1 e ltac:(lia) ltac:(lia)).
  rewrite Z.div_1_r, Z.mul_1_l.
  set (D := Zdigits2 A).
  pose proof (Zdigits2_bounds A HApos) as [HDlo HDhi]. fold D in HDlo, HDhi.
  assert (HD53 : 53 <= D).
  { apply Zdigits2_ge; [exact HApos |]. rewrite HA.
    change (100 * 2 ^ 46) with (Zpos m100).
    assert (2 ^ (53 - 1) <= Zpos m100) by (now apply Z.leb_le). nia. }
  assert (HDe : D <= 7 - e).
  { apply Zdigits2_le; [unfold e; lia |]. split; [lia |].
    eapply Z.lt_le_trans; [exact HAhi |].
    replace (7 - e) with (7 + - e) by lia.
    rewrite Z.pow_add_r by (unfold e; lia).
    assert (0 < 2 ^ (- e)) by (apply pow2_pos; unfold e; lia).
    change (2 ^ 7) with 128. lia. }
  set (n := Z.max 0 (fexp prec emax (D + e) - e)).
  assert (Hn : n = Z.max (D - 53) (-1074 - e)).
  { unfold n, fexp, emin, prec, emax. lia. }
  set (k := e + n + 1074).
  assert (Hk : 0 <= k <= 1028) by (unfold k; lia).
  assert (Hn0 : 0 <= n) by (unfold n; lia).
  assert (Hpn : 0 < 2 ^ n) by now apply pow2_pos.
  replace (e + n) with (k - 1074) by (unfold k; lia).
  set (m := rne A (2 ^ n)).
  pose proof (rne_bounds A (2 ^ n)) as Hm. fold m in Hm.
  assert (Hq0 : 0 <= A / 2 ^ n) by (apply Z.div_pos; lia).
  assert (Hqhi : A / 2 ^ n < 2 ^ 53).
  { apply Z.div_lt_upper_bound; [exact Hpn |].
    rewrite <- Z.pow_add_r by lia.
    eapply Z.lt_le_trans; [exact HDhi |]. apply Z.pow_le_mono_r; lia. }
  assert (Hqlo : 0 < k -> 2 ^ 52 <= A / 2 ^ n).
  { intros Hkpos. assert (Hnd : n = D - 53) by (unfold k in Hkpos; lia).
    apply Z.div_le_lower_bound; [exact Hpn |].
    rewrite <- Z.pow_add_r by lia.
    replace (n + 52) with (D - 1) by lia. exact HDlo. }
  (* 100 lies on the grid, so the rounded product does not pass it *)
  assert (Hgrid : m <= 100 * 2 ^ (- e - n)).
  { assert (Hexact : rne (2 ^ n * (100 * 2 ^ (- e - n))) (2 ^ n)
                     = 100 * 2 ^ (- e - n)).
    { unfold rne, location_of.
      rewrite Z.mul_comm, Z.mod_mul, Z.div_mul by lia. reflexivity. }
    rewrite <- Hexact. apply rne_monotone; [exact Hpn |].
    replace (2 ^ n * (100 * 2 ^ (- e - n))) with (100 * 2 ^ (- e)); [lia |].
    replace (- e) with (n + (- e - n)) at 1 by lia.
    rewrite Z.pow_add_r by lia. ring. }
  assert (Hval : m * 2 ^ k <= 100 * 2 ^ 1074).
  { assert (Hsplit : 2 ^ 1074 = 2 ^ (- e - n) * 2 ^ k).
    { rewrite <- Z.pow_add_r by lia. f_equal. unfold k. lia. }
    assert (0 < 2 ^ k) by (apply pow2_pos; lia).
    rewrite Hsplit. nia. }
  assert (Hk' : 0 <= k <= 2043) by lia.
  assert (Hm' : 0 <= m <= 2 ^ 53) by lia.
  assert (Hnormal : 0 < k -> 2 ^ 52 <= m)
    by (intros Hkpos; specialize (Hqlo Hkpos); lia).
  clearbody m k.
  destruct (finish_canonical false m k Hk' Hm' Hnormal)
    as [[Hz ->] | (mr & er & -> & Hbr & Hu)].
  - split; [now left |]. cbn [quotient_units].
    assert (0 < 2 ^ 1074) by (apply pow2_pos; lia). lia.
  - split; [right; now exists mr, er |]. cbn [quotient_units].
    unfold units. rewrite Hu. exact Hval.
Qed.

(** The doubles a score or its quotient by 5.0 can be. *)
Definition bar_input (q : spec_float) : Prop :=
  zero_or_canonical q \/ nonpositive q
  \/ q = S754_nan \/ q = S754_infinity false.

Lemma valid_bar_input (x : spec_float) :
  valid_binary prec emax x = true -> bar_input x.
Proof.
  intros Hv. destruct x as [s | s | | s m e].
  - right; left. left. now exists s.
  - destruct s; [right; left; now right; right | now right; right; right].
  - now right; right; left.
  - destruct s; [right; left; right; left; now exists m, e |].
    left. now apply positive_double_canonical.
Qed.

Lemma quotient_bar_input (x : spec_float) :
  valid_binary prec emax x = true ->
  bar_input (SFdiv prec emax x float_5).
Proof.
  intros Hv. destruct x as [s | s | | s m e].
  - right; left. apply SFdiv_5_nonpositive. left. now exists s.
  - destruct s.
    + right; left. apply SFdiv_5_nonpositive. now right; right.
    + now right; right; right.
  - now right; right; left.
  - destruct s.
    + right; left. apply SFdiv_5_nonpositive. right; left. now exists m, e.
    + left. cbn [valid_binary] in Hv.
      now destruct (SFdiv_5_monotone m m e e Hv Hv (Z.le_refl _)) as (H & _).
Qed.

(** The width of a bar, [clamp q * 100], as a number of units of 2^-1074. *)
Lemma bar_width (q : spec_float) :
  bar_input q ->
  exists w,
    py_mul (clamp q) 100 = Ok w
    /\ plain_number w
    /\ 0 <= out_units w <= 100 * 2 ^ 1074.
Proof.
  assert (HP : 0 < 2 ^ 1074) by (apply pow2_pos; lia).
  assert (Hzero : exists w,
             py_mul (VInt 0) 100 = Ok w /\ plain_number w
             /\ 0 <= out_units w <= 100 * 2 ^ 1074).
  { exists (VInt 0). split; [reflexivity |].
    split; [left; now exists 0 |]. cbn [out_units]. lia. }
  assert (Hfull : exists w,
             py_mul (VInt 1) 100 = Ok w /\ plain_number w
             /\ 0 <= out_units w <= 100 * 2 ^ 1074).
  { exists (VInt 100). split; [reflexivity |].
    split; [left; now exists 100 |]. cbn [out_units]. lia. }
  intros [Hq | [Hq | [-> | ->]]].
  - destruct Hq as [-> | (m & e & -> & Hb)]; [exact Hzero |].
    destruct (bounded_facts m e Hb) as (_ & He & _).
    pose proof (units_pos m e ltac:(lia)) as Hu.
    unfold clamp. rewrite !(cmp_canonical_int m e _ Hb).
    destruct (Z.compare_spec (units m e) (1 * 2 ^ 1074)) as [Heq | Hlt | Hgt];
      [exact Hfull | | exact Hfull].
    replace (units m e ?= 0 * 2 ^ 1074) with Gt
      by (symmetry; apply Z.compare_gt_iff; lia).
    destruct (SFmul_100_below_one m e Hb ltac:(lia)) as [Hc Hhi].
    exists (VFloat (SFmul prec emax (S754_finite false m e) float_100)).
    split; [reflexivity |].
    split; [right; eexists; split; [reflexivity | exact Hc] |].
    cbn [out_units]. split; [| exact Hhi].
    destruct Hc as [-> | (mr & er & -> & Hbr)]; cbn [quotient_units]; [lia |].
    destruct (bounded_facts mr er Hbr) as (_ & Her & _).
    pose proof (units_pos mr er ltac:(lia)). lia.
  - rewrite (clamp_nonpositive q Hq). exact Hzero.
  - exact Hfull.
  - exact Hfull.
Qed.

Lemma bar_width_in_range (q : spec_float) :
  bar_input q ->
  exists w,
    py_mul (clamp q) 100 = Ok w
    /\ num_le (VInt 0) w = true /\ num_le w (VInt 100) = true.
Proof.
  assert (HP : 0 < 2 ^ 1074) by (apply pow2_pos; lia).
  intros Hq. destruct (bar_width q Hq) as (w & Hw & Hplain & Hlo & Hhi).
  exists w. split; [exact Hw |].
  split; apply num_le_units; try exact Hplain.
  - left. now exists 0.
  - cbn [out_units]. lia.
  - left. now exists 100.
  - cbn [out_units]. lia.
Qed.

(** X20. The two bars of a card never leave their track: for a movie of
    the schema whose scores are doubles (infinities and NaN included), the
    widths [score_norm*100] and [ret_norm*100] are computed without
    raising and lie between 0 and 100, the rounding of the product
    included. *)
Theorem bar_widths_within_track (m : RecommendedMovie) :
  valid_binary prec emax (ranking_score m) = true ->
  valid_binary prec emax (retrieval_score m) = true ->
  exists ws wr,
    rbind (score_norm (movie_json m)) (fun v => py_mul v 100) = Ok ws
    /\ rbind (ret_norm (movie_json m)) (fun v => py_mul v 100) = Ok wr
    /\ num_le (VInt 0) ws = true /\ num_le ws (VInt 100) = true
    /\ num_le (VInt 0) wr = true /\ num_le wr (VInt 100) = true.
Proof.
  intros Hvs Hvr.
  destruct (bar_width_in_range _ (quotient_bar_input _ Hvs))
    as (ws & Hws & Hs0 & Hs100).
  destruct (bar_width_in_range _ (valid_bar_input _ Hvr))
    as (wr & Hwr & Hr0 & Hr100).
  exists ws, wr.
  rewrite score_norm_of_movie, ret_norm_of_movie. cbn [rbind].
  repeat (split; [assumption |]). assumption.
Qed.

Lemma bar_widths_within_track_witness :
  exists ws wr,
    rbind (score_norm (movie_json (movie_scored float_4_5 float_0_9)))
          (fun v => py_mul v 100) = Ok ws
    /\ rbind (ret_norm (movie_json (movie_scored float_4_5 float_0_9)))
             (fun v => py_mul v 100) = Ok wr
    /\ num_le (VInt 0) ws = true /\ num_le ws (VInt 100) = true
    /\ num_le (VInt 0) wr = true /\ num_le wr (VInt 100) = true.
Proof.
  apply (bar_widths_within_track (movie_scored float_4_5 float_0_9));
    reflexivity.
Defined.
